(** * PayMintt: idempotent payment intake, webhook dispatch, retry sweep and
      reconciliation, as a shallow embedding of the TypeScript sources.

    Sources embedded here:
    - [src/components/ReconciliationEngine.tsx]        (module [Reconciliation])
    - [supabase/functions/webhooks/index.ts]           (modules [Hex], [Webhooks])
    - [supabase/functions/retry-webhooks/index.ts]     (module [RetryWebhooks])
    - [supabase/functions/payments/index.ts]           (module [Payments])

    Conventions.  A table with a primary or unique text key is a [gmap] on
    that key; the other tables are lists in row order.  Timestamps are
    milliseconds since the epoch ([Date.now()]), in [Z].  Where the source
    destructures [{ error }] from a store call, the error is drawn from the
    call's environment; where the source discards the result of a store
    call, the write is applied. *)

From Stdlib Require Import ZArith String Ascii List Bool Lia DecimalString.
From stdpp Require Import base option list gmap strings sorting.

Import ListNotations.

#[local] Set Warnings "-register-all".

Local Open Scope Z_scope.
Local Open Scope string_scope.

(* ===================================================================== *)
(** * Reconciliation matcher ([ReconciliationEngine.tsx]) *)
(* ===================================================================== *)

Module Reconciliation.

(** Row of [reconciliation_records], with the column types of
    [integrations/supabase/types.ts]. *)
Record ReconciliationRecord := mkRecord {
  rec_id : string;
  rec_uploaded_by : option string;
  rec_external_transaction_id : option string;
  rec_amount : option Z;
  rec_status : option string;
  rec_matched_payment_id : option string;
}.

(** Row of [payments] as the component reads it (types.ts: [amount] is a
    number, [external_payment_id] and [user_id] are nullable). *)
Record Payment := mkPayment {
  pay_id : string;
  pay_user_id : option string;
  pay_amount : Z;
  pay_external_payment_id : option string;
  pay_status : string;
  pay_created_at : Z;
}.

(** [record.amount === payment.amount]: a [null] amount equals no number. *)
Definition amountMatch (record : ReconciliationRecord) (payment : Payment) : bool :=
  bool_decide (rec_amount record = Some (pay_amount payment)).

(** [record.external_transaction_id === payment.external_payment_id]. *)
Definition idMatch (record : ReconciliationRecord) (payment : Payment) : bool :=
  bool_decide (rec_external_transaction_id record = pay_external_payment_id payment).

(** The inner [for (const payment of payments)] loop: the first payment in
    array order that passes both tests, then [break]. *)
Fixpoint findMatch (record : ReconciliationRecord) (payments : list Payment)
  : option Payment :=
  match payments with
  | [] => None
  | payment :: rest =>
      if amountMatch record payment && idMatch record payment
      then Some payment
      else findMatch record rest
  end.

(** [update({status: "matched", matched_payment_id}).eq("id", id)]. *)
Definition setMatched (pid : string) (row : ReconciliationRecord) : ReconciliationRecord :=
  mkRecord (rec_id row) (rec_uploaded_by row) (rec_external_transaction_id row)
           (rec_amount row) (Some "matched") (Some pid).

Definition updateMatched (id pid : string) (table : list ReconciliationRecord)
  : list ReconciliationRecord :=
  map (fun row => if bool_decide (rec_id row = id) then setMatched pid row else row) table.

(** State threaded through the outer loop: the table and the two counters. *)
Record RunState := mkRun {
  run_table : list ReconciliationRecord;
  run_matched : nat;
  run_unmatched : nat;
}.

(** The outer [for (const record of unmatchedRecords)] loop. *)
Fixpoint matchLoop (records : list ReconciliationRecord) (payments : list Payment)
    (st : RunState) : RunState :=
  match records with
  | [] => st
  | record :: rest =>
      match findMatch record payments with
      | Some payment =>
          matchLoop rest payments
            (mkRun (updateMatched (rec_id record) (pay_id payment) (run_table st))
                   (S (run_matched st)) (run_unmatched st))
      | None =>
          matchLoop rest payments
            (mkRun (run_table st) (run_matched st) (S (run_unmatched st)))
      end
  end.

(** The two [select]s: the caller's unmatched records and the caller's payments. *)
Definition selectUnmatched (user : string) (table : list ReconciliationRecord)
  : list ReconciliationRecord :=
  filter (fun r => rec_uploaded_by r = Some user /\ rec_status r = Some "unmatched") table.

Definition selectPayments (user : string) (payments : list Payment) : list Payment :=
  filter (fun p => pay_user_id p = Some user) payments.

Inductive RunResult :=
| AuthenticationRequired
| ReconciliationFailed
| ReconciliationComplete (total : nat) (st : RunState).

(** [runReconciliation]: [user] is [user.user?.id]; the two flags are
    [recordsError] and [paymentsError]. *)
Definition runReconciliation (user : option string) (recordsError paymentsError : bool)
    (table : list ReconciliationRecord) (payments : list Payment) : RunResult :=
  match user with
  | None => AuthenticationRequired
  | Some uid =>
      if recordsError then ReconciliationFailed
      else if paymentsError then ReconciliationFailed
      else
        let unmatchedRecords := selectUnmatched uid table in
        ReconciliationComplete (length unmatchedRecords)
          (matchLoop unmatchedRecords (selectPayments uid payments) (mkRun table 0 0))
  end.

(** The table a run leaves behind (unchanged when the run does not complete). *)
Definition tableAfter (table : list ReconciliationRecord) (r : RunResult)
  : list ReconciliationRecord :=
  match r with
  | ReconciliationComplete _ st => run_table st
  | _ => table
  end.

(** The rule of the spec, as a proposition. *)
Definition satisfiesBoth (record : ReconciliationRecord) (payment : Payment) : Prop :=
  rec_amount record = Some (pay_amount payment) /\
  rec_external_transaction_id record = pay_external_payment_id payment.

End Reconciliation.

(* ===================================================================== *)
(** * Values shared by the three edge functions *)
(* ===================================================================== *)

(** JSON values, as handed to [JSON.stringify] and stored in JSONB columns. *)
Inductive Json :=
| JNull
| JBool (b : bool)
| JNum (n : Z)
| JStr (s : string)
| JArr (items : list Json)
| JObj (fields : list (string * Json)).

(** JavaScript truthiness of a JSON value ([if (existingKey.response)]). *)
Definition truthy (j : Json) : bool :=
  match j with
  | JNull => false
  | JBool b => b
  | JNum n => negb (n =? 0)%Z
  | JStr s => negb (bool_decide (s = ""))
  | JArr _ | JObj _ => true
  end.

(** Truthiness of a string ([!signature], [!idempotencyKey]). *)
Definition nonEmpty (s : string) : bool := negb (bool_decide (s = "")).

(** Decimal rendering of a number inside a template literal. *)
Definition numToString (n : Z) : string :=
  DecimalString.NilZero.string_of_int (Z.to_int n).

(** Body of a [Response]: [null], a text, or [JSON.stringify] of a value. *)
Inductive Body :=
| BodyNull
| BodyText (s : string)
| BodyJson (j : Json).

Record Response := mkResponse {
  resp_status : Z;
  resp_body : Body;
}.

Definition jsonResponse (status : Z) (j : Json) : Response :=
  mkResponse status (BodyJson j).

Definition errorJson (message : string) : Json := JObj [("error", JStr message)].
Definition messageJson (message : string) : Json := JObj [("message", JStr message)].

(** ** Hexadecimal rendering of a digest *)

Module Hex.

Definition hexDigit (n : N) : ascii :=
  match n with
  | 0%N => "0" | 1%N => "1" | 2%N => "2" | 3%N => "3"
  | 4%N => "4" | 5%N => "5" | 6%N => "6" | 7%N => "7"
  | 8%N => "8" | 9%N => "9" | 10%N => "a" | 11%N => "b"
  | 12%N => "c" | 13%N => "d" | 14%N => "e" | _ => "f"
  end%char.

(** [b.toString(16)] for a byte: one digit below 16, two digits otherwise. *)
Definition toString16 (b : Byte.byte) : string :=
  let n := Byte.to_N b in
  if (n <? 16)%N then String (hexDigit n) EmptyString
  else String (hexDigit (n / 16)) (String (hexDigit (n mod 16)) EmptyString).

(** [s.padStart(2, '0')]. *)
Definition padStart2 (s : string) : string :=
  match s with
  | EmptyString => "00"
  | String c EmptyString => String "0"%char (String c EmptyString)
  | _ => s
  end.

(** [Array.from(bytes).map(b => b.toString(16).padStart(2, '0')).join('')]. *)
Definition toHex (bytes : list Byte.byte) : string :=
  String.concat "" (map (fun b => padStart2 (toString16 b)) bytes).

Definition isHexDigit (c : ascii) : bool :=
  existsb (fun d => bool_decide (c = d))
    (list_ascii_of_string "0123456789abcdef").

(** A string of lowercase hexadecimal digits only. *)
Fixpoint allHex (s : string) : bool :=
  match s with
  | EmptyString => true
  | String c rest => isHexDigit c && allHex rest
  end.

End Hex.

(** The words "lowercase hex" of the specification, written out on their
    own: two digits per byte, the high four bits first, the digits 0-9 and
    a-f by their character codes.  The rendering of the code is compared
    with this one. *)
Module HexSpec.

Definition lowercaseDigit (n : N) : ascii :=
  ascii_of_N (if (n <? 10)%N then 48 + n else 87 + n).

Fixpoint lowercaseHex (bytes : list Byte.byte) : string :=
  match bytes with
  | [] => EmptyString
  | b :: rest =>
      String (lowercaseDigit (Byte.to_N b / 16))
        (String (lowercaseDigit (Byte.to_N b mod 16)) (lowercaseHex rest))
  end.

End HexSpec.

(** ** String replacement *)

(** [s.replace(pattern, replacement)] with a string pattern: the first
    (leftmost) occurrence is replaced, the rest of the string is kept; a
    string without the pattern is returned as it is. *)
Fixpoint replaceFirst (pattern replacement s : string) : string :=
  if String.prefix pattern s
  then replacement +:+ String.substring (String.length pattern)
                         (String.length s - String.length pattern) s
  else match s with
       | EmptyString => EmptyString
       | String c rest => String c (replaceFirst pattern replacement rest)
       end.

(** ** The runtime the functions call into

    [crypto.subtle] and [JSON] are not code of this repository; the
    functions are embedded over any runtime of this interface. *)

Record PaymentRequest := mkPaymentRequest {
  amount_cents : option Z;
  currency : option string;
  customer_email : option string;
  payment_method : option string;
  user_id : option string;
}.

(** [data] of a webhook payload: the two members the handlers read. *)
Record EventData := mkEventData {
  data_payment_id : option string;
  data_gateway_id : option string;
}.

Record WebhookPayload := mkWebhookPayload {
  event_type : string;
  data : EventData;
  timestamp : string;
  event_id : string;
}.

Class Runtime := {
  (** [crypto.subtle.digest("SHA-256", encode(input))]: 32 bytes. *)
  sha256 : string -> list Byte.byte;
  sha256_length : forall input, length (sha256 input) = 32%nat;
  (** [importKey] of the secret followed by [sign] of the payload; [None]
      when either call rejects. *)
  hmacSha256 : string -> string -> option (list Byte.byte);
  (** [JSON.stringify(requestBody)]. *)
  stringifyRequest : PaymentRequest -> string;
  (** [JSON.parse(payload)]; [None] when it throws. *)
  parseWebhook : string -> option WebhookPayload;
}.

(** A small runtime on which the functions can be run on concrete inputs.
    Its digests are 32 bytes that depend on the input's length only; it
    rejects an empty HMAC key, as [importKey] does. *)
Definition sampleDigest (input : string) : list Byte.byte :=
  default Byte.x00 (Byte.of_N (N.of_nat (String.length input) mod 256))
    :: repeat Byte.x00 31.

Definition sampleStringify (r : PaymentRequest) : string :=
  numToString (default 0 (amount_cents r)) +:+ "/" +:+ default "" (currency r).

Definition sampleParse (text : string) : option WebhookPayload :=
  if String.prefix "{" text
  then Some (mkWebhookPayload "payment.succeeded"
               (mkEventData (Some "pay_1") (Some "gw_1")) "2025-01-01T00:00:00Z" text)
  else None.

Definition sampleRuntime : Runtime :=
  {| sha256 := sampleDigest;
     sha256_length := fun _ => eq_refl;
     hmacSha256 := fun secret payload =>
       if nonEmpty secret then Some (sampleDigest (secret +:+ payload)) else None;
     stringifyRequest := sampleStringify;
     parseWebhook := sampleParse |}.

(* ===================================================================== *)
(** * The store and the tasks that run against it *)
(* ===================================================================== *)

(** Row of [idempotency_keys]; the primary key [key] indexes the table. *)
Record IdempotencyKey := mkIdempotencyKey {
  ik_endpoint : string;
  ik_method : string;
  ik_request_hash : string;
  ik_locked : bool;
  ik_last_used_at : Z;
  ik_response : option Json;
  ik_status_code : option Z;
}.

(** Row of [payments]: the columns the properties below speak of.  The
    JSONB column [metadata], which the payment function and the three
    webhook handlers also write, is not represented; no statement below
    says anything about it. *)
Record PaymentRow := mkPaymentRow {
  p_id : string;
  p_amount_cents : Z;
  p_currency : string;
  p_customer_email : option string;
  p_payment_method : option string;
  p_user_id : option string;
  p_external_payment_id : option string;
  p_idempotency_key : string;
  p_status : string;
  p_gateway_ref : option string;
  p_created_at : Z;
}.

Record TransactionRow := mkTransactionRow {
  t_payment_id : string;
  t_external_transaction_id : string;
  t_transaction_type : string;
  t_amount : Z;
  t_currency : string;
  t_status : string;
  t_processed_at : option Z;
}.

Record AuditLog := mkAuditLog {
  a_user_id : option string;
  a_action : string;
  a_resource_type : string;
  a_resource_id : option string;
}.

(** Row of [webhook_events]; the unique [event_id] indexes the table. *)
Record WebhookEvent := mkWebhookEvent {
  we_id : string;
  we_event_type : string;
  we_source : string;
  we_payload : WebhookPayload;
  we_signature : string;
  we_processed : bool;
  we_processed_at : option Z;
}.

Record WebhookDelivery := mkWebhookDelivery {
  wd_id : Z;
  wd_event_type : string;
  wd_payload : WebhookPayload;
  wd_signature : string;
  wd_status : string;
  wd_attempts : N;
  wd_error : option string;
  wd_next_attempt_at : option Z;
  wd_delivered_at : option Z;
  wd_created_at : Z;
}.

Record DB := mkDB {
  idempotency_keys : gmap string IdempotencyKey;
  payments : list PaymentRow;
  transactions : list TransactionRow;
  audit_logs : list AuditLog;
  webhook_events : gmap string WebhookEvent;
  webhook_deliveries : list WebhookDelivery;
}.

Definition emptyDB : DB := mkDB ∅ [] [] [] ∅ [].

Definition withKeys (f : gmap string IdempotencyKey -> gmap string IdempotencyKey) (d : DB) : DB :=
  mkDB (f (idempotency_keys d)) (payments d) (transactions d) (audit_logs d)
       (webhook_events d) (webhook_deliveries d).

Definition withPayments (f : list PaymentRow -> list PaymentRow) (d : DB) : DB :=
  mkDB (idempotency_keys d) (f (payments d)) (transactions d) (audit_logs d)
       (webhook_events d) (webhook_deliveries d).

Definition withTransactions (f : list TransactionRow -> list TransactionRow) (d : DB) : DB :=
  mkDB (idempotency_keys d) (payments d) (f (transactions d)) (audit_logs d)
       (webhook_events d) (webhook_deliveries d).

Definition withAuditLogs (f : list AuditLog -> list AuditLog) (d : DB) : DB :=
  mkDB (idempotency_keys d) (payments d) (transactions d) (f (audit_logs d))
       (webhook_events d) (webhook_deliveries d).

Definition withEvents (f : gmap string WebhookEvent -> gmap string WebhookEvent) (d : DB) : DB :=
  mkDB (idempotency_keys d) (payments d) (transactions d) (audit_logs d)
       (f (webhook_events d)) (webhook_deliveries d).

Definition withDeliveries (f : list WebhookDelivery -> list WebhookDelivery) (d : DB) : DB :=
  mkDB (idempotency_keys d) (payments d) (transactions d) (audit_logs d)
       (webhook_events d) (f (webhook_deliveries d)).

(** [update(...).eq(column, value)] on a list table: every row that passes
    the filter is rewritten, the others are kept. *)
Definition updateWhere {A : Type} (p : A -> bool) (f : A -> A) (rows : list A) : list A :=
  map (fun row => if p row then f row else row) rows.

(** Writes to the idempotency ledger, in the order they are issued. *)
Inductive LedgerWrite :=
| Acquire (key : string)
| Release (key : string) (status_code : Z).

Record World := mkWorld {
  store : DB;
  ledger_trace : list LedgerWrite;
}.

(** An [async] function body: it runs against the store and either
    returns or throws. *)
Inductive Outcome (A : Type) :=
| Returned (a : A)
| Thrown (message : string).
Arguments Returned {A} a.
Arguments Thrown {A} message.

Definition Task (A : Type) : Type := World -> Outcome A * World.

Definition ret {A : Type} (a : A) : Task A := fun w => (Returned a, w).

Definition bind {A B : Type} (m : Task A) (k : A -> Task B) : Task B :=
  fun w =>
    match m w with
    | (Returned a, w') => k a w'
    | (Thrown message, w') => (Thrown message, w')
    end.

Definition throw {A : Type} (message : string) : Task A :=
  fun w => (Thrown message, w).

(** [try { body } catch (err) { handler(err.message) }]. *)
Definition tryCatch {A : Type} (body : Task A) (handler : string -> Task A) : Task A :=
  fun w =>
    match body w with
    | (Returned a, w') => (Returned a, w')
    | (Thrown message, w') => handler message w'
    end.

Definition getStore : Task DB := fun w => (Returned (store w), w).

Definition modifyStore (f : DB -> DB) : Task unit :=
  fun w => (Returned tt, mkWorld (f (store w)) (ledger_trace w)).

Definition emit (e : LedgerWrite) : Task unit :=
  fun w => (Returned tt, mkWorld (store w) (ledger_trace w ++ [e])%list).

(** With these instances a task is written [x ← m; k] and [m;; k]. *)
#[global] Instance task_ret : MRet Task := @ret.
#[global] Instance task_bind : MBind Task := fun A B k m => bind m k.

(** Unfolds the task combinators so that a task applied to a world
    computes. *)
Ltac unfold_task :=
  unfold mbind, task_bind, bind, mret, task_ret, ret, tryCatch, throw,
    getStore, modifyStore, emit.

(** A handler run under [serve] from a given store: its response, the
    store and the ledger trace.  When the handler itself throws, [serve] of
    std 0.190 answers with its default error response. *)
Definition run (t : Task Response) (d : DB) : Response * DB * list LedgerWrite :=
  match t (mkWorld d []) with
  | (Returned r, w) => (r, store w, ledger_trace w)
  | (Thrown _, w) =>
      (mkResponse 500 (BodyText "Internal Server Error"), store w, ledger_trace w)
  end.

(* ===================================================================== *)
(** * Webhook ingestion ([supabase/functions/webhooks/index.ts]) *)
(* ===================================================================== *)

Module Webhooks.

(** What one invocation reads from outside the store. *)
Record Env := mkEnv {
  now : Z;                          (* [Date.now()] *)
  WEBHOOK_SECRET : option string;   (* [Deno.env.get('WEBHOOK_SECRET')] *)
  new_event_id : string;            (* [id] the store gives the event row *)
  new_delivery_id : Z;              (* [id] the store gives the delivery row *)
  webhookError : bool;              (* the event insert reports an error *)
  deliveryError : bool;             (* the delivery insert reports an error *)
  paymentUpdateError : bool;        (* the payment update reports an error *)
}.

Record Request := mkRequest {
  req_method : string;
  req_signature : option string;    (* header [x-webhook-signature] *)
  req_text : string;                (* [await req.text()] *)
}.

(** [Math.min(Math.pow(2, attempt) * 60, 3600)], in seconds. *)
Definition nextAttemptDelay (attempt : N) : N := N.min (2 ^ attempt * 60) 3600.

(** [new Date(Date.now() + nextAttemptDelay * 1000)]. *)
Definition nextAttemptAt (now : Z) (attempt : N) : Z :=
  now + Z.of_N (nextAttemptDelay attempt) * 1000.

Definition setRetry (at_ : Z) (attempts : N) (d : WebhookDelivery) : WebhookDelivery :=
  mkWebhookDelivery (wd_id d) (wd_event_type d) (wd_payload d) (wd_signature d)
    (wd_status d) attempts (wd_error d) (Some at_) (wd_delivered_at d) (wd_created_at d).

Definition setStatusError (status : string) (error : option string) (d : WebhookDelivery)
  : WebhookDelivery :=
  mkWebhookDelivery (wd_id d) (wd_event_type d) (wd_payload d) (wd_signature d)
    status (wd_attempts d) error (wd_next_attempt_at d) (wd_delivered_at d) (wd_created_at d).

Definition setDelivered (at_ : Z) (d : WebhookDelivery) : WebhookDelivery :=
  mkWebhookDelivery (wd_id d) (wd_event_type d) (wd_payload d) (wd_signature d)
    "delivered" (wd_attempts d) (wd_error d) (wd_next_attempt_at d) (Some at_) (wd_created_at d).

Definition hasId (id : Z) (d : WebhookDelivery) : bool := (wd_id d =? id)%Z.

(** [scheduleRetry(supabase, deliveryId, attempt)]. *)
Definition scheduleRetry (now : Z) (deliveryId : Z) (attempt : N) : Task unit :=
  modifyStore (withDeliveries
    (updateWhere (hasId deliveryId) (setRetry (nextAttemptAt now attempt) (attempt + 1)))).

Definition setPaymentStatus (status : string) (gateway_ref : option string) (p : PaymentRow)
  : PaymentRow :=
  mkPaymentRow (p_id p) (p_amount_cents p) (p_currency p) (p_customer_email p)
    (p_payment_method p) (p_user_id p) (p_external_payment_id p) (p_idempotency_key p)
    status
    (match gateway_ref with Some g => Some g | None => p_gateway_ref p end)
    (p_created_at p).

(** [.eq('external_payment_id', data.payment_id)]: the filter value is the
    member rendered as text, so a missing member filters on ["undefined"]. *)
Definition paymentFilter (data : EventData) (p : PaymentRow) : bool :=
  bool_decide (p_external_payment_id p = Some (default "undefined" (data_payment_id data))).

(** The shared shape of [handlePaymentSucceeded], [handlePaymentFailed] and
    [handlePaymentRefunded]: update the payment, throw on a reported error,
    then write the audit record. *)
Definition applyPaymentEvent (env : Env) (status : string) (gateway_ref : option string)
    (action : string) (data : EventData) : Task unit :=
  if paymentUpdateError env
  then throw "Failed to update payment status"
  else
    modifyStore (withPayments
      (updateWhere (paymentFilter data) (setPaymentStatus status gateway_ref)));;
    modifyStore (withAuditLogs
      (fun logs => logs ++ [mkAuditLog None action "payment" (data_payment_id data)])%list).

Definition handlePaymentSucceeded (env : Env) (data : EventData) : Task unit :=
  applyPaymentEvent env "succeeded" (data_gateway_id data) "payment_succeeded" data.

Definition handlePaymentFailed (env : Env) (data : EventData) : Task unit :=
  applyPaymentEvent env "failed" (data_gateway_id data) "payment_failed" data.

Definition handlePaymentRefunded (env : Env) (data : EventData) : Task unit :=
  applyPaymentEvent env "refunded" None "payment_refunded" data.

(** [processWebhookEvent]: the [switch] on the event type. *)
Definition processWebhookEvent (env : Env) (eventData : WebhookPayload) : Task unit :=
  if event_type eventData =? "payment.succeeded" then handlePaymentSucceeded env (data eventData)
  else if event_type eventData =? "payment.failed" then handlePaymentFailed env (data eventData)
  else if event_type eventData =? "payment.refunded" then handlePaymentRefunded env (data eventData)
  else mret tt.

Definition setProcessed (at_ : Z) (e : WebhookEvent) : WebhookEvent :=
  mkWebhookEvent (we_id e) (we_event_type e) (we_source e) (we_payload e)
    (we_signature e) true (Some at_).

Section WithRuntime.
Context `{Runtime}.

(** [verifyHMACSignature(payload, signature, secret)]; the [catch] turns a
    rejected crypto call into [false]. *)
Definition verifyHMACSignature (payload signature secret : string) : bool :=
  match hmacSha256 secret payload with
  | Some computedSignature =>
      let computedHex := Hex.toHex computedSignature in
      let expectedSignature := replaceFirst "sha256=" "" signature in
      bool_decide (computedHex = expectedSignature)
  | None => false
  end.

(** The part of [handler] after the event is known to be new. *)
Definition storeAndProcess (env : Env) (signature : string) (webhookData : WebhookPayload)
  : Task Response :=
  if webhookError env
  then mret (jsonResponse 500 (errorJson "Failed to store event"))
  else
    let webhookEvent :=
      mkWebhookEvent (new_event_id env) (event_type webhookData) "payment_gateway"
        webhookData signature false None in
    modifyStore (withEvents (insert (event_id webhookData) webhookEvent));;
    let delivery :=
      if deliveryError env then None
      else Some (mkWebhookDelivery (new_delivery_id env) (event_type webhookData)
                   webhookData signature "processing" 1 None None None (now env)) in
    match delivery with
    | Some row => modifyStore (withDeliveries (fun rows => rows ++ [row])%list)
    | None => mret tt
    end;;
    tryCatch
      (processWebhookEvent env webhookData;;
       modifyStore (withEvents
         (fmap (fun e => if we_id e =? we_id webhookEvent then setProcessed (now env) e else e)));;
       match delivery with
       | Some row =>
           modifyStore (withDeliveries
             (updateWhere (hasId (wd_id row)) (setDelivered (now env))))
       | None => mret tt
       end;;
       mret (jsonResponse 200 (messageJson "Webhook processed successfully")))
      (fun message =>
         match delivery with
         | Some row =>
             if (wd_attempts row <? 5)%N
             then
               modifyStore (withDeliveries
                 (updateWhere (hasId (wd_id row)) (setStatusError "failed" (Some message))));;
               scheduleRetry (now env) (wd_id row) (wd_attempts row)
             else
               modifyStore (withDeliveries
                 (updateWhere (hasId (wd_id row)) (setStatusError "abandoned" (Some message))))
         | None => mret tt
         end;;
         mret (jsonResponse 500 (errorJson "Processing failed, will retry"))).

(** The [try] block of [handler]. *)
Definition handlePost (env : Env) (req : Request) : Task Response :=
  match req_signature req, WEBHOOK_SECRET env with
  | Some signature, Some webhookSecret =>
      if nonEmpty signature && nonEmpty webhookSecret
      then
        let payload := req_text req in
        if negb (verifyHMACSignature payload signature webhookSecret)
        then mret (jsonResponse 401 (errorJson "Invalid signature"))
        else
          match parseWebhook payload with
          | None => throw "SyntaxError"
          | Some webhookData =>
              d ← getStore;
              match webhook_events d !! event_id webhookData with
              | Some existingEvent =>
                  mret (jsonResponse 200 (messageJson "Event already processed"))
              | None => storeAndProcess env signature webhookData
              end
          end
      else mret (jsonResponse 400 (errorJson "Missing signature or webhook secret"))
  | _, _ => mret (jsonResponse 400 (errorJson "Missing signature or webhook secret"))
  end.

Definition handler (env : Env) (req : Request) : Task Response :=
  if req_method req =? "OPTIONS" then mret (mkResponse 200 BodyNull)
  else if negb (req_method req =? "POST")
  then mret (jsonResponse 405 (errorJson "Method not allowed"))
  else
    tryCatch (handlePost env req)
      (fun _ => mret (jsonResponse 500 (errorJson "Internal server error"))).

End WithRuntime.

End Webhooks.

(* ===================================================================== *)
(** * Retry sweep ([supabase/functions/retry-webhooks/index.ts]) *)
(* ===================================================================== *)

Module RetryWebhooks.

(** What [fetch] does for one delivery. *)
Inductive FetchResult :=
| Responded (status : Z) (text : string)
| Rejected (message : string).

Record Env := mkEnv {
  now : Z;                                   (* [Date.now()] *)
  WEBHOOK_URL : option string;               (* [Deno.env.get('WEBHOOK_URL')] *)
  fetchResult : WebhookDelivery -> FetchResult;
  selectError : bool;                        (* the sweep's select reports an error *)
}.

(** [response.ok]. *)
Definition ok (status : Z) : bool := (200 <=? status)%Z && (status <=? 299)%Z.

Definition setDeliveredClear (at_ : Z) (d : WebhookDelivery) : WebhookDelivery :=
  mkWebhookDelivery (wd_id d) (wd_event_type d) (wd_payload d) (wd_signature d)
    "delivered" (wd_attempts d) None (wd_next_attempt_at d) (Some at_) (wd_created_at d).

Definition setFailed (error : string) (attempts : N) (d : WebhookDelivery) : WebhookDelivery :=
  mkWebhookDelivery (wd_id d) (wd_event_type d) (wd_payload d) (wd_signature d)
    "failed" attempts (Some error) (wd_next_attempt_at d) (wd_delivered_at d) (wd_created_at d).

Definition updateDelivery (id : Z) (f : WebhookDelivery -> WebhookDelivery) : Task unit :=
  modifyStore (withDeliveries (updateWhere (Webhooks.hasId id) f)).

(** [retryFailedWebhook(supabase, delivery)].  [delivery] is the row as the
    sweep selected it; the writes go to the store. *)
Definition retryFailedWebhook (env : Env) (delivery : WebhookDelivery) : Task bool :=
  match WEBHOOK_URL env with
  | None => mret false
  | Some webhookUrl =>
      if negb (nonEmpty webhookUrl) then mret false
      else
        match fetchResult env delivery with
        | Responded status errorText =>
            if ok status
            then
              updateDelivery (wd_id delivery) (setDeliveredClear (now env));;
              mret true
            else
              updateDelivery (wd_id delivery)
                (setFailed ("HTTP " +:+ numToString status +:+ ": " +:+ errorText)
                           (wd_attempts delivery + 1));;
              mret false
        | Rejected message =>
            updateDelivery (wd_id delivery)
              (setFailed message (wd_attempts delivery + 1));;
            mret false
        end
  end.

Definition maxRetries : N := 5.

(** [scheduleNextRetry(supabase, delivery)], on the same selected row. *)
Definition scheduleNextRetry (env : Env) (delivery : WebhookDelivery) : Task unit :=
  let nextAttempt := (wd_attempts delivery + 1)%N in
  if (maxRetries <=? nextAttempt)%N
  then
    updateDelivery (wd_id delivery)
      (Webhooks.setStatusError "abandoned"
         (Some ("Maximum retry attempts (" +:+ numToString (Z.of_N maxRetries) +:+ ") exceeded")))
  else
    updateDelivery (wd_id delivery)
      (Webhooks.setRetry (Webhooks.nextAttemptAt (now env) nextAttempt) nextAttempt).

Record Results := mkResults {
  processed : nat;
  succeeded : nat;
  failed : nat;
  abandoned : nat;
}.

(** [.select('status').eq('id', id).single()]: the row when exactly one
    row has the id. *)
Definition selectSingle (id : Z) (rows : list WebhookDelivery) : option WebhookDelivery :=
  match List.filter (Webhooks.hasId id) rows with
  | [row] => Some row
  | _ => None
  end.

(** One turn of the [for (const delivery of failedDeliveries)] loop. *)
Definition retryOne (env : Env) (delivery : WebhookDelivery) (results : Results)
  : Task Results :=
  success ← retryFailedWebhook env delivery;
  if success : bool
  then mret (mkResults (S (processed results)) (S (succeeded results))
               (failed results) (abandoned results))
  else
    scheduleNextRetry env delivery;;
    d ← getStore;
    let isAbandoned :=
      match selectSingle (wd_id delivery) (webhook_deliveries d) with
      | Some updatedDelivery => wd_status updatedDelivery =? "abandoned"
      | None => false
      end in
    mret (mkResults (S (processed results)) (succeeded results)
            (S (failed results))
            (if isAbandoned then S (abandoned results) else abandoned results)).

Fixpoint retryAll (env : Env) (deliveries : list WebhookDelivery) (results : Results)
  : Task Results :=
  match deliveries with
  | [] => mret results
  | delivery :: rest =>
      results' ← retryOne env delivery results;
      retryAll env rest results'
  end.

(** [.eq('status', 'failed').lte('next_attempt_at', now)
     .order('created_at', { ascending: true }).limit(50)]. *)
Definition isDue (now : Z) (d : WebhookDelivery) : bool :=
  (wd_status d =? "failed") &&
  match wd_next_attempt_at d with
  | Some t => (t <=? now)%Z
  | None => false
  end.

Definition createdBefore (a b : WebhookDelivery) : Prop :=
  (wd_created_at a <= wd_created_at b)%Z.

#[global] Instance createdBefore_dec (a b : WebhookDelivery) : Decision (createdBefore a b).
Proof. unfold createdBefore. apply _. Defined.

Definition selectFailedDeliveries (now : Z) (rows : list WebhookDelivery)
  : list WebhookDelivery :=
  take 50 (merge_sort createdBefore (List.filter (isDue now) rows)).

Definition resultsJson (r : Results) : Json :=
  JObj [("processed", JNum (Z.of_nat (processed r)));
        ("succeeded", JNum (Z.of_nat (succeeded r)));
        ("failed", JNum (Z.of_nat (failed r)));
        ("abandoned", JNum (Z.of_nat (abandoned r)))].

(** The [try] block of [handler]. *)
Definition sweep (env : Env) : Task Response :=
  d ← getStore;
  if selectError env
  then mret (jsonResponse 500 (errorJson "Failed to fetch deliveries"))
  else
    match selectFailedDeliveries (now env) (webhook_deliveries d) with
    | [] => mret (jsonResponse 200 (messageJson "No deliveries to retry"))
    | failedDeliveries =>
        results ← retryAll env failedDeliveries (mkResults 0 0 0 0);
        modifyStore (withAuditLogs
          (fun logs => logs ++ [mkAuditLog None "webhook_retry_run"
                                  "webhook_delivery" (Some "bulk")])%list);;
        mret (jsonResponse 200
                (JObj [("message", JStr "Retry process completed");
                       ("results", resultsJson results)]))
    end.

Definition handler (env : Env) (method : string) : Task Response :=
  if method =? "OPTIONS" then mret (mkResponse 200 BodyNull)
  else
    tryCatch (sweep env)
      (fun _ => mret (jsonResponse 500 (errorJson "Internal server error"))).

End RetryWebhooks.

(** ** Outcome of one attempt

    Two tests the statements about the sweep are phrased with. *)

Module RetryOutcome.
Import RetryWebhooks.

(** Whether [retryFailedWebhook] returns [true] for a delivery: a
    destination is configured and answers with a 2xx status. *)
Definition attemptSucceeds (env : Env) (delivery : WebhookDelivery) : bool :=
  match WEBHOOK_URL env with
  | Some webhookUrl =>
      nonEmpty webhookUrl &&
      match fetchResult env delivery with
      | Responded status _ => ok status
      | Rejected _ => false
      end
  | None => false
  end.

(** Whether [retryFailedWebhook] gets past its first test and sends the
    request. *)
Definition destinationConfigured (env : Env) : bool :=
  match WEBHOOK_URL env with
  | Some webhookUrl => nonEmpty webhookUrl
  | None => false
  end.

(** The test of [scheduleNextRetry]: the next attempt would be the fifth. *)
Definition attemptsExhausted (delivery : WebhookDelivery) : bool :=
  (maxRetries <=? wd_attempts delivery + 1)%N.

End RetryOutcome.

(* ===================================================================== *)
(** * Payment intake ([supabase/functions/payments/index.ts]) *)
(* ===================================================================== *)

Module Payments.

(** [{ data: payment, error: paymentError }] of the payment insert. *)
Inductive InsertResult :=
| Inserted
| InsertError (message : string)
| NoRow.

(** [await req.json()]: the promise rejects when the body is not JSON;
    otherwise it resolves to [null] or to another value, seen through the
    members the function reads (a value that is not an object has none). *)
Inductive RequestJson :=
| JsonRejected
| JsonNull
| JsonValue (requestBody : PaymentRequest).

(** What one invocation reads from outside the store. *)
Record Env := mkEnv {
  now : Z;                      (* [Date.now()] *)
  random_suffix : string;       (* [Math.random().toString(36).slice(2, 11)] *)
  gateway_succeeds : bool;      (* [Math.random() > 0.1] *)
  new_payment_id : string;      (* [id] the store gives the payment row *)
  keySelectErr : bool;          (* the ledger lookup reports an error *)
  lockError : bool;             (* the ledger upsert reports an error *)
  paymentInsert : InsertResult;
  updateError : bool;           (* the payment update reports an error *)
  txnError : bool;              (* the transaction insert reports an error *)
  releaseError : bool;          (* the ledger update that stores the response
                                   reports an error; the source discards it *)
}.

Record Request := mkRequest {
  req_method : string;
  req_idempotency_key : option string;   (* header [Idempotency-Key] *)
  req_json : RequestJson;
}.

(** [!requestBody.amount_cents || requestBody.amount_cents <= 0]. *)
Definition invalidAmount (requestBody : PaymentRequest) : bool :=
  match amount_cents requestBody with
  | None => true
  | Some a => (a =? 0)%Z || (a <=? 0)%Z
  end.

(** The three early answers of the [if (existingKey)] block, or [None]
    when the request goes on to take the lock. *)
Definition answerFromLedger (existingKey : option IdempotencyKey) (requestHash : string)
  : option Response :=
  match existingKey with
  | None => None
  | Some ek =>
      if nonEmpty (ik_request_hash ek) && negb (ik_request_hash ek =? requestHash)
      then Some (jsonResponse 409
                   (JObj [("error", JStr "Idempotency key conflict");
                          ("message", JStr "Key used with different request body")]))
      else if ik_locked ek
      then Some (jsonResponse 409 (errorJson "Request is being processed"))
      else
        match ik_response ek with
        | Some response =>
            if truthy response
            then Some (jsonResponse (default 200 (ik_status_code ek)) response)
            else None
        | None => None
        end
  end.

(** [upsert({key, endpoint, method, request_hash, locked: true, last_used_at})]:
    a new row has no response; an existing row keeps the columns the call
    does not name. *)
Definition lockedRow (requestHash : string) (now : Z) (existing : option IdempotencyKey)
  : option IdempotencyKey :=
  Some (mkIdempotencyKey "/payments" "POST" requestHash true now
          (existing ≫= ik_response) (existing ≫= ik_status_code)).

(** [update({response, status_code, locked: false}).eq("key", key)]. *)
Definition releasedRow (response : Json) (status_code : Z) (row : IdempotencyKey)
  : IdempotencyKey :=
  mkIdempotencyKey (ik_endpoint row) (ik_method row) (ik_request_hash row) false
    (ik_last_used_at row) (Some response) (Some status_code).

(** The update that stores the response and unlocks.  Its result is not
    looked at: when the store refuses it the row stays as it was and the
    function goes on. *)
Definition release (env : Env) (key : string) (response : Json) (status_code : Z)
  : Task unit :=
  (if releaseError env then mret tt
   else modifyStore (withKeys (alter (releasedRow response status_code) key)));;
  emit (Release key status_code).

Definition setGatewayResult (status gateway_ref : string) (p : PaymentRow) : PaymentRow :=
  mkPaymentRow (p_id p) (p_amount_cents p) (p_currency p) (p_customer_email p)
    (p_payment_method p) (p_user_id p) (p_external_payment_id p) (p_idempotency_key p)
    status (Some gateway_ref) (p_created_at p).

Definition responseBody (payment : PaymentRow) (externalPaymentId status : string)
    (requestBody : PaymentRequest) : Json :=
  JObj [("id", JStr (p_id payment));
        ("external_payment_id", JStr externalPaymentId);
        ("status", JStr status);
        ("amount_cents", JNum (default 0 (amount_cents requestBody)));
        ("currency", JStr (default "USD" (currency requestBody)));
        ("created_at", JNum (p_created_at payment))].

(** [await supabase.rpc("create_audit_log", {...}).catch(() => {...})].
    What [rpc] returns in supabase-js 2.39.3, the version the function
    imports, is a builder with a [then] member and no [catch] member: the
    member call is a TypeError, thrown before any request is sent. *)
Definition createAuditLog : Task unit :=
  throw "supabase.rpc(...).catch is not a function".

(** The inner [try] block: create the payment, take the simulated gateway's
    answer, record it, write the audit entry, store the response and
    unlock. *)
Definition processPayment (env : Env) (idempotencyKey : string) (requestBody : PaymentRequest)
  : Task Response :=
  let externalPaymentId := "pay_" +:+ numToString (now env) +:+ "_" +:+ random_suffix env in
  let amount := default 0 (amount_cents requestBody) in
  let row :=
    mkPaymentRow (new_payment_id env) amount (default "USD" (currency requestBody))
      (customer_email requestBody) (payment_method requestBody) (user_id requestBody)
      (Some externalPaymentId) idempotencyKey "pending" None (now env) in
  payment ← match paymentInsert env with
            | Inserted =>
                modifyStore (withPayments (fun rows => rows ++ [row])%list);;
                mret row
            | InsertError message => throw ("Failed to create payment: " +:+ message)
            | NoRow => throw "Failed to create payment: unknown error"
            end;
  let gateway_id := "gw_" +:+ numToString (now env) in
  let gateway_status := if gateway_succeeds env then "succeeded" else "failed" in
  (if updateError env then mret tt
   else modifyStore (withPayments
          (updateWhere (fun p => p_id p =? p_id payment)
             (setGatewayResult gateway_status gateway_id))));;
  (if txnError env then mret tt
   else modifyStore (withTransactions
          (fun rows => rows ++ [mkTransactionRow (p_id payment) gateway_id "payment" amount
                                  (default "USD" (currency requestBody)) gateway_status
                                  (if gateway_succeeds env then Some (now env) else None)])%list));;
  createAuditLog;;
  let body := responseBody payment externalPaymentId gateway_status requestBody in
  release env idempotencyKey body 201;;
  mret (jsonResponse 201 body).

(** The inner [catch]: save the error response and unlock. *)
Definition releaseWithError (env : Env) (idempotencyKey : string) (message : string)
  : Task Response :=
  release env idempotencyKey (errorJson message) 400;;
  mret (jsonResponse 400 (errorJson message)).

Section WithRuntime.
Context `{Runtime}.

Definition sha256Hex (input : string) : string := Hex.toHex (sha256 input).

(** The outer [try] block of [handler]. *)
Definition handlePost (env : Env) (req : Request) : Task Response :=
  match req_idempotency_key req with
  | None => mret (jsonResponse 400 (errorJson "Idempotency-Key header is required"))
  | Some idempotencyKey =>
      if negb (nonEmpty idempotencyKey)
      then mret (jsonResponse 400 (errorJson "Idempotency-Key header is required"))
      else
        match req_json req with
        | JsonRejected => mret (jsonResponse 400 (errorJson "Invalid JSON body"))
        | JsonNull =>
            (* [requestBody.amount_cents] on [null] *)
            throw "Cannot read properties of null (reading 'amount_cents')"
        | JsonValue requestBody =>
            if invalidAmount requestBody
            then mret (jsonResponse 400 (errorJson "Invalid amount"))
            else
              let requestHash := sha256Hex (stringifyRequest requestBody) in
              d ← getStore;
              let existingKey :=
                if keySelectErr env then None else idempotency_keys d !! idempotencyKey in
              match answerFromLedger existingKey requestHash with
              | Some response => mret response
              | None =>
                  if lockError env
                  then mret (jsonResponse 500 (errorJson "Internal server error"))
                  else
                    modifyStore (withKeys
                      (partial_alter (lockedRow requestHash (now env)) idempotencyKey));;
                    emit (Acquire idempotencyKey);;
                    tryCatch (processPayment env idempotencyKey requestBody)
                             (releaseWithError env idempotencyKey)
              end
        end
  end.

(** [handler].  The preflight answer [new Response("ok", { status: 204 })]
    is built outside the [try]: a body on a null-body status is a
    TypeError of the [Response] constructor. *)
Definition handler (env : Env) (req : Request) : Task Response :=
  if req_method req =? "OPTIONS"
  then throw "Response with null body status cannot have body"
  else if negb (req_method req =? "POST")
  then mret (jsonResponse 405 (errorJson "Method not allowed"))
  else
    tryCatch (handlePost env req)
      (fun _ => mret (jsonResponse 500 (errorJson "Internal server error"))).

End WithRuntime.

End Payments.

(* ===================================================================== *)
(** * Laws of tasks *)
(* ===================================================================== *)

Module TaskProofs.

Lemma bind_ret_l {A B : Type} (a : A) (k : A -> Task B) (w : World) :
  (mret a ≫= k) w = k a w.
Proof. reflexivity. Qed.

Lemma bind_ret_r {A : Type} (m : Task A) (w : World) :
  (m ≫= mret) w = m w.
Proof. unfold_task. destruct (m w) as [[a|message] w']; reflexivity. Qed.

Lemma bind_assoc {A B C : Type} (m : Task A) (k : A -> Task B) (h : B -> Task C)
    (w : World) :
  ((m ≫= k) ≫= h) w = (m ≫= fun a => k a ≫= h) w.
Proof. unfold_task. destruct (m w) as [[a|message] w']; reflexivity. Qed.

(** A body that returns is not caught; one that throws runs the handler
    from the world the body left. *)
Lemma tryCatch_returned {A : Type} (body : Task A) (handler : string -> Task A)
    (w w' : World) (a : A) :
  body w = (Returned a, w') -> tryCatch body handler w = (Returned a, w').
Proof. intros Hbody. unfold tryCatch. now rewrite Hbody. Qed.

Lemma tryCatch_thrown {A : Type} (body : Task A) (handler : string -> Task A)
    (w w' : World) (message : string) :
  body w = (Thrown message, w') -> tryCatch body handler w = handler message w'.
Proof. intros Hbody. unfold tryCatch. now rewrite Hbody. Qed.

End TaskProofs.

(* ===================================================================== *)
(** * Properties of the reconciliation matcher *)
(* ===================================================================== *)

Module ReconciliationProofs.
Import Reconciliation.

Lemma both_tests_iff (record : ReconciliationRecord) (payment : Payment) :
  amountMatch record payment && idMatch record payment = true <->
  satisfiesBoth record payment.
Proof.
  unfold amountMatch, idMatch, satisfiesBoth.
  rewrite andb_true_iff, !bool_decide_eq_true. reflexivity.
Qed.

Lemma findMatch_Some (record : ReconciliationRecord) (payments : list Payment) (p : Payment) :
  findMatch record payments = Some p -> p ∈ payments /\ satisfiesBoth record p.
Proof.
  induction payments as [|q rest IH]; simpl; [discriminate|].
  destruct (amountMatch record q && idMatch record q) eqn:E.
  - intros [= <-]. split; [left|]. now apply both_tests_iff.
  - intros Hf. destruct (IH Hf) as [Hin Hs]. split; [now right|assumption].
Qed.

Lemma findMatch_finds (record : ReconciliationRecord) (payments : list Payment) (p : Payment) :
  p ∈ payments -> satisfiesBoth record p -> is_Some (findMatch record payments).
Proof.
  induction payments as [|q rest IH]; intros Hin Hs.
  - now apply elem_of_nil in Hin.
  - simpl. destruct (amountMatch record q && idMatch record q) eqn:E; [eauto|].
    apply elem_of_cons in Hin as [->|Hin]; [|now apply IH].
    apply both_tests_iff in Hs. congruence.
Qed.

(** The loop takes the first candidate in array order. *)
Lemma findMatch_first (record : ReconciliationRecord) (p : Payment) (rest : list Payment) :
  satisfiesBoth record p -> findMatch record (p :: rest) = Some p.
Proof. intros Hs. simpl. apply both_tests_iff in Hs. now rewrite Hs. Qed.

Lemma setMatched_id pid row : rec_id (setMatched pid row) = rec_id row.
Proof. reflexivity. Qed.

Lemma setMatched_twice pid pid' row :
  setMatched pid (setMatched pid' row) = setMatched pid row.
Proof. reflexivity. Qed.

Lemma elem_of_updateMatched id pid table row' :
  row' ∈ updateMatched id pid table <->
  exists row, row ∈ table /\
    row' = if bool_decide (rec_id row = id) then setMatched pid row else row.
Proof.
  unfold updateMatched. rewrite list_elem_of_In, in_map_iff.
  split; intros (row & H1 & H2); exists row.
  - split; [now apply list_elem_of_In|now symmetry].
  - split; [now symmetry|now apply list_elem_of_In].
Qed.

(** Every row a run leaves is a row it found, either untouched or marked
    with the payment found for a record of the same id. *)
Lemma matchLoop_rows records payments st row' :
  row' ∈ run_table (matchLoop records payments st) ->
  exists row, row ∈ run_table st /\
    (row' = row \/
     exists r p, r ∈ records /\ rec_id r = rec_id row /\
       findMatch r payments = Some p /\ row' = setMatched (pay_id p) row).
Proof.
  revert st. induction records as [|r rest IH]; intros st; simpl.
  - intros Hin. exists row'. auto.
  - destruct (findMatch r payments) as [p|] eqn:Ef.
    + intros Hin. destruct (IH _ Hin) as (row1 & Hin1 & Hcase). simpl in Hin1.
      apply elem_of_updateMatched in Hin1 as (row & Hrow & ->).
      exists row. split; [assumption|].
      case_bool_decide as Hid.
      * right. destruct Hcase as [->|(r2 & p2 & Hr2 & Hid2 & Hf2 & ->)].
        -- exists r, p. repeat split; auto. left.
        -- exists r2, p2. rewrite setMatched_twice. repeat split; auto. now right.
      * destruct Hcase as [->|(r2 & p2 & Hr2 & Hid2 & Hf2 & ->)]; [now left|].
        right. exists r2, p2. repeat split; auto. now right.
    + intros Hin. destruct (IH _ Hin) as (row & Hrow & Hcase). simpl in Hrow.
      exists row. split; [assumption|].
      destruct Hcase as [->|(r2 & p2 & Hr2 & Hid2 & Hf2 & ->)]; [now left|].
      right. exists r2, p2. repeat split; auto. now right.
Qed.

(** A row already marked stays marked to the end of the run. *)
Lemma matchLoop_keeps_matched records payments st row :
  row ∈ run_table st -> rec_status row = Some "matched" ->
  exists row', row' ∈ run_table (matchLoop records payments st) /\
    rec_id row' = rec_id row /\ rec_status row' = Some "matched".
Proof.
  revert st row. induction records as [|r rest IH]; intros st row Hin Hst; simpl.
  - eauto.
  - destruct (findMatch r payments) as [p|].
    + set (row1 := if bool_decide (rec_id row = rec_id r)
                   then setMatched (pay_id p) row else row).
      destruct (IH (mkRun (updateMatched (rec_id r) (pay_id p) (run_table st))
                          (S (run_matched st)) (run_unmatched st)) row1)
        as (row' & H1 & H2 & H3).
      * simpl. apply elem_of_updateMatched. now exists row.
      * unfold row1. now case_bool_decide.
      * exists row'. repeat split; auto.
        rewrite H2. unfold row1. now case_bool_decide.
    + apply (IH (mkRun (run_table st) (run_matched st) (S (run_unmatched st)))); auto.
Qed.

(** A record with a candidate ends the run marked. *)
Lemma matchLoop_marks records payments st r p row :
  r ∈ records -> findMatch r payments = Some p ->
  row ∈ run_table st -> rec_id row = rec_id r ->
  exists row', row' ∈ run_table (matchLoop records payments st) /\
    rec_id row' = rec_id r /\ rec_status row' = Some "matched".
Proof.
  revert st row. induction records as [|r0 rest IH]; intros st row Hr Hf Hin Hid.
  - now apply elem_of_nil in Hr.
  - simpl. apply elem_of_cons in Hr as [<-|Hr].
    + rewrite Hf.
      destruct (matchLoop_keeps_matched rest payments
                  (mkRun (updateMatched (rec_id r) (pay_id p) (run_table st))
                         (S (run_matched st)) (run_unmatched st))
                  (setMatched (pay_id p) row)) as (row' & H1 & H2 & H3).
      * simpl. apply elem_of_updateMatched. exists row. split; [assumption|].
        now rewrite bool_decide_eq_true_2.
      * reflexivity.
      * exists row'. repeat split; auto. now rewrite H2.
    + destruct (findMatch r0 payments) as [p0|].
      * apply (IH _ (if bool_decide (rec_id row = rec_id r0)
                     then setMatched (pay_id p0) row else row)); auto.
        -- simpl. apply elem_of_updateMatched. now exists row.
        -- now case_bool_decide.
      * apply (IH _ row); auto.
Qed.

(** The two counters of the summary add up to the records examined. *)
Lemma matchLoop_counts records payments st :
  (run_matched (matchLoop records payments st)
   + run_unmatched (matchLoop records payments st))%nat
  = (run_matched st + run_unmatched st + length records)%nat.
Proof.
  revert st. induction records as [|r rest IH]; intros st; simpl; [lia|].
  destruct (findMatch r payments); rewrite IH; simpl; lia.
Qed.

(** The run never writes to a row of another id, and keeps the row count. *)
Lemma matchLoop_length records payments st :
  length (run_table (matchLoop records payments st)) = length (run_table st).
Proof.
  revert st. induction records as [|r rest IH]; intros st; simpl; [reflexivity|].
  destruct (findMatch r payments); rewrite IH; simpl; [|reflexivity].
  unfold updateMatched. now rewrite length_map.
Qed.

(** With the primary key unique, the id names the row. *)
Lemma unique_by_id (table : list ReconciliationRecord) (a b : ReconciliationRecord) :
  NoDup (map rec_id table) -> a ∈ table -> b ∈ table -> rec_id a = rec_id b -> a = b.
Proof.
  induction table as [|x rest IH]; simpl; intros Hnd Ha Hb Hid.
  - now apply elem_of_nil in Ha.
  - apply NoDup_cons in Hnd as [Hx Hnd].
    assert (Hfresh : forall c, c ∈ rest -> rec_id c <> rec_id x).
    { intros c Hc Heq. apply Hx. rewrite <- Heq.
      apply list_elem_of_In, in_map, list_elem_of_In, Hc. }
    apply elem_of_cons in Ha as [->|Ha]; apply elem_of_cons in Hb as [->|Hb]; auto.
    + exfalso. apply (Hfresh b Hb). now symmetry.
    + exfalso. now apply (Hfresh a Ha).
Qed.

(** C1.  In a run for [user], an unmatched record of that user ends the run
    marked [matched] if and only if some payment of the user has the
    record's amount and the record's external id, both exactly; the payment
    it is linked to is such a payment; and a record with amount 10000 and
    external id PAY_1 passes the two tests against a payment exactly when
    the payment has amount 10000 and external id PAY_1. *)
Theorem C1_matched_iff_amount_and_id_equal
    (user : string) (table : list ReconciliationRecord) (payments : list Payment)
    (record : ReconciliationRecord) :
  NoDup (map rec_id table) ->
  record ∈ table ->
  rec_uploaded_by record = Some user ->
  rec_status record = Some "unmatched" ->
  let table' := tableAfter table (runReconciliation (Some user) false false table payments) in
  ((exists row, row ∈ table' /\ rec_id row = rec_id record /\
                rec_status row = Some "matched")
   <-> exists p, p ∈ payments /\ pay_user_id p = Some user /\ satisfiesBoth record p)
  /\ (forall row,
        row ∈ table' -> rec_id row = rec_id record ->
        rec_status row = Some "matched" ->
        exists p, p ∈ payments /\ pay_user_id p = Some user /\
                  rec_matched_payment_id row = Some (pay_id p) /\
                  satisfiesBoth record p)
  /\ (forall p,
        rec_amount record = Some 10000 ->
        rec_external_transaction_id record = Some "PAY_1" ->
        (amountMatch record p && idMatch record p = true
         <-> pay_amount p = 10000 /\ pay_external_payment_id p = Some "PAY_1")).
Proof.
  intros Hnd Hin Huser Hstatus table'. subst table'. simpl.
  assert (Hsel : record ∈ selectUnmatched user table).
  { unfold selectUnmatched. apply list_elem_of_filter. auto. }
  assert (Hsub : forall r, r ∈ selectUnmatched user table -> r ∈ table).
  { intros r Hr. unfold selectUnmatched in Hr. now apply list_elem_of_filter in Hr. }
  assert (Hown : forall r p row' row,
             row ∈ table -> rec_id row' = rec_id record ->
             r ∈ selectUnmatched user table -> rec_id r = rec_id row ->
             row' = setMatched (pay_id p) row -> row = record /\ r = record).
  { intros r p row' row Hrow Hid Hr Hrid ->. rewrite setMatched_id in Hid.
    assert (row = record) as -> by (apply (unique_by_id table); auto).
    split; [reflexivity|]. apply (unique_by_id table); auto. }
  split; [split|split].
  - intros (row' & Hrow' & Hid & Hst).
    apply matchLoop_rows in Hrow' as (row & Hrow & Hcase). simpl in Hrow.
    destruct Hcase as [->|(r & p & Hr & Hrid & Hf & Heq)].
    + assert (row = record) as -> by (apply (unique_by_id table); auto). congruence.
    + destruct (Hown r p row' row) as [-> ->]; auto.
      apply findMatch_Some in Hf as [Hp Hs].
      unfold selectPayments in Hp. apply list_elem_of_filter in Hp as [Hu Hp].
      exists p. auto.
  - intros (p & Hp & Hu & Hs).
    assert (Hp' : p ∈ selectPayments user payments).
    { unfold selectPayments. apply list_elem_of_filter. auto. }
    destruct (findMatch_finds record _ p Hp' Hs) as [q Hq].
    apply (matchLoop_marks _ _ _ record q record); auto.
  - intros row' Hrow' Hid Hst.
    apply matchLoop_rows in Hrow' as (row & Hrow & Hcase). simpl in Hrow.
    destruct Hcase as [->|(r & p & Hr & Hrid & Hf & Heq)].
    + assert (row = record) as -> by (apply (unique_by_id table); auto). congruence.
    + destruct (Hown r p row' row) as [-> ->]; auto.
      subst row'. simpl.
      apply findMatch_Some in Hf as [Hp Hs].
      unfold selectPayments in Hp. apply list_elem_of_filter in Hp as [Hu Hp].
      exists p. auto.
  - intros p Ha He. rewrite both_tests_iff. unfold satisfiesBoth. rewrite Ha, He.
    split; intros [H1 H2]; split; congruence.
Qed.

(** A run over one record and one payment that agree on both fields. *)
Lemma C1_witness :
  let record := mkRecord "r1" (Some "u1") (Some "PAY_1") (Some 10000) (Some "unmatched") None in
  let payment := mkPayment "p1" (Some "u1") 10000 (Some "PAY_1") "succeeded" 1 in
  (exists row, row ∈ tableAfter [record]
                       (runReconciliation (Some "u1") false false [record] [payment]) /\
               rec_id row = "r1" /\ rec_status row = Some "matched")
  <-> exists p, p ∈ [payment] /\ pay_user_id p = Some "u1" /\ satisfiesBoth record p.
Proof.
  intros record payment.
  refine (proj1 (C1_matched_iff_amount_and_id_equal "u1" [record] [payment] record _ _ _ _)).
  - apply NoDup_cons. split; [apply not_elem_of_nil|apply NoDup_nil_2].
  - apply list_elem_of_here.
  - reflexivity.
  - reflexivity.
Defined.

(** C9 (what the code does).  With two payments that both carry the
    record's amount and external id, the run links the record to the one
    that comes first in the array the store returned, here the older one;
    the newer candidate is not chosen, and nothing else is written: the
    run's only output is the record table and the two counters. *)
Theorem C9_first_candidate_chosen_not_most_recent :
  let record := mkRecord "r1" (Some "u1") (Some "PAY_1") (Some 10000) (Some "unmatched") None in
  let older := mkPayment "p_old" (Some "u1") 10000 (Some "PAY_1") "succeeded" 1000 in
  let newer := mkPayment "p_new" (Some "u1") 10000 (Some "PAY_1") "succeeded" 2000 in
  satisfiesBoth record older /\ satisfiesBoth record newer /\
  pay_created_at older < pay_created_at newer /\
  findMatch record [older; newer] = Some older /\
  runReconciliation (Some "u1") false false [record] [older; newer]
  = ReconciliationComplete 1 (mkRun [setMatched "p_old" record] 1 0).
Proof. repeat split; reflexivity. Qed.

End ReconciliationProofs.

(* ===================================================================== *)
(** * Properties of the webhook function *)
(* ===================================================================== *)

Module HexProofs.
Import Hex.

Lemma append_cons (c : ascii) (a b : string) : String c a +:+ b = String c (a +:+ b).
Proof. reflexivity. Qed.

Lemma append_empty_r (s : string) : s +:+ "" = s.
Proof.
  induction s as [|c s IH]; [reflexivity|].
  now rewrite append_cons, IH.
Qed.

Lemma allHex_app (a b : string) : allHex (a +:+ b) = allHex a && allHex b.
Proof.
  induction a as [|c a IH]; [reflexivity|].
  rewrite append_cons. simpl. now rewrite IH, andb_assoc.
Qed.

Lemma byte_allHex (b : Byte.byte) : allHex (padStart2 (toString16 b)) = true.
Proof. destruct b; reflexivity. Qed.

Lemma byte_two_digits (b : Byte.byte) : String.length (padStart2 (toString16 b)) = 2%nat.
Proof. destruct b; reflexivity. Qed.

Lemma toHex_cons (b : Byte.byte) (bytes : list Byte.byte) :
  toHex (b :: bytes) = padStart2 (toString16 b) +:+ toHex bytes.
Proof.
  unfold toHex. destruct bytes as [|b' bytes]; simpl.
  - now rewrite append_empty_r.
  - reflexivity.
Qed.

Lemma toHex_allHex (bytes : list Byte.byte) : allHex (toHex bytes) = true.
Proof.
  induction bytes as [|b bytes IH]; [reflexivity|].
  now rewrite toHex_cons, allHex_app, byte_allHex, IH.
Qed.

Lemma length_append (a b : string) :
  String.length (a +:+ b) = (String.length a + String.length b)%nat.
Proof.
  induction a as [|c a IH]; [reflexivity|].
  rewrite append_cons. simpl. now rewrite IH.
Qed.

Lemma toHex_length (bytes : list Byte.byte) :
  String.length (toHex bytes) = (2 * length bytes)%nat.
Proof.
  induction bytes as [|b bytes IH]; [reflexivity|].
  rewrite toHex_cons, length_append, byte_two_digits, IH. simpl. lia.
Qed.

Lemma substring_all (s : string) : String.substring 0 (String.length s) s = s.
Proof. induction s as [|c s IH]; simpl; [reflexivity|now rewrite IH]. Qed.

(** The pattern cannot occur in a string of hexadecimal digits: [replace]
    returns such a string as it is. *)
Lemma replaceFirst_hex (s : string) :
  allHex s = true -> replaceFirst "sha256=" "" s = s.
Proof.
  induction s as [|c s IH]; [reflexivity|].
  cbn [allHex]. intros Hc. apply andb_true_iff in Hc as [Hc Hs].
  cbn [replaceFirst String.prefix].
  destruct (ascii_dec "s" c) as [<-|_]; [discriminate Hc|].
  now rewrite IH.
Qed.

(** A leading prefix is removed, whatever follows. *)
Lemma replaceFirst_prefix (s : string) : replaceFirst "sha256=" "" ("sha256=" +:+ s) = s.
Proof.
  change ("sha256=" +:+ s) with
    (String "s" (String "h" (String "a" (String "2" (String "5" (String "6" (String "=" s))))))).
  destruct s as [|c s]; [reflexivity|].
  simpl. now rewrite substring_all.
Qed.

(** The prefix is removed from inside the string as well, when only
    hexadecimal digits stand before it. *)
Lemma replaceFirst_after_hex (pre post : string) :
  allHex pre = true ->
  replaceFirst "sha256=" "" (pre +:+ "sha256=" +:+ post) = pre +:+ post.
Proof.
  induction pre as [|c pre IH]; [intros _; apply replaceFirst_prefix|].
  cbn [allHex]. intros Hc. apply andb_true_iff in Hc as [Hc Hpre].
  rewrite (append_cons c pre). cbn [replaceFirst String.prefix].
  destruct (ascii_dec "s" c) as [<-|_]; [discriminate Hc|].
  now rewrite IH, append_cons.
Qed.

(** The first occurrence is removed wherever it stands, and only the first. *)
Example replaceFirst_inside : replaceFirst "sha256=" "" "absha256=cd" = "abcd".
Proof. reflexivity. Qed.

Example replaceFirst_once : replaceFirst "sha256=" "" "sha256=sha256=ab" = "sha256=ab".
Proof. reflexivity. Qed.

Example toHex_pads : toHex [Byte.x00; Byte.x0a; Byte.xff] = "000aff".
Proof. reflexivity. Qed.

(** The two digits of a byte are the ones the specification names. *)
Lemma byte_lowercase (b : Byte.byte) (rest : string) :
  padStart2 (toString16 b) +:+ rest
  = String (HexSpec.lowercaseDigit (Byte.to_N b / 16))
      (String (HexSpec.lowercaseDigit (Byte.to_N b mod 16)) rest).
Proof. destruct b; reflexivity. Qed.

(** The rendering of the code is the lowercase hexadecimal rendering. *)
Lemma toHex_lowercaseHex (bytes : list Byte.byte) :
  toHex bytes = HexSpec.lowercaseHex bytes.
Proof.
  induction bytes as [|b bytes IH]; [reflexivity|].
  rewrite toHex_cons, byte_lowercase, IH. reflexivity.
Qed.

(** A byte is read back from its two lowercase digits. *)
Lemma lowercase_digits_invert :
  exists decode : ascii -> ascii -> Byte.byte,
    forall b : Byte.byte,
      decode (HexSpec.lowercaseDigit (Byte.to_N b / 16))
             (HexSpec.lowercaseDigit (Byte.to_N b mod 16)) = b.
Proof.
  exists (fun c1 c2 =>
            let value c := let n := N_of_ascii c in
                           if (n <? 97)%N then (n - 48)%N else (n - 87)%N in
            default Byte.x00 (Byte.of_N (16 * value c1 + value c2))).
  intros b. destruct b; reflexivity.
Qed.

Lemma lowercaseHex_inj (a b : list Byte.byte) :
  HexSpec.lowercaseHex a = HexSpec.lowercaseHex b -> a = b.
Proof.
  destruct lowercase_digits_invert as (decode & Hdecode).
  revert b. induction a as [|x a IH]; intros [|y b] Heq;
    try reflexivity; try discriminate.
  cbn [HexSpec.lowercaseHex] in Heq. injection Heq as Hhigh Hlow Hrest.
  f_equal; [|now apply IH].
  rewrite <- (Hdecode x), <- (Hdecode y). now rewrite Hhigh, Hlow.
Qed.

End HexProofs.

Module WebhooksProofs.
Import Webhooks.

Lemma elem_of_updateWhere {A : Type} (p : A -> bool) (f : A -> A) (rows : list A) (row : A) :
  row ∈ rows -> (if p row then f row else row) ∈ updateWhere p f rows.
Proof.
  intros Hin. unfold updateWhere.
  apply list_elem_of_In, in_map_iff. exists row. split; [reflexivity|].
  now apply list_elem_of_In.
Qed.

Lemma nextAttemptDelay_Z (n : N) :
  Z.of_N (nextAttemptDelay n) = Z.min (2 ^ Z.of_N n * 60) 3600.
Proof.
  unfold nextAttemptDelay.
  now rewrite N2Z.inj_min, N2Z.inj_mul, N2Z.inj_pow.
Qed.

(** The delay doubles up to attempt 5 and is the cap from attempt 6 on. *)
Lemma nextAttemptDelay_cases (n : N) :
  ((n <= 5)%N -> nextAttemptDelay n = (2 ^ n * 60)%N) /\
  ((6 <= n)%N -> nextAttemptDelay n = 3600%N).
Proof.
  unfold nextAttemptDelay. split; intros Hn.
  - apply N.min_l.
    assert (2 ^ n <= 2 ^ 5)%N by (apply N.pow_le_mono_r; lia).
    change (2 ^ 5)%N with 32%N in *. lia.
  - apply N.min_r.
    assert (2 ^ 6 <= 2 ^ n)%N by (apply N.pow_le_mono_r; lia).
    change (2 ^ 6)%N with 64%N in *. lia.
Qed.

(** C5.  The delay computed by [scheduleRetry] depends on the attempt
    number alone and is [min(2^n * 60, 3600)] seconds: the next attempt is
    at now+120s for attempt 1, now+960s for attempt 4 and now+3600s (the
    cap) for attempt 6; that time, with the attempt number plus one, is
    what [scheduleRetry] writes on the delivery. *)
Theorem C5_backoff_delay_is_capped_doubling (n : N) (now : Z) :
  Z.of_N (nextAttemptDelay n) = Z.min (2 ^ Z.of_N n * 60) 3600
  /\ nextAttemptAt now n = now + Z.min (2 ^ Z.of_N n * 60) 3600 * 1000
  /\ nextAttemptAt now 1 = now + 120 * 1000
  /\ nextAttemptAt now 4 = now + 960 * 1000
  /\ nextAttemptAt now 6 = now + 3600 * 1000
  /\ (forall (id : Z) (w : World) (row : WebhookDelivery),
        row ∈ webhook_deliveries (store w) -> wd_id row = id ->
        exists row',
          row' ∈ webhook_deliveries (store (scheduleRetry now id n w).2) /\
          wd_id row' = id /\
          wd_next_attempt_at row' = Some (now + Z.min (2 ^ Z.of_N n * 60) 3600 * 1000) /\
          wd_attempts row' = (n + 1)%N).
Proof.
  repeat split; try reflexivity.
  - apply nextAttemptDelay_Z.
  - unfold nextAttemptAt. now rewrite nextAttemptDelay_Z.
  - intros id w row Hin Hid.
    exists (setRetry (nextAttemptAt now n) (n + 1) row). simpl.
    repeat split; auto.
    + pose proof (elem_of_updateWhere (hasId id)
                    (setRetry (nextAttemptAt now n) (n + 1)) _ row Hin) as Hrow.
      unfold hasId in Hrow at 1. now rewrite Hid, Z.eqb_refl in Hrow.
    + unfold nextAttemptAt. now rewrite nextAttemptDelay_Z.
Qed.

(** [scheduleRetry] on a store with one delivery, after its first attempt. *)
Lemma C5_witness :
  let payload := mkWebhookPayload "payment.succeeded" (mkEventData None None) "t" "evt_1" in
  let row := mkWebhookDelivery 7 "payment.succeeded" payload "sig" "failed" 1 None None None 0 in
  let w := mkWorld (withDeliveries (fun _ => [row]) emptyDB) [] in
  exists row',
    row' ∈ webhook_deliveries (store (scheduleRetry 1000 7 1 w).2) /\
    wd_id row' = 7 /\
    wd_next_attempt_at row' = Some (1000 + Z.min (2 ^ Z.of_N 1 * 60) 3600 * 1000) /\
    wd_attempts row' = (1 + 1)%N.
Proof.
  intros payload row w.
  refine (proj2 (proj2 (proj2 (proj2 (proj2
            (C5_backoff_delay_is_capped_doubling 1 1000))))) 7 w row _ _).
  - apply list_elem_of_here.
  - reflexivity.
Defined.

(** A first delivery whose processing throws: the delivery row created
    with one attempt ends failed, with the error, two attempts and the next
    attempt 120 seconds on; the sender is answered 500. *)
Lemma dispatch_failure_schedules_retry (env : Env) (signature : string)
    (webhookData : WebhookPayload) (w : World) :
  webhookError env = false -> deliveryError env = false ->
  paymentUpdateError env = true ->
  event_type webhookData = "payment.succeeded" \/
  event_type webhookData = "payment.failed" \/
  event_type webhookData = "payment.refunded" ->
  (storeAndProcess env signature webhookData w).1
  = Returned (jsonResponse 500 (errorJson "Processing failed, will retry")) /\
  exists row',
    row' ∈ webhook_deliveries (store (storeAndProcess env signature webhookData w).2) /\
    wd_id row' = new_delivery_id env /\
    wd_status row' = "failed" /\
    wd_attempts row' = 2%N /\
    wd_error row' = Some "Failed to update payment status" /\
    wd_next_attempt_at row' = Some (now env + 120 * 1000).
Proof.
  intros Hev Hdl Hup Htype.
  set (row := mkWebhookDelivery (new_delivery_id env) (event_type webhookData)
                webhookData signature "processing" 1 None None None (now env)).
  assert (Hthrow : forall w0, processWebhookEvent env webhookData w0
                              = (Thrown "Failed to update payment status", w0)).
  { intros w0. unfold processWebhookEvent, handlePaymentSucceeded, handlePaymentFailed,
      handlePaymentRefunded, applyPaymentEvent. rewrite Hup.
    destruct Htype as [-> | [-> | ->]]; reflexivity. }
  assert (Hrun : storeAndProcess env signature webhookData w
    = (Returned (jsonResponse 500 (errorJson "Processing failed, will retry")),
       mkWorld
         (withDeliveries
            (updateWhere (hasId (wd_id row)) (setRetry (nextAttemptAt (now env) 1) (1 + 1)))
            (withDeliveries
               (updateWhere (hasId (wd_id row))
                  (setStatusError "failed" (Some "Failed to update payment status")))
               (withDeliveries (fun rows => rows ++ [row])%list
                  (withEvents
                     (insert (event_id webhookData)
                        (mkWebhookEvent (new_event_id env) (event_type webhookData)
                           "payment_gateway" webhookData signature false None))
                     (store w)))))
         (ledger_trace w))).
  { unfold storeAndProcess. rewrite Hev, Hdl. fold row.
    unfold_task.
    cbn [store ledger_trace]. rewrite Hthrow.
    reflexivity. }
  rewrite Hrun. split; [reflexivity|].
  cbn [snd store withDeliveries webhook_deliveries].
  exists (setRetry (nextAttemptAt (now env) 1) (1 + 1)
            (setStatusError "failed" (Some "Failed to update payment status") row)).
  split; [|repeat split].
  assert (Hin : row ∈ (webhook_deliveries (withEvents
                     (insert (event_id webhookData)
                        (mkWebhookEvent (new_event_id env) (event_type webhookData)
                           "payment_gateway" webhookData signature false None))
                     (store w)) ++ [row])%list).
  { apply list_elem_of_In, in_or_app. right. now left. }
  pose proof (elem_of_updateWhere (hasId (wd_id row))
                (setStatusError "failed" (Some "Failed to update payment status")) _ row Hin)
    as H1.
  unfold hasId in H1 at 1. rewrite Z.eqb_refl in H1.
  pose proof (elem_of_updateWhere (hasId (wd_id row))
                (setRetry (nextAttemptAt (now env) 1) (1 + 1)) _ _ H1) as H2.
  unfold hasId in H2 at 1. cbn [wd_id setStatusError row] in H2.
  rewrite Z.eqb_refl in H2. exact H2.
Qed.

Section WithRuntime.
Context `{Runtime}.

(** C10.  [verifyHMACSignature] answers [true] exactly when the signature,
    with the first occurrence of the text sha256= removed, is the lowercase
    hexadecimal HMAC-SHA256 of the payload under the secret; so the bare
    digest is accepted, as is the digest behind the prefix, and the digest
    with the prefix anywhere inside it.  The text compared with is the
    rendering of the code, which is that lowercase hexadecimal text: two
    digits per byte, digits 0-9 and a-f only, and no two digests with the
    same text. *)
Theorem C10_signature_prefix_is_optional (payload signature secret : string) :
  (verifyHMACSignature payload signature secret = true <->
   exists mac, hmacSha256 secret payload = Some mac /\
               replaceFirst "sha256=" "" signature = HexSpec.lowercaseHex mac)
  /\ (forall mac, hmacSha256 secret payload = Some mac ->
        verifyHMACSignature payload (HexSpec.lowercaseHex mac) secret = true /\
        verifyHMACSignature payload ("sha256=" +:+ HexSpec.lowercaseHex mac) secret = true /\
        forall pre post, HexSpec.lowercaseHex mac = pre +:+ post ->
          verifyHMACSignature payload (pre +:+ "sha256=" +:+ post) secret = true)
  /\ (forall mac : list Byte.byte,
        Hex.toHex mac = HexSpec.lowercaseHex mac /\
        String.length (Hex.toHex mac) = (2 * length mac)%nat /\
        Hex.allHex (Hex.toHex mac) = true /\
        forall other, Hex.toHex other = Hex.toHex mac -> other = mac).
Proof.
  unfold verifyHMACSignature. split; [|split].
  - destruct (hmacSha256 secret payload) as [mac|].
    + rewrite bool_decide_eq_true, HexProofs.toHex_lowercaseHex. split.
      * intros Heq. exists mac. auto.
      * intros (mac' & [= <-] & Heq). auto.
    + split; [discriminate|]. intros (mac' & Hmac & _). discriminate.
  - intros mac ->. rewrite <- !HexProofs.toHex_lowercaseHex. split; [|split].
    + apply bool_decide_eq_true. symmetry.
      apply HexProofs.replaceFirst_hex, HexProofs.toHex_allHex.
    + apply bool_decide_eq_true. symmetry. apply HexProofs.replaceFirst_prefix.
    + intros pre post Hsplit. apply bool_decide_eq_true.
      rewrite HexProofs.replaceFirst_after_hex; [assumption|].
      pose proof (HexProofs.toHex_allHex mac) as Hhex.
      rewrite Hsplit, HexProofs.allHex_app in Hhex.
      now apply andb_true_iff in Hhex as [Hpre _].
  - intros mac. split; [apply HexProofs.toHex_lowercaseHex|].
    split; [apply HexProofs.toHex_length|].
    split; [apply HexProofs.toHex_allHex|].
    intros other Heq. rewrite !HexProofs.toHex_lowercaseHex in Heq.
    now apply HexProofs.lowercaseHex_inj.
Qed.

(** A request whose event id is already stored leaves the world as it is. *)
Lemma handlePost_known_event (env : Env) (req : Request) (w : World) :
  (forall webhookData, parseWebhook (req_text req) = Some webhookData ->
     is_Some (webhook_events (store w) !! event_id webhookData)) ->
  (handlePost env req w).2 = w.
Proof.
  intros Hknown. unfold handlePost.
  destruct (req_signature req) as [signature|]; [|reflexivity].
  destruct (WEBHOOK_SECRET env) as [secret|]; [|reflexivity].
  destruct (nonEmpty signature && nonEmpty secret); [|reflexivity].
  cbv zeta.
  destruct (verifyHMACSignature (req_text req) signature secret); [|reflexivity].
  cbn [negb].
  destruct (parseWebhook (req_text req)) as [webhookData|]; [|reflexivity].
  destruct (Hknown webhookData eq_refl) as [ev Hev].
  unfold_task. now rewrite Hev.
Qed.

(** Once the event insert has gone through, the event stays stored on
    every path to the response. *)
Lemma storeAndProcess_stores (env : Env) (signature : string) (webhookData : WebhookPayload)
    (w : World) :
  webhookError env = false ->
  is_Some (webhook_events (store (storeAndProcess env signature webhookData w).2)
             !! event_id webhookData).
Proof.
  intros Hok. unfold storeAndProcess. rewrite Hok.
  unfold processWebhookEvent, handlePaymentSucceeded, handlePaymentFailed,
    handlePaymentRefunded, applyPaymentEvent, scheduleRetry.
  unfold_task.
  repeat match goal with |- context [if ?b then _ else _] => destruct b end;
    cbn; rewrite ?lookup_fmap, lookup_insert_eq; eauto.
Qed.

(** A request either leaves the world as it is or leaves its event stored. *)
Lemma handlePost_effect (env : Env) (req : Request) (w : World) :
  (handlePost env req w).2 = w \/
  exists webhookData, parseWebhook (req_text req) = Some webhookData /\
    is_Some (webhook_events (store (handlePost env req w).2) !! event_id webhookData).
Proof.
  unfold handlePost.
  destruct (req_signature req) as [signature|]; [|now left].
  destruct (WEBHOOK_SECRET env) as [secret|]; [|now left].
  destruct (nonEmpty signature && nonEmpty secret); [|now left].
  cbv zeta.
  destruct (verifyHMACSignature (req_text req) signature secret); [|now left].
  cbn [negb].
  destruct (parseWebhook (req_text req)) as [webhookData|]; [|now left].
  unfold_task.
  destruct (webhook_events (store w) !! event_id webhookData) as [ev|]; [now left|].
  destruct (webhookError env) eqn:Herr.
  - left. unfold storeAndProcess. now rewrite Herr.
  - right. exists webhookData. split; [reflexivity|].
    now apply storeAndProcess_stores.
Qed.

(** The store a run leaves is the store its [try] block leaves. *)
Lemma run_handler_store (env : Env) (req : Request) (d : DB) :
  (run (handler env req) d).1.2 =
  if req_method req =? "OPTIONS" then d
  else if negb (req_method req =? "POST") then d
  else store (handlePost env req (mkWorld d [])).2.
Proof.
  unfold run, handler, tryCatch.
  destruct (req_method req =? "OPTIONS"); [reflexivity|].
  destruct (negb (req_method req =? "POST")); [reflexivity|].
  destruct (handlePost env req (mkWorld d [])) as [[r|message] w]; reflexivity.
Qed.

(** C7.  A verified delivery whose [event_id] is already in
    [webhook_events] is answered 200 without any write; whatever the
    request, a known event id means the store is left as it is (no event
    stored, no delivery row, no payment status change); hence after a
    delivery that had any effect, a redelivery of the same event id has
    none. *)
Theorem C7_known_event_is_not_applied_again (env : Env) (req : Request) (d : DB) :
  (forall signature secret webhookData,
     req_method req = "POST" ->
     req_signature req = Some signature -> signature <> "" ->
     WEBHOOK_SECRET env = Some secret -> secret <> "" ->
     verifyHMACSignature (req_text req) signature secret = true ->
     parseWebhook (req_text req) = Some webhookData ->
     is_Some (webhook_events d !! event_id webhookData) ->
     run (handler env req) d
     = (jsonResponse 200 (messageJson "Event already processed"), d, []))
  /\ ((forall webhookData, parseWebhook (req_text req) = Some webhookData ->
         is_Some (webhook_events d !! event_id webhookData)) ->
      (run (handler env req) d).1.2 = d)
  /\ (forall env2 req2 webhookData webhookData2,
        parseWebhook (req_text req) = Some webhookData ->
        parseWebhook (req_text req2) = Some webhookData2 ->
        event_id webhookData2 = event_id webhookData ->
        let d1 := (run (handler env req) d).1.2 in
        d1 <> d ->
        (run (handler env2 req2) d1).1.2 = d1).
Proof.
  assert (Hknown : forall e r d0,
    (forall webhookData, parseWebhook (req_text r) = Some webhookData ->
       is_Some (webhook_events d0 !! event_id webhookData)) ->
    (run (handler e r) d0).1.2 = d0).
  { intros e r d0 Hk. rewrite run_handler_store.
    destruct (req_method r =? "OPTIONS"); [reflexivity|].
    destruct (negb (req_method r =? "POST")); [reflexivity|].
    now rewrite handlePost_known_event. }
  split; [|split].
  - intros signature secret webhookData Hm Hs Hs0 Hk Hk0 Hv Hp [ev Hev].
    unfold run, handler, tryCatch, handlePost.
    rewrite Hm, Hs, Hk. simpl.
    unfold nonEmpty. rewrite !bool_decide_eq_false_2 by assumption. simpl.
    rewrite Hv, Hp. simpl.
    unfold_task. simpl. now rewrite Hev.
  - apply Hknown.
  - intros env2 req2 webhookData webhookData2 Hp Hp2 Hid d1 Hchanged.
    apply Hknown. intros wd2 Hwd2.
    assert (wd2 = webhookData2) as -> by congruence. rewrite Hid.
    subst d1. rewrite run_handler_store in Hchanged |- *.
    destruct (req_method req =? "OPTIONS"); [congruence|].
    destruct (negb (req_method req =? "POST")); [congruence|].
    destruct (handlePost_effect env req (mkWorld d [])) as [Heq|(wd & Hwd & Hstored)].
    + rewrite Heq in Hchanged. simpl in Hchanged. congruence.
    + assert (wd = webhookData) as -> by congruence. exact Hstored.
Qed.

End WithRuntime.

(** A signed redelivery of a stored event, under the sample runtime. *)
Lemma C7_witness :
  let payload := mkWebhookPayload "payment.succeeded"
                   (mkEventData (Some "pay_1") (Some "gw_1")) "2025-01-01T00:00:00Z" "{e1}" in
  let signature := Hex.toHex (sampleDigest "k{e1}") in
  let stored := mkWebhookEvent "uuid-1" "payment.succeeded" "payment_gateway"
                  payload signature true (Some 5) in
  let d := withEvents (insert "{e1}" stored) emptyDB in
  let env := mkEnv 10 (Some "k") "uuid-2" 1 false false false in
  let req := mkRequest "POST" (Some signature) "{e1}" in
  run (@handler sampleRuntime env req) d
  = (jsonResponse 200 (messageJson "Event already processed"), d, []).
Proof.
  intros payload signature stored d env req.
  refine (proj1 (@C7_known_event_is_not_applied_again sampleRuntime env req d)
            signature "k" payload _ _ _ _ _ _ _ _).
  - reflexivity.
  - reflexivity.
  - discriminate.
  - reflexivity.
  - discriminate.
  - reflexivity.
  - reflexivity.
  - exists stored. reflexivity.
Defined.

(** Under the sample runtime, the bare digest of a payload verifies. *)
Lemma C10_witness :
  @verifyHMACSignature sampleRuntime "{}" (HexSpec.lowercaseHex (sampleDigest "k{}")) "k"
  = true.
Proof.
  exact (proj1 (proj1 (proj2 (@C10_signature_prefix_is_optional sampleRuntime "{}" "" "k"))
                 (sampleDigest "k{}") eq_refl)).
Defined.

End WebhooksProofs.

(* ===================================================================== *)
(** * Properties of the retry sweep *)
(* ===================================================================== *)

Module RetryProofs.
Import RetryWebhooks.

(** An attempt that reached the destination and failed: the row's counter
    goes up by one; at five the row is abandoned and its schedule is left
    alone, below five it is failed, rescheduled and carries the error. *)
Lemma attempted_failure_is_counted (env : Env) (delivery row : WebhookDelivery)
    (results : Results) (w : World) (url text : string) :
  WEBHOOK_URL env = Some url -> url <> "" ->
  ((exists status errorText,
      fetchResult env delivery = Responded status errorText /\ ok status = false /\
      text = "HTTP " +:+ numToString status +:+ ": " +:+ errorText)
   \/ fetchResult env delivery = Rejected text) ->
  row ∈ webhook_deliveries (store w) -> wd_id row = wd_id delivery ->
  exists row',
    row' ∈ webhook_deliveries (store (retryOne env delivery results w).2) /\
    wd_id row' = wd_id delivery /\
    wd_attempts row' = (wd_attempts delivery + 1)%N /\
    if (5 <=? wd_attempts delivery + 1)%N
    then wd_status row' = "abandoned" /\
         wd_next_attempt_at row' = wd_next_attempt_at row
    else wd_status row' = "failed" /\
         wd_error row' = Some text /\
         wd_next_attempt_at row'
         = Some (Webhooks.nextAttemptAt (now env) (wd_attempts delivery + 1)).
Proof.
  intros Hurl Hne Hfail Hin Hid.
  assert (Hrow : forall f g, wd_id (f row) = wd_id row ->
    g (f row) ∈ updateWhere (Webhooks.hasId (wd_id delivery)) g
                  (updateWhere (Webhooks.hasId (wd_id delivery)) f
                     (webhook_deliveries (store w)))).
  { intros f g Hf.
    pose proof (WebhooksProofs.elem_of_updateWhere (Webhooks.hasId (wd_id delivery)) f _ row Hin)
      as H1.
    unfold Webhooks.hasId in H1 at 1. rewrite Hid, Z.eqb_refl in H1.
    pose proof (WebhooksProofs.elem_of_updateWhere (Webhooks.hasId (wd_id delivery)) g _ _ H1)
      as H2.
    unfold Webhooks.hasId in H2 at 1. now rewrite Hf, Hid, Z.eqb_refl in H2. }
  assert (Hstep : store (retryOne env delivery results w).2
    = withDeliveries
        (updateWhere (Webhooks.hasId (wd_id delivery))
           (if (5 <=? wd_attempts delivery + 1)%N
            then Webhooks.setStatusError "abandoned"
                   (Some ("Maximum retry attempts (" +:+ numToString 5 +:+ ") exceeded"))
            else Webhooks.setRetry
                   (Webhooks.nextAttemptAt (now env) (wd_attempts delivery + 1))
                   (wd_attempts delivery + 1)))
        (withDeliveries
           (updateWhere (Webhooks.hasId (wd_id delivery))
              (setFailed text (wd_attempts delivery + 1)))
           (store w))).
  { unfold retryOne, retryFailedWebhook, scheduleNextRetry, maxRetries.
    rewrite Hurl. unfold nonEmpty. rewrite bool_decide_eq_false_2 by assumption.
    cbn [negb].
    destruct Hfail as [(status & errorText & -> & Hok & ->)| ->].
    - rewrite Hok. destruct (5 <=? wd_attempts delivery + 1)%N; reflexivity.
    - destruct (5 <=? wd_attempts delivery + 1)%N; reflexivity. }
  rewrite Hstep. cbn [store withDeliveries webhook_deliveries].
  destruct (5 <=? wd_attempts delivery + 1)%N.
  - exists (Webhooks.setStatusError "abandoned"
              (Some ("Maximum retry attempts (" +:+ numToString 5 +:+ ") exceeded"))
              (setFailed text (wd_attempts delivery + 1) row)).
    split; [now apply Hrow|]. repeat split. exact Hid.
  - exists (Webhooks.setRetry (Webhooks.nextAttemptAt (now env) (wd_attempts delivery + 1))
              (wd_attempts delivery + 1)
              (setFailed text (wd_attempts delivery + 1) row)).
    split; [now apply Hrow|]. repeat split. exact Hid.
Qed.

(** C6 (what the code does).  A delivery at four attempts is due; the sweep
    runs with [WEBHOOK_URL] unset.  [retryFailedWebhook] returns [false]
    before any write, the sweep counts the delivery as failed, and
    [scheduleNextRetry] abandons it: the row ends [abandoned] with its
    counter still at four.  With the destination configured and the
    request rejected, the same row ends [abandoned] at five. *)
Theorem C6_unconfigured_destination_abandons_uncounted :
  let payload := mkWebhookPayload "payment.succeeded"
                   (mkEventData (Some "pay_1") (Some "gw_1")) "2025-01-01T00:00:00Z" "evt_1" in
  let row := mkWebhookDelivery 7 "payment.succeeded" payload "sha256=00" "failed" 4
               (Some "Failed to update payment status") (Some 500) None 0 in
  let d := withDeliveries (fun _ => [row]) emptyDB in
  let unset := mkEnv 1000 None (fun _ => Rejected "connection refused") false in
  let configured := mkEnv 1000 (Some "https://example.test")
                      (fun _ => Rejected "connection refused") false in
  webhook_deliveries (run (handler unset "POST") d).1.2
  = [mkWebhookDelivery 7 "payment.succeeded" payload "sha256=00" "abandoned" 4
       (Some "Maximum retry attempts (5) exceeded") (Some 500) None 0]
  /\ (run (handler unset "POST") d).1.1
     = jsonResponse 200
         (JObj [("message", JStr "Retry process completed");
                ("results", JObj [("processed", JNum 1); ("succeeded", JNum 0);
                                  ("failed", JNum 1); ("abandoned", JNum 1)])])
  /\ webhook_deliveries (run (handler configured "POST") d).1.2
     = [mkWebhookDelivery 7 "payment.succeeded" payload "sha256=00" "abandoned" 5
          (Some "Maximum retry attempts (5) exceeded") (Some 500) None 0].
Proof. repeat split; vm_compute; reflexivity. Qed.

End RetryProofs.

(* ===================================================================== *)
(** * Properties of the payment intake function *)
(* ===================================================================== *)

Module PaymentsProofs.
Import Payments.

(** The locked section ([try] and its [catch]) always returns through the
    [catch]: it answers 400 with an error, having issued the release once.
    The error is the refused insert, or, when the payment was created, the
    TypeError of the audit call.  The release changes the row under the key
    unless the store refuses it. *)
Lemma locked_section_releases (env : Env) (key : string) (requestBody : PaymentRequest)
    (w : World) :
  let out := tryCatch (processPayment env key requestBody) (releaseWithError env key) w in
  exists message,
    out.1 = Returned (jsonResponse 400 (errorJson message)) /\
    ledger_trace out.2 = (ledger_trace w ++ [Release key 400])%list /\
    idempotency_keys (store out.2)
    = (if releaseError env then idempotency_keys (store w)
       else alter (releasedRow (errorJson message) 400) key (idempotency_keys (store w))) /\
    message = match paymentInsert env with
              | Inserted => "supabase.rpc(...).catch is not a function"
              | InsertError reason => "Failed to create payment: " +:+ reason
              | NoRow => "Failed to create payment: unknown error"
              end.
Proof.
  unfold processPayment, releaseWithError, release, createAuditLog. unfold_task.
  destruct (paymentInsert env) as [|reason|] eqn:Hins.
  - destruct (updateError env), (txnError env), (releaseError env);
      cbn; eexists; repeat split; reflexivity.
  - destruct (releaseError env); cbn; eexists; repeat split; reflexivity.
  - destruct (releaseError env); cbn; eexists; repeat split; reflexivity.
Qed.

(** When the insert succeeds the payment table grows by the one new row;
    otherwise it is left alone. *)
Lemma locked_section_payments (env : Env) (key : string) (requestBody : PaymentRequest)
    (w : World) :
  let out := tryCatch (processPayment env key requestBody) (releaseWithError env key) w in
  length (payments (store out.2))
  = match paymentInsert env with
    | Inserted => S (length (payments (store w)))
    | _ => length (payments (store w))
    end.
Proof.
  unfold processPayment, releaseWithError, release, createAuditLog. unfold_task.
  destruct (paymentInsert env) as [|reason|] eqn:Hins.
  - destruct (updateError env), (txnError env), (releaseError env); cbn;
      unfold updateWhere; rewrite ?length_map, length_app; simpl; lia.
  - destruct (releaseError env); reflexivity.
  - destruct (releaseError env); reflexivity.
Qed.

Lemma invalidAmount_iff (requestBody : PaymentRequest) :
  invalidAmount requestBody = true <->
  amount_cents requestBody = None \/
  exists a, amount_cents requestBody = Some a /\ a <= 0.
Proof.
  unfold invalidAmount. destruct (amount_cents requestBody) as [a|].
  - rewrite orb_true_iff, Z.eqb_eq, Z.leb_le. split.
    + intros Ha. right. exists a. split; [reflexivity|lia].
    + intros [Hn|(a' & [= <-] & Ha)]; [discriminate|auto].
  - split; auto.
Qed.

Section WithRuntime.
Context `{Runtime}.

(** A digest in hexadecimal is never the empty text. *)
Lemma sha256Hex_nonempty (input : string) : sha256Hex input <> "".
Proof.
  intros Heq. pose proof (HexProofs.toHex_length (sha256 input)) as Hlen.
  unfold sha256Hex in Heq. rewrite Heq, sha256_length in Hlen. discriminate.
Qed.

(** The three ways the [try] block of [handler] can go: an outcome (an
    answer, or the throw on a [null] body) that leaves the world alone and
    that any later call with a working lookup repeats; a refused lock; or
    the locked section, entered with the key written [locked] and the
    acquisition on the trace. *)
Lemma handlePost_classify (env : Env) (req : Request) (w : World) :
  (exists o, handlePost env req w = (o, w) /\
     forall env2, keySelectErr env2 = false -> handlePost env2 req w = (o, w))
  \/ (lockError env = true /\
      handlePost env req w
      = (Returned (jsonResponse 500 (errorJson "Internal server error")), w))
  \/ (exists key requestBody,
        req_idempotency_key req = Some key /\ key <> "" /\
        req_json req = JsonValue requestBody /\ invalidAmount requestBody = false /\
        handlePost env req w
        = tryCatch (processPayment env key requestBody) (releaseWithError env key)
            (mkWorld
               (withKeys
                  (partial_alter
                     (lockedRow (sha256Hex (stringifyRequest requestBody)) (now env)) key)
                  (store w))
               (ledger_trace w ++ [Acquire key])%list)).
Proof.
  unfold handlePost.
  destruct (req_idempotency_key req) as [key|]; [|left; eauto].
  unfold nonEmpty. case_bool_decide as Hkey; cbn [negb]; [left; eauto|].
  destruct (req_json req) as [| |requestBody]; [left; eauto..|].
  destruct (invalidAmount requestBody) eqn:Hamount; [left; eauto|].
  cbv zeta. unfold_task.
  destruct (keySelectErr env) eqn:Hsel.
  - cbn [answerFromLedger].
    destruct (lockError env) eqn:Hlock; [right; left; auto|].
    right; right. exists key, requestBody. repeat split; auto.
  - destruct (answerFromLedger (idempotency_keys (store w) !! key)
                (sha256Hex (stringifyRequest requestBody))) as [r|] eqn:Hans.
    + left. eexists. split; [reflexivity|]. intros env2 ->. now rewrite Hans.
    + destruct (lockError env) eqn:Hlock; [right; left; auto|].
      right; right. exists key, requestBody. repeat split; auto.
Qed.

(** A call that finds the key released, with this body's hash and a stored
    response, returns that response with the stored status and writes
    nothing. *)
Lemma replay_of_released (env : Env) (req : Request) (w : World)
    (key : string) (requestBody : PaymentRequest) (row : IdempotencyKey)
    (body : Json) (code : Z) :
  req_idempotency_key req = Some key -> key <> "" ->
  req_json req = JsonValue requestBody -> invalidAmount requestBody = false ->
  keySelectErr env = false ->
  idempotency_keys (store w) !! key = Some row ->
  ik_request_hash row = sha256Hex (stringifyRequest requestBody) ->
  ik_locked row = false ->
  ik_response row = Some body -> truthy body = true ->
  ik_status_code row = Some code ->
  handlePost env req w = (Returned (jsonResponse code body), w).
Proof.
  intros Hkey Hne Hjson Hamount Hsel Hrow Hhash Hlocked Hresp Htruthy Hcode.
  unfold handlePost. rewrite Hkey. unfold nonEmpty.
  rewrite bool_decide_eq_false_2 by assumption. cbn [negb].
  rewrite Hjson, Hamount. cbv zeta.
  unfold_task. rewrite Hsel, Hrow.
  unfold answerFromLedger. rewrite Hhash, String.eqb_refl, andb_false_r.
  now rewrite Hlocked, Hresp, Htruthy, Hcode.
Qed.

(** What [run] makes of the handler. *)
Lemma run_handler (env : Env) (req : Request) (d : DB) :
  run (handler env req) d =
  if req_method req =? "OPTIONS"
  then (mkResponse 500 (BodyText "Internal Server Error"), d, [])
  else if negb (req_method req =? "POST")
  then (jsonResponse 405 (errorJson "Method not allowed"), d, [])
  else match handlePost env req (mkWorld d []) with
       | (Returned r, w) => (r, store w, ledger_trace w)
       | (Thrown _, w) =>
           (jsonResponse 500 (errorJson "Internal server error"), store w, ledger_trace w)
       end.
Proof.
  unfold run, handler, tryCatch.
  destruct (req_method req =? "OPTIONS"); [reflexivity|].
  destruct (negb (req_method req =? "POST")); [reflexivity|].
  destruct (handlePost env req (mkWorld d [])) as [[r|message] w]; reflexivity.
Qed.

(** A run that took the lock: the whole of its ledger trace, its answer
    and the row it leaves under the key, unlocked with the answer stored
    when the store takes the release and still locked when it refuses. *)
Lemma run_after_acquire (env : Env) (req : Request) (d : DB) (key : string) :
  Acquire key ∈ (run (handler env req) d).2 ->
  exists requestBody message row,
    req_method req = "POST" /\
    req_idempotency_key req = Some key /\ key <> "" /\
    req_json req = JsonValue requestBody /\ invalidAmount requestBody = false /\
    (run (handler env req) d).2 = [Acquire key; Release key 400] /\
    (run (handler env req) d).1.1 = jsonResponse 400 (errorJson message) /\
    idempotency_keys (run (handler env req) d).1.2 !! key = Some row /\
    ik_request_hash row = sha256Hex (stringifyRequest requestBody) /\
    (if releaseError env
     then ik_locked row = true /\
          ik_response row = (idempotency_keys d !! key ≫= ik_response) /\
          ik_status_code row = (idempotency_keys d !! key ≫= ik_status_code)
     else ik_locked row = false /\
          ik_response row = Some (errorJson message) /\
          ik_status_code row = Some 400) /\
    message = match paymentInsert env with
              | Inserted => "supabase.rpc(...).catch is not a function"
              | InsertError reason => "Failed to create payment: " +:+ reason
              | NoRow => "Failed to create payment: unknown error"
              end.
Proof.
  rewrite run_handler.
  destruct (req_method req =? "OPTIONS") eqn:Hopt;
    [intros Hin; now apply elem_of_nil in Hin|].
  destruct (req_method req =? "POST") eqn:Hpost; cbn [negb];
    [|intros Hin; now apply elem_of_nil in Hin].
  apply String.eqb_eq in Hpost.
  destruct (handlePost_classify env req (mkWorld d []))
    as [(o & -> & _)|[(_ & ->)|(key0 & requestBody & Hkey & Hne & Hjson & Hamount & ->)]].
  - destruct o; cbn [store ledger_trace snd]; intros Hin; now apply elem_of_nil in Hin.
  - cbn [store ledger_trace snd]. intros Hin. now apply elem_of_nil in Hin.
  - set (w0 := mkWorld _ _).
    destruct (locked_section_releases env key0 requestBody w0)
      as (message & Hret & Htrace & Hkeys & Hmessage).
    destruct (tryCatch (processPayment env key0 requestBody) (releaseWithError env key0) w0)
      as [out w'] eqn:Hout.
    cbn [fst snd] in Hret, Htrace, Hkeys. subst out. cbn [fst snd].
    rewrite Htrace. subst w0. cbn [ledger_trace app].
    intros Hin.
    assert (key = key0) as <-.
    { apply elem_of_cons in Hin as [[= ->]|Hin]; [reflexivity|].
      apply list_elem_of_singleton in Hin. discriminate. }
    exists requestBody, message.
    rewrite Hkeys. cbn [store withKeys idempotency_keys].
    destruct (releaseError env).
    + eexists. rewrite lookup_partial_alter_eq.
      repeat split; try eassumption; try reflexivity.
    + eexists. rewrite lookup_alter_eq, lookup_partial_alter_eq.
      repeat split; try eassumption; try reflexivity.
Qed.

(** Every request hash the function leaves in the ledger is non-empty: the
    rows it writes carry a digest, the others are kept as they were. *)
Lemma ledger_hashes_nonempty (env : Env) (req : Request) (d : DB) :
  (forall key row, idempotency_keys d !! key = Some row -> ik_request_hash row <> "") ->
  forall key row,
    idempotency_keys (run (handler env req) d).1.2 !! key = Some row ->
    ik_request_hash row <> "".
Proof.
  intros Hinv key row. rewrite run_handler.
  destruct (req_method req =? "OPTIONS"); [apply Hinv|].
  destruct (negb (req_method req =? "POST")); [apply Hinv|].
  destruct (handlePost_classify env req (mkWorld d []))
    as [(o & -> & _)|[(_ & ->)|(key0 & requestBody & _ & _ & _ & _ & ->)]].
  - destruct o; cbn [store fst snd]; apply Hinv.
  - cbn [store fst snd]. apply Hinv.
  - set (w0 := mkWorld _ _).
    destruct (locked_section_releases env key0 requestBody w0)
      as (message & Hret & _ & Hkeys & _).
    destruct (tryCatch (processPayment env key0 requestBody) (releaseWithError env key0) w0)
      as [out w'] eqn:Hout.
    cbn [fst snd] in Hret, Hkeys. subst out. cbn [fst snd].
    rewrite Hkeys. subst w0. cbn [store withKeys idempotency_keys].
    destruct (decide (key0 = key)) as [->|Hother].
    + destruct (releaseError env).
      * rewrite lookup_partial_alter_eq. cbn. intros [= <-]. cbn.
        apply sha256Hex_nonempty.
      * rewrite lookup_alter_eq, lookup_partial_alter_eq. cbn. intros [= <-]. cbn.
        apply sha256Hex_nonempty.
    + destruct (releaseError env).
      * rewrite lookup_partial_alter_ne by assumption. apply Hinv.
      * rewrite lookup_alter_ne, lookup_partial_alter_ne by assumption. apply Hinv.
Qed.

(** After a call that did not end in an internal error and whose release
    the store took, a second call with the same key and body whose ledger
    lookup answers returns the same status and body, writes nothing and
    takes no lock. *)
Lemma replay_when_lookup_answers (env1 env2 : Env) (req : Request) (d : DB) :
  let first := run (handler env1 req) d in
  let second := run (handler env2 req) first.1.2 in
  resp_status first.1.1 <> 500 ->
  releaseError env1 = false ->
  keySelectErr env2 = false ->
  second.1.1 = first.1.1 /\ second.1.2 = first.1.2 /\ second.2 = [].
Proof.
  intros first second Hdone Hrel Hsel.
  subst second first. revert Hdone. rewrite !run_handler.
  destruct (req_method req =? "OPTIONS") eqn:Hopt.
  { intros Hdone. now contradiction Hdone. }
  destruct (req_method req =? "POST") eqn:Hpost; cbn [negb].
  2:{ auto. }
  destruct (handlePost_classify env1 req (mkWorld d []))
    as [(o & Hr & Hagain)|[(_ & Hr)|(key & requestBody & Hkey & Hne & Hjson & Hamount & Hr)]];
    rewrite Hr.
  - destruct o as [r|message].
    + intros _. cbn [fst snd store ledger_trace].
      rewrite (Hagain env2 Hsel). auto.
    + intros Hdone. now contradiction Hdone.
  - intros Hdone. now contradiction Hdone.
  - set (w0 := mkWorld _ _).
    destruct (locked_section_releases env1 key requestBody w0)
      as (message & Hret & Htrace & Hkeys & _).
    destruct (tryCatch (processPayment env1 key requestBody) (releaseWithError env1 key) w0)
      as [out w'] eqn:Hout.
    cbn [fst snd] in Hret, Htrace, Hkeys. subst out. intros _. cbn [fst snd].
    rewrite Hrel in Hkeys.
    rewrite (replay_of_released env2 req (mkWorld (store w') []) key requestBody
               (releasedRow (errorJson message) 400
                  (mkIdempotencyKey "/payments" "POST"
                     (sha256Hex (stringifyRequest requestBody)) true (now env1)
                     (idempotency_keys d !! key ≫= ik_response)
                     (idempotency_keys d !! key ≫= ik_status_code)))
               (errorJson message) 400); auto.
    cbn [store]. rewrite Hkeys. subst w0. cbn [store withKeys idempotency_keys].
    now rewrite lookup_alter_eq, lookup_partial_alter_eq.
Qed.

(** When the key is recorded with a non-empty request hash other than the
    hash of the incoming body, a valid request whose ledger lookup answers
    is refused with the 409 conflict, whether or not the record is locked,
    and nothing is written. *)
Lemma other_body_conflicts_when_lookup_answers (env : Env) (req : Request) (d : DB)
    (key : string) (requestBody : PaymentRequest) (row : IdempotencyKey) :
  req_method req = "POST" ->
  req_idempotency_key req = Some key -> key <> "" ->
  req_json req = JsonValue requestBody -> invalidAmount requestBody = false ->
  keySelectErr env = false ->
  idempotency_keys d !! key = Some row ->
  ik_request_hash row <> "" ->
  ik_request_hash row <> sha256Hex (stringifyRequest requestBody) ->
  run (handler env req) d
  = (jsonResponse 409
       (JObj [("error", JStr "Idempotency key conflict");
              ("message", JStr "Key used with different request body")]),
     d, []).
Proof.
  intros Hmethod Hkey Hne Hjson Hamount Hsel Hrow Hhash Hother.
  rewrite run_handler, Hmethod. cbn [String.eqb Ascii.eqb Bool.eqb negb].
  unfold handlePost. rewrite Hkey. unfold nonEmpty at 1.
  rewrite bool_decide_eq_false_2 by assumption. cbn [negb].
  rewrite Hjson, Hamount. cbv zeta.
  unfold_task. cbn [store].
  rewrite Hsel, Hrow. unfold answerFromLedger, nonEmpty.
  rewrite bool_decide_eq_false_2 by assumption.
  apply String.eqb_neq in Hother. rewrite Hother. reflexivity.
Qed.

(** A request whose body has no positive amount is refused with 400 before
    anything is read from or written to the store. *)
Lemma invalid_amount_rejected (env : Env) (req : Request) (d : DB)
    (requestBody : PaymentRequest) :
  req_method req = "POST" ->
  req_json req = JsonValue requestBody -> invalidAmount requestBody = true ->
  resp_status (run (handler env req) d).1.1 = 400 /\
  (run (handler env req) d).1.2 = d /\
  (run (handler env req) d).2 = [].
Proof.
  intros Hmethod Hjson Hamount.
  rewrite run_handler, Hmethod. cbn [String.eqb Ascii.eqb Bool.eqb negb].
  unfold handlePost.
  destruct (req_idempotency_key req) as [key|]; [|auto].
  destruct (negb (nonEmpty key)); [auto|].
  rewrite Hjson, Hamount. auto.
Qed.

End WithRuntime.

(** C2 (what the code does).  A first payment of 10000 USD under the key
    K1, run under the sample runtime.

    When the store refuses the update that stores the response, whose
    result the function does not look at, the call still answers, and the
    key is left locked with no response stored: a later call with the same
    key and body is told that the request is being processed, and changes
    nothing.

    When the store takes every write, the payment and its transaction are
    recorded with the gateway's status, the audit call throws, and the only
    release is the one of the [catch]: the key is unlocked with status 400
    and the error, which is also the answer. *)
Theorem C2_refused_release_leaves_key_locked :
  let body := mkPaymentRequest (Some 10000) (Some "USD") None None None in
  let req := mkRequest "POST" (Some "K1") (JsonValue body) in
  let refusing := mkEnv 1700000000000 "abc123xyz" true "pay-uuid-1"
                    false false Inserted false false true in
  let taking := mkEnv 1700000000000 "abc123xyz" true "pay-uuid-1"
                  false false Inserted false false false in
  let later := mkEnv 1700000005000 "zyx321cba" true "pay-uuid-2"
                 false false Inserted false false false in
  let refused := run (@handler sampleRuntime refusing req) emptyDB in
  let retry := run (@handler sampleRuntime later req) refused.1.2 in
  let taken := run (@handler sampleRuntime taking req) emptyDB in
  (refused.1.1 = jsonResponse 400 (errorJson "supabase.rpc(...).catch is not a function") /\
   refused.2 = [Acquire "K1"; Release "K1" 400] /\
   (ik_locked <$> idempotency_keys refused.1.2 !! "K1") = Some true /\
   (idempotency_keys refused.1.2 !! "K1" ≫= ik_response) = None /\
   retry.1.1 = jsonResponse 409 (errorJson "Request is being processed") /\
   retry.1.2 = refused.1.2)
  /\ (taken.1.1 = jsonResponse 400 (errorJson "supabase.rpc(...).catch is not a function") /\
      taken.2 = [Acquire "K1"; Release "K1" 400] /\
      map p_status (payments taken.1.2) = ["succeeded"] /\
      map t_status (transactions taken.1.2) = ["succeeded"] /\
      (ik_locked <$> idempotency_keys taken.1.2 !! "K1") = Some false /\
      (idempotency_keys taken.1.2 !! "K1" ≫= ik_status_code) = Some 400 /\
      (idempotency_keys taken.1.2 !! "K1" ≫= ik_response)
      = Some (errorJson "supabase.rpc(...).catch is not a function")).
Proof. repeat split; vm_compute; reflexivity. Qed.

(** C3 (what the code does).  Two calls with the key K1 and the same body
    of 10000 USD, the second with a ledger lookup that reports an error.
    The function logs the error and goes on as if the key were new.

    After a first call that created the payment, the second call takes the
    lock again and creates a second payment row.  After a first call whose
    insert the store refused, the second call does not return the stored
    answer: it creates a payment and answers with another error. *)
Theorem C3_failed_lookup_repeats_the_payment :
  let body := mkPaymentRequest (Some 10000) (Some "USD") None None None in
  let req := mkRequest "POST" (Some "K1") (JsonValue body) in
  let creating := mkEnv 1700000000000 "abc123xyz" true "pay-uuid-1"
                    false false Inserted false false false in
  let failing := mkEnv 1700000000000 "abc123xyz" true "pay-uuid-1"
                   false false (InsertError "connection reset") false false false in
  let blind := mkEnv 1700000005000 "zyx321cba" true "pay-uuid-2"
                 true false Inserted false false false in
  let first := run (@handler sampleRuntime creating req) emptyDB in
  let second := run (@handler sampleRuntime blind req) first.1.2 in
  let first' := run (@handler sampleRuntime failing req) emptyDB in
  let second' := run (@handler sampleRuntime blind req) first'.1.2 in
  (resp_status first.1.1 = 400 /\
   map p_id (payments first.1.2) = ["pay-uuid-1"] /\
   second.2 = [Acquire "K1"; Release "K1" 400] /\
   map p_id (payments second.1.2) = ["pay-uuid-1"; "pay-uuid-2"])
  /\ (first'.1.1 = jsonResponse 400 (errorJson "Failed to create payment: connection reset") /\
      (idempotency_keys first'.1.2 !! "K1" ≫= ik_response)
      = Some (errorJson "Failed to create payment: connection reset") /\
      payments first'.1.2 = [] /\
      second'.1.1 = jsonResponse 400 (errorJson "supabase.rpc(...).catch is not a function") /\
      map p_id (payments second'.1.2) = ["pay-uuid-2"]).
Proof. repeat split; vm_compute; reflexivity. Qed.

(** C4 (what the code does).  The key K1 is recorded, unlocked, with the
    hash of a request for 10000 USD and its stored answer.  A request for
    2500 USD under K1 arrives while the ledger lookup reports an error: the
    function goes on as if the key were new, so there is no 409; the upsert
    writes the hash of the new body over the recorded one, a payment is
    created, and the stored answer is replaced.  With a lookup that
    answers, the same request is refused with 409 and nothing is
    written. *)
Theorem C4_failed_lookup_overwrites_the_record :
  let used := mkPaymentRequest (Some 10000) (Some "USD") None None None in
  let other := mkPaymentRequest (Some 2500) (Some "USD") None None None in
  let stored := JObj [("id", JStr "pay-uuid-0"); ("status", JStr "succeeded")] in
  let row := mkIdempotencyKey "/payments" "POST" (@sha256Hex sampleRuntime (sampleStringify used))
               false 5 (Some stored) (Some 201) in
  let d := withKeys (insert "K1" row) emptyDB in
  let req := mkRequest "POST" (Some "K1") (JsonValue other) in
  let blind := mkEnv 1700000000000 "abc123xyz" true "pay-uuid-1"
                 true false Inserted false false false in
  let seeing := mkEnv 1700000000000 "abc123xyz" true "pay-uuid-1"
                  false false Inserted false false false in
  let out := run (@handler sampleRuntime blind req) d in
  @sha256Hex sampleRuntime (sampleStringify other)
  <> @sha256Hex sampleRuntime (sampleStringify used) /\
  out.1.1 = jsonResponse 400 (errorJson "supabase.rpc(...).catch is not a function") /\
  out.2 = [Acquire "K1"; Release "K1" 400] /\
  (ik_request_hash <$> idempotency_keys out.1.2 !! "K1")
  = Some (@sha256Hex sampleRuntime (sampleStringify other)) /\
  (idempotency_keys out.1.2 !! "K1" ≫= ik_response)
  = Some (errorJson "supabase.rpc(...).catch is not a function") /\
  map p_amount_cents (payments out.1.2) = [2500] /\
  run (@handler sampleRuntime seeing req) d
  = (jsonResponse 409
       (JObj [("error", JStr "Idempotency key conflict");
              ("message", JStr "Key used with different request body")]),
     d, []).
Proof.
  repeat split; try (vm_compute; reflexivity).
  intros Heq. vm_compute in Heq. discriminate Heq.
Qed.

(** C8 (what the code does).  A request for 10000 in the currency INVALID
    passes the only validation there is, the one of the amount.  When the
    store takes the row, the key is locked and the payment and its
    transaction are recorded in that currency before the call answers 400,
    and the error it answers with is the TypeError of the audit call, the
    same a request in USD gets.  When the store refuses the row the answer
    is 400 too, after the key was locked and released with the error stored
    under it.  In neither case is the request refused before the ledger is
    touched. *)
Theorem C8_currency_is_not_checked :
  let body := mkPaymentRequest (Some 10000) (Some "INVALID") None None None in
  let usd := mkPaymentRequest (Some 10000) (Some "USD") None None None in
  let req := mkRequest "POST" (Some "K1") (JsonValue body) in
  let accepting := mkEnv 1700000000000 "abc123xyz" true "pay-uuid-1"
                     false false Inserted false false false in
  let refusing := mkEnv 1700000000000 "abc123xyz" true "pay-uuid-1"
                    false false (InsertError "violates check constraint")
                    false false false in
  let accepted := run (@handler sampleRuntime accepting req) emptyDB in
  let refused := run (@handler sampleRuntime refusing req) emptyDB in
  let plain := run (@handler sampleRuntime accepting
                      (mkRequest "POST" (Some "K1") (JsonValue usd))) emptyDB in
  invalidAmount body = false /\
  accepted.1.1 = jsonResponse 400 (errorJson "supabase.rpc(...).catch is not a function") /\
  map p_currency (payments accepted.1.2) = ["INVALID"] /\
  map t_currency (transactions accepted.1.2) = ["INVALID"] /\
  accepted.2 = [Acquire "K1"; Release "K1" 400] /\
  plain.1.1 = accepted.1.1 /\
  refused.1.1
  = jsonResponse 400 (errorJson "Failed to create payment: violates check constraint") /\
  refused.2 = [Acquire "K1"; Release "K1" 400] /\
  (idempotency_keys refused.1.2 !! "K1" ≫= ik_response)
  = Some (errorJson "Failed to create payment: violates check constraint").
Proof. repeat split; vm_compute; reflexivity. Qed.

End PaymentsProofs.

(* ===================================================================== *)
(** * Further properties of the reconciliation matcher *)
(* ===================================================================== *)

Module ReconciliationMore.
Import Reconciliation ReconciliationProofs.

(** The columns a run never writes. *)
Lemma updateMatched_keeps_columns id pid table :
  map (fun r => (rec_id r, rec_uploaded_by r, rec_external_transaction_id r, rec_amount r))
      (updateMatched id pid table)
  = map (fun r => (rec_id r, rec_uploaded_by r, rec_external_transaction_id r, rec_amount r))
        table.
Proof.
  unfold updateMatched. rewrite map_map. apply map_ext.
  intros row. now case_bool_decide.
Qed.

Lemma matchLoop_keeps_columns records payments st :
  map (fun r => (rec_id r, rec_uploaded_by r, rec_external_transaction_id r, rec_amount r))
      (run_table (matchLoop records payments st))
  = map (fun r => (rec_id r, rec_uploaded_by r, rec_external_transaction_id r, rec_amount r))
        (run_table st).
Proof.
  revert st. induction records as [|r rest IH]; intros st; simpl; [reflexivity|].
  destruct (findMatch r payments); rewrite IH; simpl; [|reflexivity].
  apply updateMatched_keeps_columns.
Qed.

Lemma matchLoop_keeps_ids records payments st :
  map rec_id (run_table (matchLoop records payments st)) = map rec_id (run_table st).
Proof.
  pose proof (matchLoop_keeps_columns records payments st) as Hcols.
  apply (f_equal (map (fun c => c.1.1.1))) in Hcols.
  now rewrite !map_map in Hcols.
Qed.

(** A row is left as it is when no record of its id finds a payment. *)
Lemma matchLoop_untouched records payments st row :
  row ∈ run_table st ->
  (forall r, r ∈ records -> rec_id r = rec_id row -> findMatch r payments = None) ->
  row ∈ run_table (matchLoop records payments st).
Proof.
  revert st. induction records as [|r rest IH]; intros st Hin Hnone; simpl; [assumption|].
  assert (Hrest : forall r', r' ∈ rest -> rec_id r' = rec_id row ->
                    findMatch r' payments = None).
  { intros r' Hr'. apply Hnone. now right. }
  destruct (findMatch r payments) as [p|] eqn:Hf.
  - apply IH; [|assumption]. simpl. apply elem_of_updateMatched. exists row.
    split; [assumption|]. case_bool_decide as Hid; [|reflexivity].
    rewrite (Hnone r) in Hf; [discriminate|left|now symmetry].
  - apply IH; assumption.
Qed.

(** When no record finds a payment the loop only counts. *)
Lemma matchLoop_no_candidates records payments st :
  (forall r, r ∈ records -> findMatch r payments = None) ->
  matchLoop records payments st
  = mkRun (run_table st) (run_matched st) (run_unmatched st + length records).
Proof.
  revert st. induction records as [|r rest IH]; intros st Hnone; simpl.
  - destruct st. simpl. f_equal. lia.
  - rewrite (Hnone r) by left. rewrite IH by (intros r' Hr'; apply Hnone; now right).
    simpl. f_equal. lia.
Qed.

(** The matched counter is the number of records for which the inner loop
    found a payment. *)
Lemma matchLoop_matched_count records payments st :
  run_matched (matchLoop records payments st)
  = (run_matched st
     + length (filter (fun r => is_Some (findMatch r payments)) records))%nat.
Proof.
  revert st. induction records as [|r rest IH]; intros st; simpl; [lia|].
  destruct (findMatch r payments) as [p|] eqn:Hf; rewrite IH; simpl.
  - rewrite filter_cons_True by (rewrite Hf; eauto). simpl. lia.
  - rewrite filter_cons_False; [reflexivity|]. rewrite Hf. now intros [? ?].
Qed.

(** X1.  Whatever the outcome of a run, every row keeps its id, uploader,
    external id and amount, in the same order: a run writes nothing but
    the status and the payment link.  With unique ids, a row that is not
    an unmatched record of the caller is left exactly as it was. *)
Theorem X1_run_writes_only_status_and_link
    (user : option string) (recordsError paymentsError : bool)
    (table : list ReconciliationRecord) (payments : list Payment) :
  let table' := tableAfter table
                  (runReconciliation user recordsError paymentsError table payments) in
  map (fun r => (rec_id r, rec_uploaded_by r, rec_external_transaction_id r, rec_amount r))
      table'
  = map (fun r => (rec_id r, rec_uploaded_by r, rec_external_transaction_id r, rec_amount r))
        table
  /\ (NoDup (map rec_id table) ->
      forall row, row ∈ table ->
        ~ (rec_uploaded_by row = user /\ rec_status row = Some "unmatched") ->
        row ∈ table').
Proof.
  unfold runReconciliation.
  destruct user as [uid|]; [|simpl; auto].
  destruct recordsError; [simpl; auto|].
  destruct paymentsError; [simpl; auto|].
  simpl. split; [apply matchLoop_keeps_columns|].
  intros Hnd row Hin Hnot. apply matchLoop_untouched; [assumption|].
  intros r Hr Hid. exfalso. apply Hnot.
  unfold selectUnmatched in Hr. apply list_elem_of_filter in Hr as [[Hu Hs] Hr].
  assert (r = row) as <- by (apply (unique_by_id table); auto).
  auto.
Qed.

(** A matched record of the caller and a record of another user, next to
    an unmatched one that finds its payment. *)
Lemma X1_witness :
  let mine := mkRecord "r1" (Some "u1") (Some "PAY_1") (Some 10000) (Some "unmatched") None in
  let done := mkRecord "r2" (Some "u1") (Some "PAY_2") (Some 500) (Some "matched") (Some "p9") in
  let theirs := mkRecord "r3" (Some "u2") (Some "PAY_1") (Some 10000) (Some "unmatched") None in
  let payment := mkPayment "p1" (Some "u1") 10000 (Some "PAY_1") "succeeded" 1 in
  theirs ∈ tableAfter [mine; done; theirs]
             (runReconciliation (Some "u1") false false [mine; done; theirs] [payment]).
Proof.
  intros mine done theirs payment.
  refine (proj2 (X1_run_writes_only_status_and_link (Some "u1") false false
                   [mine; done; theirs] [payment]) _ theirs _ _).
  - apply NoDup_ListNoDup. repeat constructor; simpl; intuition discriminate.
  - apply list_elem_of_In. simpl. auto.
  - intros [Hu _]. discriminate Hu.
Defined.

(** X2.  Reconciliation is idempotent: with unique ids, a second run over
    the table the first run left, against the same payments, links
    nothing, counts every remaining unmatched record of the caller as
    unmatched and leaves the table as it is. *)
Theorem X2_second_run_changes_nothing
    (user : string) (table : list ReconciliationRecord) (payments : list Payment) :
  NoDup (map rec_id table) ->
  let table1 := tableAfter table
                  (runReconciliation (Some user) false false table payments) in
  runReconciliation (Some user) false false table1 payments
  = ReconciliationComplete (length (selectUnmatched user table1))
      (mkRun table1 0 (length (selectUnmatched user table1))).
Proof.
  intros Hnd table1. subst table1. simpl.
  set (pays := selectPayments user payments).
  set (table1 := run_table (matchLoop (selectUnmatched user table) pays (mkRun table 0 0))).
  assert (Hnd1 : NoDup (map rec_id table1)).
  { unfold table1. now rewrite matchLoop_keeps_ids. }
  rewrite matchLoop_no_candidates; [reflexivity|].
  intros r Hr. unfold selectUnmatched in Hr.
  apply list_elem_of_filter in Hr as [[Hu Hs] Hr].
  destruct (findMatch r pays) as [p|] eqn:Hf; [exfalso|reflexivity].
  pose proof Hr as Hr0. unfold table1 in Hr0.
  apply matchLoop_rows in Hr0 as (row & Hrow & Hcase). simpl in Hrow.
  destruct Hcase as [<-|(r2 & p2 & _ & _ & _ & ->)]; [|discriminate Hs].
  assert (Hsel : r ∈ selectUnmatched user table).
  { unfold selectUnmatched. apply list_elem_of_filter. auto. }
  destruct (matchLoop_marks (selectUnmatched user table) pays (mkRun table 0 0) r p r)
    as (row' & Hrow' & Hid & Hst); auto.
  fold table1 in Hrow'.
  assert (row' = r) as -> by (apply (unique_by_id table1); auto).
  congruence.
Qed.

(** Two runs over one record that finds its payment and one that does not. *)
Lemma X2_witness :
  let hit := mkRecord "r1" (Some "u1") (Some "PAY_1") (Some 10000) (Some "unmatched") None in
  let miss := mkRecord "r2" (Some "u1") (Some "PAY_7") (Some 10000) (Some "unmatched") None in
  let payment := mkPayment "p1" (Some "u1") 10000 (Some "PAY_1") "succeeded" 1 in
  let table1 := tableAfter [hit; miss]
                  (runReconciliation (Some "u1") false false [hit; miss] [payment]) in
  runReconciliation (Some "u1") false false table1 [payment]
  = ReconciliationComplete (length (selectUnmatched "u1" table1))
      (mkRun table1 0 (length (selectUnmatched "u1" table1))).
Proof.
  intros hit miss payment.
  refine (X2_second_run_changes_nothing "u1" [hit; miss] [payment] _).
  apply NoDup_ListNoDup. repeat constructor; simpl; intuition discriminate.
Defined.

(** X3.  The summary of a completed run adds up: the total is the number
    of the caller's unmatched records, matched plus unmatched is the
    total, and matched is the number of those records for which the inner
    loop found a payment. *)
Theorem X3_summary_adds_up
    (user : string) (table : list ReconciliationRecord) (payments : list Payment) :
  exists st,
    runReconciliation (Some user) false false table payments
    = ReconciliationComplete (length (selectUnmatched user table)) st /\
    (run_matched st + run_unmatched st)%nat = length (selectUnmatched user table) /\
    run_matched st
    = length (filter (fun r => is_Some (findMatch r (selectPayments user payments)))
                (selectUnmatched user table)) /\
    length (run_table st) = length table.
Proof.
  eexists. split; [reflexivity|]. split; [|split].
  - now rewrite matchLoop_counts.
  - now rewrite matchLoop_matched_count.
  - now rewrite matchLoop_length.
Qed.

(** X4.  A record for which no payment of the caller has both its amount
    and its external id is left exactly as it was, still unmatched; in
    particular a record without an amount is never matched. *)
Theorem X4_record_without_candidate_is_untouched
    (user : string) (table : list ReconciliationRecord) (payments : list Payment)
    (record : ReconciliationRecord) :
  NoDup (map rec_id table) ->
  record ∈ table ->
  (rec_amount record = None \/
   forall p, p ∈ payments -> pay_user_id p = Some user -> ~ satisfiesBoth record p) ->
  record ∈ tableAfter table (runReconciliation (Some user) false false table payments).
Proof.
  intros Hnd Hin Hnone. simpl. apply matchLoop_untouched; [assumption|].
  intros r Hr Hid.
  unfold selectUnmatched in Hr. apply list_elem_of_filter in Hr as [_ Hr].
  assert (r = record) as -> by (apply (unique_by_id table); auto).
  destruct (findMatch record (selectPayments user payments)) as [p|] eqn:Hf; [|reflexivity].
  exfalso. apply findMatch_Some in Hf as [Hp Hs].
  unfold selectPayments in Hp. apply list_elem_of_filter in Hp as [Hu Hp].
  destruct Hnone as [Hamount|Hnone].
  - destruct Hs as [Ha _]. congruence.
  - now apply (Hnone p).
Qed.

(** A record without an amount, beside a payment with its external id. *)
Lemma X4_witness :
  let record := mkRecord "r1" (Some "u1") (Some "PAY_1") None (Some "unmatched") None in
  let payment := mkPayment "p1" (Some "u1") 10000 (Some "PAY_1") "succeeded" 1 in
  record ∈ tableAfter [record]
             (runReconciliation (Some "u1") false false [record] [payment]).
Proof.
  intros record payment.
  refine (X4_record_without_candidate_is_untouched "u1" [record] [payment] record _ _ _).
  - apply NoDup_ListNoDup. repeat constructor; simpl; intuition discriminate.
  - apply list_elem_of_here.
  - left. reflexivity.
Defined.

End ReconciliationMore.

(* ===================================================================== *)
(** * Further properties of the webhook function *)
(* ===================================================================== *)

Module WebhooksMore.
Import Webhooks WebhooksProofs.

(** An update that keeps a projection of every row keeps it of the table. *)
Lemma updateWhere_keeps {A B : Type} (proj : A -> B) (p : A -> bool) (f : A -> A)
    (rows : list A) :
  (forall row, proj (f row) = proj row) ->
  map proj (updateWhere p f rows) = map proj rows.
Proof.
  intros Hf. unfold updateWhere. rewrite map_map. apply map_ext.
  intros row. now destruct (p row).
Qed.

(** A row that does not pass the filter of an update is kept. *)
Lemma updateWhere_other {A : Type} (p : A -> bool) (f : A -> A) (rows : list A) (row : A) :
  row ∈ rows -> p row = false -> row ∈ updateWhere p f rows.
Proof.
  intros Hin Hp. pose proof (elem_of_updateWhere p f rows row Hin) as H.
  now rewrite Hp in H.
Qed.

(** What storing and processing an event never writes: the idempotency
    ledger, the transactions, and the identity of any payment. *)
Lemma storeAndProcess_frame (env : Env) (signature : string) (webhookData : WebhookPayload)
    (w : World) :
  let w' := (storeAndProcess env signature webhookData w).2 in
  idempotency_keys (store w') = idempotency_keys (store w) /\
  transactions (store w') = transactions (store w) /\
  map (fun p => (p_id p, p_amount_cents p, p_currency p, p_idempotency_key p,
                 p_external_payment_id p)) (payments (store w'))
  = map (fun p => (p_id p, p_amount_cents p, p_currency p, p_idempotency_key p,
                   p_external_payment_id p)) (payments (store w)) /\
  ledger_trace w' = ledger_trace w.
Proof.
  unfold storeAndProcess, processWebhookEvent, handlePaymentSucceeded, handlePaymentFailed,
    handlePaymentRefunded, applyPaymentEvent, scheduleRetry.
  unfold_task.
  repeat match goal with |- context [if ?b then _ else _] => destruct b end;
    cbn; repeat split; try reflexivity; try (now apply updateWhere_keeps).
Qed.

(** Storing and processing always ends in a response. *)
Lemma storeAndProcess_returns (env : Env) (signature : string) (webhookData : WebhookPayload)
    (w : World) :
  exists r, (storeAndProcess env signature webhookData w).1 = Returned r.
Proof.
  unfold storeAndProcess, processWebhookEvent, handlePaymentSucceeded, handlePaymentFailed,
    handlePaymentRefunded, applyPaymentEvent, scheduleRetry.
  unfold_task.
  repeat match goal with |- context [if ?b then _ else _] => destruct b end;
    cbn; eauto.
Qed.

Section WithRuntime.
Context `{Runtime}.

(** The world the [try] block leaves differs from the one it found only
    when the request was signed, verified and parsed. *)
Lemma handlePost_writes_only_verified (env : Env) (req : Request) (w : World) :
  (handlePost env req w).2 = w \/
  exists signature secret webhookData,
    req_signature req = Some signature /\ WEBHOOK_SECRET env = Some secret /\
    verifyHMACSignature (req_text req) signature secret = true /\
    parseWebhook (req_text req) = Some webhookData /\
    webhook_events (store w) !! event_id webhookData = None /\
    (handlePost env req w).2 = (storeAndProcess env signature webhookData w).2.
Proof.
  unfold handlePost.
  destruct (req_signature req) as [signature|]; [|now left].
  destruct (WEBHOOK_SECRET env) as [secret|]; [|now left].
  destruct (nonEmpty signature && nonEmpty secret); [|now left].
  cbv zeta.
  destruct (verifyHMACSignature (req_text req) signature secret) eqn:Hv; [|now left].
  cbn [negb].
  destruct (parseWebhook (req_text req)) as [webhookData|]; [|now left].
  unfold_task.
  destruct (webhook_events (store w) !! event_id webhookData) as [ev|] eqn:Hev; [now left|].
  right. exists signature, secret, webhookData. repeat split; auto.
Qed.

(** A verified delivery of an event id that is not stored yet runs
    [storeAndProcess] on the parsed payload. *)
Lemma run_new_event (env : Env) (req : Request) (d : DB)
    (signature secret : string) (webhookData : WebhookPayload) :
  req_method req = "POST" ->
  req_signature req = Some signature -> signature <> "" ->
  WEBHOOK_SECRET env = Some secret -> secret <> "" ->
  verifyHMACSignature (req_text req) signature secret = true ->
  parseWebhook (req_text req) = Some webhookData ->
  webhook_events d !! event_id webhookData = None ->
  run (handler env req) d
  = (match (storeAndProcess env signature webhookData (mkWorld d [])).1 with
     | Returned r => r
     | Thrown _ => jsonResponse 500 (errorJson "Internal server error")
     end,
     store (storeAndProcess env signature webhookData (mkWorld d [])).2,
     ledger_trace (storeAndProcess env signature webhookData (mkWorld d [])).2).
Proof.
  intros Hm Hs Hs0 Hk Hk0 Hv Hp Hnew.
  unfold run, handler. rewrite Hm. cbn [String.eqb Ascii.eqb Bool.eqb negb].
  unfold tryCatch, handlePost. rewrite Hs, Hk. unfold nonEmpty.
  rewrite !bool_decide_eq_false_2 by assumption. cbn [negb andb].
  rewrite Hv, Hp. cbn [negb]. unfold_task. cbn [store]. rewrite Hnew.
  destruct (storeAndProcess env signature webhookData (mkWorld d [])) as [[r|m] w'];
    reflexivity.
Qed.

(** A verified delivery of a stored event id is answered at once. *)
Lemma run_known_event (env : Env) (req : Request) (d : DB)
    (signature secret : string) (webhookData : WebhookPayload) :
  req_method req = "POST" ->
  req_signature req = Some signature -> signature <> "" ->
  WEBHOOK_SECRET env = Some secret -> secret <> "" ->
  verifyHMACSignature (req_text req) signature secret = true ->
  parseWebhook (req_text req) = Some webhookData ->
  is_Some (webhook_events d !! event_id webhookData) ->
  run (handler env req) d
  = (jsonResponse 200 (messageJson "Event already processed"), d, []).
Proof.
  intros Hm Hs Hs0 Hk Hk0 Hv Hp [ev Hev].
  unfold run, handler. rewrite Hm. cbn [String.eqb Ascii.eqb Bool.eqb negb].
  unfold tryCatch, handlePost. rewrite Hs, Hk. unfold nonEmpty.
  rewrite !bool_decide_eq_false_2 by assumption. cbn [negb andb].
  rewrite Hv, Hp. cbn [negb]. unfold_task. cbn [store]. now rewrite Hev.
Qed.

(** X5.  Nothing is written without a verified signature.  A POST whose
    signature header or configured secret is missing or empty is answered
    400, and one whose signature does not verify is answered 401, both with
    the store as it was and whatever the payload; and whenever a delivery
    changes the store, it was a POST carrying a signature that verifies
    under the configured secret. *)
Theorem X5_no_write_without_a_verified_signature (env : Env) (req : Request) (d : DB) :
  (req_method req = "POST" ->
   (req_signature req = None \/ req_signature req = Some "" \/
    WEBHOOK_SECRET env = None \/ WEBHOOK_SECRET env = Some "") ->
   run (handler env req) d
   = (jsonResponse 400 (errorJson "Missing signature or webhook secret"), d, []))
  /\ (forall signature secret,
        req_method req = "POST" ->
        req_signature req = Some signature -> signature <> "" ->
        WEBHOOK_SECRET env = Some secret -> secret <> "" ->
        verifyHMACSignature (req_text req) signature secret = false ->
        run (handler env req) d = (jsonResponse 401 (errorJson "Invalid signature"), d, []))
  /\ ((run (handler env req) d).1.2 <> d ->
      req_method req = "POST" /\
      exists signature secret,
        req_signature req = Some signature /\ WEBHOOK_SECRET env = Some secret /\
        verifyHMACSignature (req_text req) signature secret = true).
Proof.
  split; [|split].
  - intros Hm Hmissing. unfold run, handler. rewrite Hm.
    cbn [String.eqb Ascii.eqb Bool.eqb negb]. unfold tryCatch, handlePost.
    destruct (req_signature req) as [signature|]; [|reflexivity].
    destruct (WEBHOOK_SECRET env) as [secret|]; [|reflexivity].
    destruct Hmissing as [Hs|[Hs|[Hk|Hk]]]; try discriminate.
    + injection Hs as ->. reflexivity.
    + injection Hk as ->. unfold nonEmpty at 2. cbn [bool_decide decide_rel].
      now rewrite andb_false_r.
  - intros signature secret Hm Hs Hs0 Hk Hk0 Hv. unfold run, handler. rewrite Hm.
    cbn [String.eqb Ascii.eqb Bool.eqb negb]. unfold tryCatch, handlePost.
    rewrite Hs, Hk. unfold nonEmpty. rewrite !bool_decide_eq_false_2 by assumption.
    cbn [negb andb]. now rewrite Hv.
  - rewrite run_handler_store.
    destruct (req_method req =? "OPTIONS"); [congruence|].
    destruct (req_method req =? "POST") eqn:Hm; cbn [negb]; [|congruence].
    intros Hchanged. split; [now apply String.eqb_eq|].
    destruct (handlePost_writes_only_verified env req (mkWorld d []))
      as [Heq|(signature & secret & webhookData & Hs & Hk & Hv & _)].
    + rewrite Heq in Hchanged. now contradiction Hchanged.
    + eauto.
Qed.

(** X6.  What a delivery never writes, whatever the request: the
    idempotency ledger and the transactions are left as they were, no
    payment is added or removed, and every payment keeps its id, amount,
    currency, idempotency key and external id. *)
Theorem X6_delivery_keeps_ledger_and_payment_identity
    (env : Env) (req : Request) (d : DB) :
  let d' := (run (handler env req) d).1.2 in
  idempotency_keys d' = idempotency_keys d /\
  transactions d' = transactions d /\
  map (fun p => (p_id p, p_amount_cents p, p_currency p, p_idempotency_key p,
                 p_external_payment_id p)) (payments d')
  = map (fun p => (p_id p, p_amount_cents p, p_currency p, p_idempotency_key p,
                   p_external_payment_id p)) (payments d) /\
  (run (handler env req) d).2 = [].
Proof.
  cbv zeta. unfold run, handler.
  destruct (req_method req =? "OPTIONS"); [auto|].
  destruct (negb (req_method req =? "POST")); [auto|].
  unfold tryCatch.
  destruct (handlePost_writes_only_verified env req (mkWorld d []))
    as [Heq|(signature & secret & webhookData & _ & _ & _ & _ & _ & Heq)].
  - destruct (handlePost env req (mkWorld d [])) as [[r|m] w']; cbn [snd] in Heq;
      subst w'; auto.
  - pose proof (storeAndProcess_frame env signature webhookData (mkWorld d [])) as Hframe.
    cbv zeta in Hframe. rewrite <- Heq in Hframe.
    destruct (handlePost env req (mkWorld d [])) as [[r|m] w']; exact Hframe.
Qed.

(** X7.  A verified new event whose type is none of the three payment
    events is acknowledged, not treated as an error: the answer is 200, no
    payment and no audit record is written, the event is stored as
    processed, and the delivery row, when it was recorded, ends delivered
    after its one attempt. *)
Theorem X7_unknown_event_type_is_acknowledged (env : Env) (req : Request) (d : DB)
    (signature secret : string) (webhookData : WebhookPayload) :
  req_method req = "POST" ->
  req_signature req = Some signature -> signature <> "" ->
  WEBHOOK_SECRET env = Some secret -> secret <> "" ->
  verifyHMACSignature (req_text req) signature secret = true ->
  parseWebhook (req_text req) = Some webhookData ->
  webhook_events d !! event_id webhookData = None ->
  webhookError env = false ->
  event_type webhookData <> "payment.succeeded" ->
  event_type webhookData <> "payment.failed" ->
  event_type webhookData <> "payment.refunded" ->
  let out := run (handler env req) d in
  out.1.1 = jsonResponse 200 (messageJson "Webhook processed successfully") /\
  payments out.1.2 = payments d /\
  audit_logs out.1.2 = audit_logs d /\
  (exists ev, webhook_events out.1.2 !! event_id webhookData = Some ev /\
              we_payload ev = webhookData /\ we_processed ev = true /\
              we_processed_at ev = Some (now env)) /\
  (deliveryError env = false ->
   exists row, row ∈ webhook_deliveries out.1.2 /\
               wd_id row = new_delivery_id env /\ wd_status row = "delivered" /\
               wd_attempts row = 1%N /\ wd_delivered_at row = Some (now env)).
Proof.
  intros Hm Hs Hs0 Hk Hk0 Hv Hp Hnew Hstore Ht1 Ht2 Ht3 out. subst out.
  rewrite (run_new_event env req d signature secret webhookData) by assumption.
  apply String.eqb_neq in Ht1, Ht2, Ht3.
  unfold storeAndProcess, processWebhookEvent. rewrite Hstore, Ht1, Ht2, Ht3.
  set (ev := mkWebhookEvent (new_event_id env) (event_type webhookData) "payment_gateway"
               webhookData signature false None).
  assert (Hev : forall events : gmap string WebhookEvent,
    (fmap (fun e => if we_id e =? we_id ev then setProcessed (now env) e else e)
       (<[event_id webhookData := ev]> events)) !! event_id webhookData
    = Some (setProcessed (now env) ev)).
  { intros events. rewrite lookup_fmap, lookup_insert_eq. cbn.
    now rewrite String.eqb_refl. }
  destruct (deliveryError env); unfold_task; cbn.
  - repeat split; try reflexivity; try discriminate.
    exists (setProcessed (now env) ev). split; [apply Hev|repeat split].
  - repeat split; try reflexivity.
    + exists (setProcessed (now env) ev). split; [apply Hev|repeat split].
    + intros _.
      exists (setDelivered (now env)
                (mkWebhookDelivery (new_delivery_id env) (event_type webhookData)
                   webhookData signature "processing" 1 None None None (now env))).
      split; [|repeat split].
      set (row := mkWebhookDelivery (new_delivery_id env) (event_type webhookData)
                    webhookData signature "processing" 1 None None None (now env)).
      pose proof (elem_of_updateWhere (hasId (new_delivery_id env))
                    (setDelivered (now env)) (webhook_deliveries d ++ [row])%list row)
        as Hrow.
      unfold hasId in Hrow at 1. cbn [wd_id row] in Hrow. rewrite Z.eqb_refl in Hrow.
      apply Hrow. apply list_elem_of_In, in_or_app. right. now left.
Qed.

(** X8.  A verified new payment event that the store applies: every
    payment whose external id is the event's payment id takes the status
    the event names (and the event's gateway reference, except on a
    refund), every other payment is left as it was, one audit record is
    added, and the answer is 200. *)
Theorem X8_payment_event_sets_status_by_external_id (env : Env) (req : Request) (d : DB)
    (signature secret : string) (webhookData : WebhookPayload) (status pid : string) :
  req_method req = "POST" ->
  req_signature req = Some signature -> signature <> "" ->
  WEBHOOK_SECRET env = Some secret -> secret <> "" ->
  verifyHMACSignature (req_text req) signature secret = true ->
  parseWebhook (req_text req) = Some webhookData ->
  webhook_events d !! event_id webhookData = None ->
  webhookError env = false -> paymentUpdateError env = false ->
  In (event_type webhookData, status)
     [("payment.succeeded", "succeeded"); ("payment.failed", "failed");
      ("payment.refunded", "refunded")] ->
  data_payment_id (data webhookData) = Some pid ->
  let out := run (handler env req) d in
  let gateway_ref :=
    if status =? "refunded" then None else data_gateway_id (data webhookData) in
  out.1.1 = jsonResponse 200 (messageJson "Webhook processed successfully") /\
  (forall p, p ∈ payments d -> p_external_payment_id p = Some pid ->
     setPaymentStatus status gateway_ref p ∈ payments out.1.2) /\
  (forall p, p ∈ payments d -> p_external_payment_id p <> Some pid ->
     p ∈ payments out.1.2) /\
  length (payments out.1.2) = length (payments d) /\
  audit_logs out.1.2
  = (audit_logs d ++ [mkAuditLog None ("payment_" +:+ status) "payment" (Some pid)])%list.
Proof.
  intros Hm Hs Hs0 Hk Hk0 Hv Hp Hnew Hstore Hupdate Htype Hpid out gateway_ref.
  subst out gateway_ref.
  rewrite (run_new_event env req d signature secret webhookData) by assumption.
  assert (Hfilter : forall p, paymentFilter (data webhookData) p
                              = bool_decide (p_external_payment_id p = Some pid)).
  { intros p. unfold paymentFilter. now rewrite Hpid. }
  unfold storeAndProcess, processWebhookEvent, handlePaymentSucceeded,
    handlePaymentFailed, handlePaymentRefunded, applyPaymentEvent.
  rewrite Hstore, Hupdate, Hpid.
  simpl in Htype.
  destruct Htype as [[= <- <-]|[[= <- <-]|[[= <- <-]|[]]]];
    cbn [String.eqb Ascii.eqb Bool.eqb];
    destruct (deliveryError env); unfold_task; cbn;
    (split; [reflexivity|]); (split; [|split; [|split; [|reflexivity]]]);
    try (intros p Hin Hext;
         apply list_elem_of_In, in_map_iff; exists p;
         split; [|now apply list_elem_of_In];
         rewrite Hfilter;
         first [ now rewrite bool_decide_eq_true_2 by assumption
               | now rewrite bool_decide_eq_false_2 by assumption ]);
    try (now rewrite length_map).
Qed.

(** X9.  A verified payload that is not JSON is answered 500 with nothing
    stored; so is a verified new event whose event row the store refuses:
    no delivery row is created and nothing is processed. *)
Theorem X9_unparsed_or_unstored_event_leaves_no_trace (env : Env) (req : Request) (d : DB)
    (signature secret : string) :
  req_method req = "POST" ->
  req_signature req = Some signature -> signature <> "" ->
  WEBHOOK_SECRET env = Some secret -> secret <> "" ->
  verifyHMACSignature (req_text req) signature secret = true ->
  (parseWebhook (req_text req) = None ->
   run (handler env req) d = (jsonResponse 500 (errorJson "Internal server error"), d, []))
  /\ (forall webhookData,
        parseWebhook (req_text req) = Some webhookData ->
        webhook_events d !! event_id webhookData = None ->
        webhookError env = true ->
        run (handler env req) d
        = (jsonResponse 500 (errorJson "Failed to store event"), d, [])).
Proof.
  intros Hm Hs Hs0 Hk Hk0 Hv. split.
  - intros Hp. unfold run, handler. rewrite Hm.
    cbn [String.eqb Ascii.eqb Bool.eqb negb]. unfold tryCatch, handlePost.
    rewrite Hs, Hk. unfold nonEmpty. rewrite !bool_decide_eq_false_2 by assumption.
    cbn [negb andb]. now rewrite Hv, Hp.
  - intros webhookData Hp Hnew Herr.
    rewrite (run_new_event env req d signature secret webhookData) by assumption.
    unfold storeAndProcess. now rewrite Herr.
Qed.

(** A payment event whose update the store refuses: processing throws
    before anything is written. *)
Lemma refused_update_throws (env : Env) (webhookData : WebhookPayload) (w : World) :
  paymentUpdateError env = true ->
  event_type webhookData = "payment.succeeded" \/
  event_type webhookData = "payment.failed" \/
  event_type webhookData = "payment.refunded" ->
  processWebhookEvent env webhookData w = (Thrown "Failed to update payment status", w).
Proof.
  intros Hup Htype.
  unfold processWebhookEvent, handlePaymentSucceeded, handlePaymentFailed,
    handlePaymentRefunded, applyPaymentEvent. rewrite Hup.
  destruct Htype as [-> | [-> | ->]]; reflexivity.
Qed.

(** X10.  A verified new payment event whose payment update the store
    refuses: the sender is answered 500, no payment and no audit record is
    written, the event stays stored as not processed, and the delivery row
    (recorded with one attempt) ends failed with the error text, two
    attempts and its next attempt 120 seconds on. *)
Theorem X10_first_failure_is_recorded_for_retry (env : Env) (req : Request) (d : DB)
    (signature secret : string) (webhookData : WebhookPayload) :
  req_method req = "POST" ->
  req_signature req = Some signature -> signature <> "" ->
  WEBHOOK_SECRET env = Some secret -> secret <> "" ->
  verifyHMACSignature (req_text req) signature secret = true ->
  parseWebhook (req_text req) = Some webhookData ->
  webhook_events d !! event_id webhookData = None ->
  webhookError env = false -> deliveryError env = false ->
  paymentUpdateError env = true ->
  event_type webhookData = "payment.succeeded" \/
  event_type webhookData = "payment.failed" \/
  event_type webhookData = "payment.refunded" ->
  let out := run (handler env req) d in
  out.1.1 = jsonResponse 500 (errorJson "Processing failed, will retry") /\
  payments out.1.2 = payments d /\
  audit_logs out.1.2 = audit_logs d /\
  (exists ev, webhook_events out.1.2 !! event_id webhookData = Some ev /\
              we_processed ev = false) /\
  (exists row,
     row ∈ webhook_deliveries out.1.2 /\
     wd_id row = new_delivery_id env /\
     wd_status row = "failed" /\
     wd_attempts row = 2%N /\
     wd_error row = Some "Failed to update payment status" /\
     wd_next_attempt_at row = Some (now env + 120 * 1000)).
Proof.
  intros Hm Hs Hs0 Hk Hk0 Hv Hp Hnew Hstore Hdl Hup Htype out. subst out.
  rewrite (run_new_event env req d signature secret webhookData) by assumption.
  destruct (dispatch_failure_schedules_retry env signature webhookData (mkWorld d [])
              Hstore Hdl Hup Htype) as [Hresp Hrow].
  rewrite Hresp. cbn [fst snd]. split; [reflexivity|].
  split; [|split; [|split; [|exact Hrow]]].
  - unfold storeAndProcess. rewrite Hstore, Hdl. unfold_task. cbn [store ledger_trace].
    now rewrite refused_update_throws.
  - unfold storeAndProcess. rewrite Hstore, Hdl. unfold_task. cbn [store ledger_trace].
    now rewrite refused_update_throws.
  - unfold storeAndProcess. rewrite Hstore, Hdl. unfold_task. cbn [store ledger_trace].
    rewrite refused_update_throws by assumption. cbn.
    rewrite lookup_insert_eq. eauto.
Qed.

(** X11.  An event whose processing failed is not processed when the
    sender delivers it again: after the 500 of the first delivery, a
    verified redelivery is answered 200 as already processed and changes
    nothing, so the payments are still as they were before the event,
    even when the store would now take the update. *)
Theorem X11_failed_event_is_not_reprocessed (env env2 : Env) (req : Request) (d : DB)
    (signature secret : string) (webhookData : WebhookPayload) :
  req_method req = "POST" ->
  req_signature req = Some signature -> signature <> "" ->
  WEBHOOK_SECRET env = Some secret -> secret <> "" ->
  WEBHOOK_SECRET env2 = Some secret ->
  verifyHMACSignature (req_text req) signature secret = true ->
  parseWebhook (req_text req) = Some webhookData ->
  webhook_events d !! event_id webhookData = None ->
  webhookError env = false ->
  paymentUpdateError env = true ->
  event_type webhookData = "payment.succeeded" \/
  event_type webhookData = "payment.failed" \/
  event_type webhookData = "payment.refunded" ->
  let d1 := (run (handler env req) d).1.2 in
  resp_status (run (handler env req) d).1.1 = 500 /\
  run (handler env2 req) d1
  = (jsonResponse 200 (messageJson "Event already processed"), d1, []) /\
  payments d1 = payments d.
Proof.
  intros Hm Hs Hs0 Hk Hk0 Hk2 Hv Hp Hnew Hstore Hup Htype d1. subst d1.
  rewrite (run_new_event env req d signature secret webhookData) by assumption.
  cbn [fst snd].
  split; [|split].
  - unfold storeAndProcess. rewrite Hstore. unfold_task.
    destruct (deliveryError env); cbn [store ledger_trace];
      rewrite refused_update_throws by assumption; reflexivity.
  - apply (run_known_event env2 req _ signature secret webhookData); try assumption.
    now apply storeAndProcess_stores.
  - unfold storeAndProcess. rewrite Hstore. unfold_task.
    destruct (deliveryError env); cbn [store ledger_trace];
      rewrite refused_update_throws by assumption; reflexivity.
Qed.

End WithRuntime.

(** A signed delivery for the sample runtime: the secret is k, the payload
    text is the event id, and the signature is the bare digest. *)
Lemma X5_witness :
  let env := mkEnv 10 (Some "k") "uuid-1" 1 false false false in
  let req := mkRequest "POST" (Some "sha256=00") "{e1}" in
  run (@handler sampleRuntime env req) emptyDB
  = (jsonResponse 401 (errorJson "Invalid signature"), emptyDB, []).
Proof.
  intros env req.
  refine (proj1 (proj2 (@X5_no_write_without_a_verified_signature sampleRuntime env req
                          emptyDB)) "sha256=00" "k" _ _ _ _ _ _).
  - reflexivity.
  - reflexivity.
  - discriminate.
  - reflexivity.
  - discriminate.
  - reflexivity.
Defined.

(** A runtime whose parser reads every payload as a customer event. *)
Lemma X7_witness :
  let payload := mkWebhookPayload "customer.created" (mkEventData None None)
                   "2025-01-01T00:00:00Z" "evt_9" in
  let runtime := {| sha256 := sampleDigest;
                    sha256_length := fun _ => eq_refl;
                    hmacSha256 := fun secret text => Some (sampleDigest (secret +:+ text));
                    stringifyRequest := sampleStringify;
                    parseWebhook := fun _ => Some payload |} in
  let signature := Hex.toHex (sampleDigest "k{}") in
  let env := mkEnv 10 (Some "k") "uuid-1" 1 false false false in
  let req := mkRequest "POST" (Some signature) "{}" in
  payments (run (@handler runtime env req) emptyDB).1.2 = payments emptyDB.
Proof.
  intros payload runtime signature env req.
  refine (proj1 (proj2 (@X7_unknown_event_type_is_acknowledged runtime env req emptyDB
                          signature "k" payload _ _ _ _ _ _ _ _ _ _ _ _)));
    try reflexivity; discriminate.
Defined.

(** The sample parser reads a succeeded event for payment pay_1. *)
Lemma X8_witness :
  let payment := mkPaymentRow "pay-uuid-1" 10000 "USD" None None None (Some "pay_1")
                   "K1" "pending" None 5 in
  let d := withPayments (fun _ => [payment]) emptyDB in
  let signature := Hex.toHex (sampleDigest "k{e1}") in
  let env := mkEnv 10 (Some "k") "uuid-1" 1 false false false in
  let req := mkRequest "POST" (Some signature) "{e1}" in
  setPaymentStatus "succeeded" (Some "gw_1") payment
    ∈ payments (run (@handler sampleRuntime env req) d).1.2.
Proof.
  intros payment d signature env req.
  refine (proj1 (proj2 (@X8_payment_event_sets_status_by_external_id sampleRuntime env req d
                          signature "k"
                          (mkWebhookPayload "payment.succeeded"
                             (mkEventData (Some "pay_1") (Some "gw_1"))
                             "2025-01-01T00:00:00Z" "{e1}")
                          "succeeded" "pay_1" _ _ _ _ _ _ _ _ _ _ _ _)) payment _ _);
    try reflexivity; try discriminate.
  - simpl. auto.
  - apply list_elem_of_here.
Defined.

(** A signed payload the sample parser rejects. *)
Lemma X9_witness :
  let signature := Hex.toHex (sampleDigest "knot json") in
  let env := mkEnv 10 (Some "k") "uuid-1" 1 false false false in
  let req := mkRequest "POST" (Some signature) "not json" in
  run (@handler sampleRuntime env req) emptyDB
  = (jsonResponse 500 (errorJson "Internal server error"), emptyDB, []).
Proof.
  intros signature env req.
  refine (proj1 (@X9_unparsed_or_unstored_event_leaves_no_trace sampleRuntime env req emptyDB
                   signature "k" _ _ _ _ _ _) _);
    try reflexivity; discriminate.
Defined.

(** The first delivery of a succeeded event while the store refuses the
    payment update. *)
Lemma X10_witness :
  let signature := Hex.toHex (sampleDigest "k{e1}") in
  let env := mkEnv 10 (Some "k") "uuid-1" 1 false false true in
  let req := mkRequest "POST" (Some signature) "{e1}" in
  (run (@handler sampleRuntime env req) emptyDB).1.1
  = jsonResponse 500 (errorJson "Processing failed, will retry").
Proof.
  intros signature env req.
  refine (proj1 (@X10_first_failure_is_recorded_for_retry sampleRuntime env req emptyDB
                   signature "k"
                   (mkWebhookPayload "payment.succeeded"
                      (mkEventData (Some "pay_1") (Some "gw_1"))
                      "2025-01-01T00:00:00Z" "{e1}")
                   _ _ _ _ _ _ _ _ _ _ _ _));
    try reflexivity; try discriminate.
  left. reflexivity.
Defined.

(** The same event delivered again once the store takes updates. *)
Lemma X11_witness :
  let payment := mkPaymentRow "pay-uuid-1" 10000 "USD" None None None (Some "pay_1")
                   "K1" "pending" None 5 in
  let d := withPayments (fun _ => [payment]) emptyDB in
  let signature := Hex.toHex (sampleDigest "k{e1}") in
  let env := mkEnv 10 (Some "k") "uuid-1" 1 false false true in
  let env2 := mkEnv 20 (Some "k") "uuid-2" 2 false false false in
  let req := mkRequest "POST" (Some signature) "{e1}" in
  payments (run (@handler sampleRuntime env req) d).1.2 = payments d.
Proof.
  intros payment d signature env env2 req.
  refine (proj2 (proj2 (@X11_failed_event_is_not_reprocessed sampleRuntime env env2 req d
                          signature "k"
                          (mkWebhookPayload "payment.succeeded"
                             (mkEventData (Some "pay_1") (Some "gw_1"))
                             "2025-01-01T00:00:00Z" "{e1}")
                          _ _ _ _ _ _ _ _ _ _ _ _)));
    try reflexivity; try discriminate.
  left. reflexivity.
Defined.

End WebhooksMore.

(* ===================================================================== *)
(** * Further properties of the retry sweep *)
(* ===================================================================== *)

Module RetryMore.
Import RetryWebhooks RetryOutcome WebhooksMore.

Local Arguments updateWhere {A} p f rows : simpl never.

Lemma filter_updateWhere_same {A : Type} (p : A -> bool) (f : A -> A) (rows : list A) :
  (forall row, p (f row) = p row) ->
  List.filter p (updateWhere p f rows) = map f (List.filter p rows).
Proof.
  intros Hf. unfold updateWhere. induction rows as [|row rows IH]; [reflexivity|].
  cbn [map List.filter]. destruct (p row) eqn:Hp.
  - rewrite Hf, Hp. cbn [map]. now rewrite IH.
  - rewrite Hp. exact IH.
Qed.

Lemma filter_unique_id (id : Z) (rows : list WebhookDelivery) :
  NoDup (map wd_id rows) -> id ∈ map wd_id rows ->
  exists row, List.filter (Webhooks.hasId id) rows = [row] /\ wd_id row = id.
Proof.
  induction rows as [|r rows IH]; intros Hnd Hin.
  - now apply elem_of_nil in Hin.
  - cbn [map] in Hnd, Hin. apply NoDup_cons in Hnd as [Hnotin Hnd].
    cbn [List.filter]. unfold Webhooks.hasId at 1.
    destruct (wd_id r =? id)%Z eqn:Hid.
    + apply Z.eqb_eq in Hid. exists r. split; [|exact Hid].
      f_equal. clear IH Hin. subst id.
      induction rows as [|r' rows IH]; [reflexivity|].
      cbn [map] in Hnotin, Hnd. apply not_elem_of_cons in Hnotin as [Hne Hnotin].
      apply NoDup_cons in Hnd as [_ Hnd].
      cbn [List.filter]. unfold Webhooks.hasId at 1.
      destruct (wd_id r' =? wd_id r)%Z eqn:E; [apply Z.eqb_eq in E; congruence|].
      now apply IH.
    + apply Z.eqb_neq in Hid. apply elem_of_cons in Hin as [Heq|Hin]; [congruence|].
      now apply IH.
Qed.

(** One turn of the loop: what it counts and what it may write. *)
Lemma retryOne_step (env : Env) (delivery : WebhookDelivery) (results : Results)
    (w : World) :
  exists results',
    (retryOne env delivery results w).1 = Returned results' /\
    processed results' = S (processed results) /\
    succeeded results'
    = (if attemptSucceeds env delivery then S (succeeded results) else succeeded results) /\
    failed results'
    = (if attemptSucceeds env delivery then failed results else S (failed results)) /\
    (abandoned results <= abandoned results')%nat /\
    (abandoned results' + failed results <= abandoned results + failed results')%nat /\
    let d := store w in
    let d' := store (retryOne env delivery results w).2 in
    idempotency_keys d' = idempotency_keys d /\ payments d' = payments d /\
    transactions d' = transactions d /\ audit_logs d' = audit_logs d /\
    webhook_events d' = webhook_events d /\
    ledger_trace (retryOne env delivery results w).2 = ledger_trace w /\
    map wd_id (webhook_deliveries d') = map wd_id (webhook_deliveries d) /\
    (forall row, row ∈ webhook_deliveries d -> wd_id row <> wd_id delivery ->
       row ∈ webhook_deliveries d').
Proof.
  assert (Hother : forall row f rows, row ∈ rows -> wd_id row <> wd_id delivery ->
            row ∈ updateWhere (Webhooks.hasId (wd_id delivery)) f rows).
  { intros row f rows Hin Hne. apply updateWhere_other; [assumption|].
    unfold Webhooks.hasId. now apply Z.eqb_neq. }
  unfold retryOne, retryFailedWebhook, scheduleNextRetry, updateDelivery, attemptSucceeds.
  destruct (WEBHOOK_URL env) as [url|];
    [destruct (nonEmpty url);
       [destruct (fetchResult env delivery) as [status errorText|message];
           [destruct (ok status)|]|]|];
    unfold_task;
    try destruct (maxRetries <=? wd_attempts delivery + 1)%N;
    simpl;
    try match goal with |- context [if ?b then S _ else _] => destruct b end;
    eexists; (split; [reflexivity|]); simpl;
    repeat (split; [try reflexivity; try lia|]);
    try (rewrite ?updateWhere_keeps by reflexivity; reflexivity);
    try (intros row Hin Hne; repeat apply Hother; assumption).
Qed.

Lemma filter_own_id (row : WebhookDelivery) (rows : list WebhookDelivery) :
  NoDup (map wd_id rows) -> row ∈ rows ->
  List.filter (Webhooks.hasId (wd_id row)) rows = [row].
Proof.
  intros Hnd Hin.
  destruct (filter_unique_id (wd_id row) rows Hnd) as (row' & Hrow' & _).
  { apply list_elem_of_fmap. now exists row. }
  assert (Hmem : In row (List.filter (Webhooks.hasId (wd_id row)) rows)).
  { apply filter_In. split; [now apply list_elem_of_In|].
    unfold Webhooks.hasId. apply Z.eqb_refl. }
  rewrite Hrow' in Hmem. destruct Hmem as [->|[]]. exact Hrow'.
Qed.

(** With unique ids the re-read finds the row, and it reads [abandoned]
    exactly when the attempts are exhausted. *)
Lemma retryOne_abandoned (env : Env) (delivery : WebhookDelivery) (results : Results)
    (w : World) (results' : Results) :
  NoDup (map wd_id (webhook_deliveries (store w))) ->
  delivery ∈ webhook_deliveries (store w) ->
  wd_status delivery = "failed" ->
  (retryOne env delivery results w).1 = Returned results' ->
  abandoned results'
  = (if negb (attemptSucceeds env delivery) && attemptsExhausted delivery
     then S (abandoned results) else abandoned results).
Proof.
  intros Hnd Hin Hstatus.
  pose proof (filter_own_id delivery _ Hnd Hin) as Hrow.
  assert (Hsel : forall f g,
     (forall row, wd_id (f row) = wd_id row) -> (forall row, wd_id (g row) = wd_id row) ->
     selectSingle (wd_id delivery)
       (updateWhere (Webhooks.hasId (wd_id delivery)) g
          (updateWhere (Webhooks.hasId (wd_id delivery)) f
             (webhook_deliveries (store w)))) = Some (g (f delivery))).
  { intros f g Hf Hg. unfold selectSingle.
    rewrite !filter_updateWhere_same, Hrow; [reflexivity| |];
      intros r; unfold Webhooks.hasId; now rewrite ?Hf, ?Hg. }
  assert (Hsel1 : forall g, (forall row, wd_id (g row) = wd_id row) ->
     selectSingle (wd_id delivery)
       (updateWhere (Webhooks.hasId (wd_id delivery)) g
          (webhook_deliveries (store w))) = Some (g delivery)).
  { intros g Hg. unfold selectSingle.
    rewrite !filter_updateWhere_same, Hrow; [reflexivity|];
      intros r; unfold Webhooks.hasId; now rewrite ?Hg. }
  unfold retryOne, retryFailedWebhook, scheduleNextRetry, updateDelivery, attemptSucceeds,
    attemptsExhausted.
  destruct (WEBHOOK_URL env) as [url|];
    [destruct (nonEmpty url);
       [destruct (fetchResult env delivery) as [status errorText|message];
           [destruct (ok status)|]|]|];
    unfold_task;
    destruct (maxRetries <=? wd_attempts delivery + 1)%N;
    simpl; intros [= <-]; simpl; try reflexivity;
    match goal with
    | |- context [selectSingle _ (updateWhere _ ?g (updateWhere _ ?f _))] =>
        rewrite (Hsel f g) by reflexivity
    | |- context [selectSingle _ (updateWhere _ ?g _)] =>
        rewrite (Hsel1 g) by reflexivity
    end; cbn; rewrite ?Hstatus; reflexivity.
Qed.

Lemma retryAll_cons (env : Env) (delivery : WebhookDelivery) (rest : list WebhookDelivery)
    (results results' : Results) (w : World) :
  (retryOne env delivery results w).1 = Returned results' ->
  retryAll env (delivery :: rest) results w
  = retryAll env rest results' (retryOne env delivery results w).2.
Proof.
  intros Hone. cbn [retryAll]. unfold mbind, task_bind, bind.
  destruct (retryOne env delivery results w) as [[r|message] w1]; cbn in Hone |- *;
    congruence.
Qed.

(** The whole loop: it returns, counts each delivery once, and writes only
    delivery rows whose id is among the deliveries. *)
Lemma retryAll_spec (env : Env) (deliveries : list WebhookDelivery) :
  forall (results : Results) (w : World),
  exists results',
    (retryAll env deliveries results w).1 = Returned results' /\
    processed results' = (processed results + length deliveries)%nat /\
    succeeded results'
    = (succeeded results + length (List.filter (attemptSucceeds env) deliveries))%nat /\
    (succeeded results' + failed results'
     = succeeded results + failed results + length deliveries)%nat /\
    (abandoned results <= abandoned results')%nat /\
    (abandoned results' + failed results <= abandoned results + failed results')%nat /\
    let d := store w in
    let d' := store (retryAll env deliveries results w).2 in
    idempotency_keys d' = idempotency_keys d /\ payments d' = payments d /\
    transactions d' = transactions d /\ audit_logs d' = audit_logs d /\
    webhook_events d' = webhook_events d /\
    ledger_trace (retryAll env deliveries results w).2 = ledger_trace w /\
    map wd_id (webhook_deliveries d') = map wd_id (webhook_deliveries d) /\
    (forall row, row ∈ webhook_deliveries d -> wd_id row ∉ map wd_id deliveries ->
       row ∈ webhook_deliveries d').
Proof.
  induction deliveries as [|delivery rest IH]; intros results w.
  - exists results. cbn. repeat split; try lia. auto.
  - destruct (retryOne_step env delivery results w)
      as (r1 & Hone & Hp & Hs & Hf & Ha & Haf & Hk & Hpay & Ht & Hlog & Hev & Htr & Hids & Hrows).
    rewrite (retryAll_cons _ _ _ _ _ _ Hone).
    destruct (IH r1 (retryOne env delivery results w).2)
      as (r2 & Hall & Hp2 & Hs2 & Hsf2 & Ha2 & Haf2 & Hk2 & Hpay2 & Ht2 & Hlog2 & Hev2
          & Htr2 & Hids2 & Hrows2).
    exists r2. cbn [length List.filter map].
    split; [exact Hall|].
    split; [lia|].
    split; [destruct (attemptSucceeds env delivery); cbn [length]; lia|].
    split; [destruct (attemptSucceeds env delivery); lia|].
    split; [lia|].
    split; [lia|].
    cbn zeta.
    split; [congruence|]. split; [congruence|]. split; [congruence|].
    split; [congruence|]. split; [congruence|]. split; [congruence|].
    split; [congruence|].
    intros row Hin Hnot. apply not_elem_of_cons in Hnot as [Hne Hnot].
    apply Hrows2; [|exact Hnot]. now apply Hrows.
Qed.

(** With unique ids, each delivery of the loop is found again by the
    re-read; [abandoned] counts the deliveries that were not delivered and
    had their attempts exhausted. *)
Lemma retryAll_abandoned (env : Env) (deliveries : list WebhookDelivery) :
  forall (results results' : Results) (w : World),
  NoDup (map wd_id (webhook_deliveries (store w))) ->
  NoDup (map wd_id deliveries) ->
  (forall delivery, delivery ∈ deliveries ->
     delivery ∈ webhook_deliveries (store w) /\ wd_status delivery = "failed") ->
  (retryAll env deliveries results w).1 = Returned results' ->
  abandoned results'
  = (abandoned results
     + length (List.filter
                 (fun delivery => negb (attemptSucceeds env delivery)
                                  && attemptsExhausted delivery) deliveries))%nat.
Proof.
  induction deliveries as [|delivery rest IH]; intros results results' w Hnd Hsel Hrows.
  - cbn. intros [= <-]. lia.
  - destruct (retryOne_step env delivery results w)
      as (r1 & Hone & _ & _ & _ & _ & _ & _ & _ & _ & _ & _ & _ & Hids & Hkeep).
    rewrite (retryAll_cons _ _ _ _ _ _ Hone). intros Hall.
    cbn [map] in Hsel. apply NoDup_cons in Hsel as [Hfresh Hsel].
    destruct (Hrows delivery) as [Hin Hstatus]; [apply list_elem_of_here|].
    pose proof (retryOne_abandoned env delivery results w r1 Hnd Hin Hstatus Hone) as Hab.
    rewrite (IH r1 results' (retryOne env delivery results w).2); [| |exact Hsel| |exact Hall].
    + cbn [List.filter].
      destruct (negb (attemptSucceeds env delivery) && attemptsExhausted delivery);
        cbn [length]; lia.
    + cbn zeta in Hids. now rewrite Hids.
    + intros other Hother. destruct (Hrows other) as [Hin' Hst'];
        [now apply list_elem_of_further|].
      split; [|exact Hst']. apply Hkeep; [exact Hin'|].
      intros Heq. apply Hfresh. rewrite <- Heq.
      apply list_elem_of_fmap. now exists other.
Qed.

(** With unique ids among the deliveries, what one turn writes to its own
    row is still there when the loop ends. *)
Lemma retryAll_applies (env : Env) (deliveries : list WebhookDelivery) :
  forall (results : Results) (w : World) (delivery row' : WebhookDelivery),
  NoDup (map wd_id deliveries) ->
  delivery ∈ deliveries ->
  wd_id row' = wd_id delivery ->
  (forall results w, delivery ∈ webhook_deliveries (store w) ->
     row' ∈ webhook_deliveries (store (retryOne env delivery results w).2)) ->
  delivery ∈ webhook_deliveries (store w) ->
  row' ∈ webhook_deliveries (store (retryAll env deliveries results w).2).
Proof.
  induction deliveries as [|head rest IH];
    intros results w delivery row' Hnd Hmem Hid Hone Hin.
  - now apply elem_of_nil in Hmem.
  - destruct (retryOne_step env head results w)
      as (r1 & Hhead & _ & _ & _ & _ & _ & _ & _ & _ & _ & _ & _ & _ & Hkeep).
    rewrite (retryAll_cons _ _ _ _ _ _ Hhead).
    cbn [map] in Hnd. apply NoDup_cons in Hnd as [Hfresh Hnd].
    apply elem_of_cons in Hmem as [->|Hmem].
    + destruct (retryAll_spec env rest r1 (retryOne env head results w).2)
        as (r2 & _ & _ & _ & _ & _ & _ & _ & _ & _ & _ & _ & _ & _ & Hrest).
      apply Hrest; [now apply Hone|]. now rewrite Hid.
    + assert (Hne : wd_id delivery <> wd_id head).
      { intros Heq. apply Hfresh. rewrite <- Heq. apply list_elem_of_fmap. now exists delivery. }
      apply (IH r1 _ delivery row'); auto.
Qed.

(** ** The selection *)

Lemma selection_sound (now : Z) (rows : list WebhookDelivery) (delivery : WebhookDelivery) :
  delivery ∈ selectFailedDeliveries now rows ->
  delivery ∈ rows /\ isDue now delivery = true.
Proof.
  unfold selectFailedDeliveries. intros Hin.
  apply subseteq_take in Hin. rewrite merge_sort_Permutation in Hin.
  apply list_elem_of_In, filter_In in Hin as [Hin Hdue].
  split; [now apply list_elem_of_In|exact Hdue].
Qed.

Lemma selection_length (now : Z) (rows : list WebhookDelivery) :
  (length (selectFailedDeliveries now rows) <= 50)%nat.
Proof. unfold selectFailedDeliveries. rewrite length_take. lia. Qed.

Lemma filter_NoDup_ids (p : WebhookDelivery -> bool) (rows : list WebhookDelivery) :
  NoDup (map wd_id rows) -> NoDup (map wd_id (List.filter p rows)).
Proof.
  induction rows as [|row rows IH]; intros Hnd; [exact Hnd|].
  cbn [map] in Hnd. apply NoDup_cons in Hnd as [Hfresh Hnd].
  cbn [List.filter]. destruct (p row); [|now apply IH].
  cbn [map]. apply NoDup_cons. split; [|now apply IH].
  intros Hin. apply Hfresh.
  apply list_elem_of_fmap in Hin as (other & Heq & Hin).
  apply list_elem_of_In, filter_In in Hin as [Hin _].
  apply list_elem_of_fmap. exists other. split; [exact Heq|now apply list_elem_of_In].
Qed.

Lemma selection_NoDup (now : Z) (rows : list WebhookDelivery) :
  NoDup (map wd_id rows) -> NoDup (map wd_id (selectFailedDeliveries now rows)).
Proof.
  intros Hnd. unfold selectFailedDeliveries.
  apply (sublist_NoDup _ (map wd_id (merge_sort createdBefore (List.filter (isDue now) rows)))).
  - rewrite merge_sort_Permutation. now apply filter_NoDup_ids.
  - apply (fmap_sublist wd_id), sublist_take.
Qed.

Lemma selection_idle (now : Z) (rows : list WebhookDelivery) :
  (forall row, row ∈ rows -> isDue now row = false) ->
  selectFailedDeliveries now rows = [].
Proof.
  intros Hidle. destruct (selectFailedDeliveries now rows) as [|delivery rest] eqn:Hsel;
    [reflexivity|].
  destruct (selection_sound now rows delivery) as [Hin Hdue].
  { rewrite Hsel. apply list_elem_of_here. }
  rewrite (Hidle _ Hin) in Hdue. discriminate.
Qed.

(** ** The handler around the loop *)

Lemma run_sweep (env : Env) (method : string) (d : DB) (results : Results) :
  method <> "OPTIONS" -> selectError env = false ->
  selectFailedDeliveries (now env) (webhook_deliveries d) <> [] ->
  (retryAll env (selectFailedDeliveries (now env) (webhook_deliveries d))
     (mkResults 0 0 0 0) (mkWorld d [])).1 = Returned results ->
  run (handler env method) d
  = (jsonResponse 200 (JObj [("message", JStr "Retry process completed");
                             ("results", resultsJson results)]),
     withAuditLogs
       (fun logs => logs ++ [mkAuditLog None "webhook_retry_run" "webhook_delivery"
                               (Some "bulk")])%list
       (store (retryAll env (selectFailedDeliveries (now env) (webhook_deliveries d))
                 (mkResults 0 0 0 0) (mkWorld d [])).2),
     ledger_trace (retryAll env (selectFailedDeliveries (now env) (webhook_deliveries d))
                     (mkResults 0 0 0 0) (mkWorld d [])).2).
Proof.
  intros Hmethod Herr Hsel Hall. unfold run, handler, sweep.
  apply String.eqb_neq in Hmethod. rewrite Hmethod, Herr.
  unfold_task. cbn [store].
  destruct (selectFailedDeliveries (now env) (webhook_deliveries d)) as [|delivery rest];
    [contradiction|].
  destruct (retryAll env (delivery :: rest) (mkResults 0 0 0 0) (mkWorld d []))
    as [[r|message] w1]; cbn in Hall |- *; [|discriminate].
  now injection Hall as ->.
Qed.

Lemma run_idle (env : Env) (method : string) (d : DB) :
  method <> "OPTIONS" ->
  selectError env = true
  \/ selectFailedDeliveries (now env) (webhook_deliveries d) = [] ->
  run (handler env method) d
  = (if selectError env
     then jsonResponse 500 (errorJson "Failed to fetch deliveries")
     else jsonResponse 200 (messageJson "No deliveries to retry"),
     d, []).
Proof.
  intros Hmethod Hidle. unfold run, handler, sweep.
  apply String.eqb_neq in Hmethod. rewrite Hmethod.
  unfold_task. cbn [store].
  destruct (selectError env); [reflexivity|].
  destruct Hidle as [Herr| ->]; [discriminate|reflexivity].
Qed.

Lemma run_handler_cases (env : Env) (method : string) (d : DB) :
  (exists response, run (handler env method) d = (response, d, []))
  \/ (exists results,
        method <> "OPTIONS" /\ selectError env = false /\
        selectFailedDeliveries (now env) (webhook_deliveries d) <> [] /\
        (retryAll env (selectFailedDeliveries (now env) (webhook_deliveries d))
           (mkResults 0 0 0 0) (mkWorld d [])).1 = Returned results).
Proof.
  destruct (decide (method = "OPTIONS")) as [->|Hmethod].
  { left. eexists. reflexivity. }
  destruct (selectError env) eqn:Herr.
  { left. eexists. rewrite run_idle by auto. reflexivity. }
  destruct (selectFailedDeliveries (now env) (webhook_deliveries d)) as [|delivery rest] eqn:Hsel.
  { left. eexists. rewrite run_idle by auto. reflexivity. }
  right.
  destruct (retryAll_spec env (delivery :: rest) (mkResults 0 0 0 0) (mkWorld d []))
    as (results & Hall & _).
  exists results. repeat split; auto.
Qed.

Lemma updateWhere_own {A : Type} (p : A -> bool) (f : A -> A) (rows : list A) (row : A) :
  row ∈ rows -> p row = true -> f row ∈ updateWhere p f rows.
Proof.
  intros Hin Hp. pose proof (WebhooksProofs.elem_of_updateWhere p f rows row Hin) as H.
  now rewrite Hp in H.
Qed.

Lemma hasId_own (row : WebhookDelivery) : Webhooks.hasId (wd_id row) row = true.
Proof. unfold Webhooks.hasId. apply Z.eqb_refl. Qed.

(** One turn on a delivery whose attempt succeeds. *)
Lemma retryOne_delivers (env : Env) (delivery : WebhookDelivery) :
  attemptSucceeds env delivery = true ->
  forall (results : Results) (w : World),
    delivery ∈ webhook_deliveries (store w) ->
    setDeliveredClear (now env) delivery
    ∈ webhook_deliveries (store (retryOne env delivery results w).2).
Proof.
  unfold attemptSucceeds, retryOne, retryFailedWebhook, updateDelivery.
  intros Hok results w Hin.
  destruct (WEBHOOK_URL env) as [url|]; [|discriminate].
  destruct (nonEmpty url); [|discriminate].
  destruct (fetchResult env delivery) as [status errorText|message]; [|discriminate].
  cbn [andb negb] in Hok |- *. rewrite Hok. unfold_task. cbn.
  apply updateWhere_own; [exact Hin|apply hasId_own].
Qed.

(** One turn on a delivery whose attempt does not succeed: [base] is the
    row as [retryFailedWebhook] leaves it. *)
Lemma retryOne_undelivered (env : Env) (delivery : WebhookDelivery) :
  attemptSucceeds env delivery = false ->
  exists base,
    (if destinationConfigured env
     then exists text, base = setFailed text (wd_attempts delivery + 1) delivery
     else base = delivery) /\
    forall (results : Results) (w : World),
      delivery ∈ webhook_deliveries (store w) ->
      (if attemptsExhausted delivery
       then Webhooks.setStatusError "abandoned"
              (Some ("Maximum retry attempts (" +:+ numToString (Z.of_N maxRetries)
                     +:+ ") exceeded")) base
       else Webhooks.setRetry (Webhooks.nextAttemptAt (now env) (wd_attempts delivery + 1))
              (wd_attempts delivery + 1) base)
      ∈ webhook_deliveries (store (retryOne env delivery results w).2).
Proof.
  unfold attemptSucceeds, attemptsExhausted, destinationConfigured, retryOne,
    retryFailedWebhook, scheduleNextRetry, updateDelivery.
  intros Hok.
  assert (Hown : forall f rows, delivery ∈ rows ->
            f delivery ∈ updateWhere (Webhooks.hasId (wd_id delivery)) f rows).
  { intros f rows Hin. apply updateWhere_own; [exact Hin|apply hasId_own]. }
  assert (Hown2 : forall f g rows, delivery ∈ rows -> wd_id (f delivery) = wd_id delivery ->
            g (f delivery) ∈ updateWhere (Webhooks.hasId (wd_id delivery)) g
                               (updateWhere (Webhooks.hasId (wd_id delivery)) f rows)).
  { intros f g rows Hin Hf. apply updateWhere_own; [now apply Hown|].
    unfold Webhooks.hasId. rewrite Hf. apply Z.eqb_refl. }
  destruct (WEBHOOK_URL env) as [url|];
    [destruct (nonEmpty url);
       [destruct (fetchResult env delivery) as [status errorText|message];
          [cbn [andb] in Hok; rewrite Hok|]|]|];
    cbn [negb].
  1, 2: eexists; split; [eexists; reflexivity|];
    intros results w Hin; unfold_task;
    destruct (maxRetries <=? wd_attempts delivery + 1)%N; cbn;
    now apply Hown2.
  all: exists delivery; split; [reflexivity|];
    intros results w Hin; unfold_task;
    destruct (maxRetries <=? wd_attempts delivery + 1)%N; cbn;
    now apply Hown.
Qed.

Lemma unique_delivery (rows : list WebhookDelivery) (a b : WebhookDelivery) :
  NoDup (map wd_id rows) -> a ∈ rows -> b ∈ rows -> wd_id a = wd_id b -> a = b.
Proof.
  intros Hnd Ha Hb Hid.
  pose proof (filter_own_id a rows Hnd Ha) as Hfilter.
  assert (Hmem : In b (List.filter (Webhooks.hasId (wd_id a)) rows)).
  { apply filter_In. split; [now apply list_elem_of_In|].
    unfold Webhooks.hasId. rewrite Hid. apply Z.eqb_refl. }
  rewrite Hfilter in Hmem. now destruct Hmem as [->|[]].
Qed.

Lemma selection_failed (now : Z) (rows : list WebhookDelivery) (delivery : WebhookDelivery) :
  delivery ∈ selectFailedDeliveries now rows -> wd_status delivery = "failed".
Proof.
  intros Hin. apply selection_sound in Hin as [_ Hdue].
  unfold isDue in Hdue. apply andb_true_iff in Hdue as [Hstatus _].
  now apply String.eqb_eq.
Qed.

(** X12.  A sweep that selects at least one delivery answers 200 with its
    counters: [processed] is the number of selected deliveries and never
    above fifty, [succeeded] is the number of them whose request got a 2xx
    answer, every processed delivery is either succeeded or failed, and
    [abandoned] never exceeds [failed]. *)
Theorem X12_sweep_counts_each_selected_delivery_once
    (env : Env) (method : string) (d : DB) :
  method <> "OPTIONS" -> selectError env = false ->
  selectFailedDeliveries (now env) (webhook_deliveries d) <> [] ->
  exists results,
    (run (handler env method) d).1.1
    = jsonResponse 200 (JObj [("message", JStr "Retry process completed");
                              ("results", resultsJson results)]) /\
    processed results = length (selectFailedDeliveries (now env) (webhook_deliveries d)) /\
    (processed results <= 50)%nat /\
    succeeded results
    = length (List.filter (attemptSucceeds env)
                (selectFailedDeliveries (now env) (webhook_deliveries d))) /\
    (succeeded results + failed results = processed results)%nat /\
    (abandoned results <= failed results)%nat.
Proof.
  intros Hmethod Herr Hsel.
  destruct (retryAll_spec env (selectFailedDeliveries (now env) (webhook_deliveries d))
              (mkResults 0 0 0 0) (mkWorld d []))
    as (results & Hall & Hp & Hs & Hsf & _ & Haf & _).
  exists results. rewrite (run_sweep env method d results) by assumption.
  cbn [fst processed succeeded failed abandoned] in *.
  pose proof (selection_length (now env) (webhook_deliveries d)).
  repeat split; try lia.
Qed.

(** X13.  With unique delivery ids, [abandoned] in the sweep's answer is
    exactly the number of selected deliveries that were not delivered and
    whose next attempt would have been the fifth or later. *)
Theorem X13_abandoned_counts_exhausted_deliveries
    (env : Env) (method : string) (d : DB) :
  method <> "OPTIONS" -> selectError env = false ->
  selectFailedDeliveries (now env) (webhook_deliveries d) <> [] ->
  NoDup (map wd_id (webhook_deliveries d)) ->
  exists results,
    (run (handler env method) d).1.1
    = jsonResponse 200 (JObj [("message", JStr "Retry process completed");
                              ("results", resultsJson results)]) /\
    abandoned results
    = length (List.filter
                (fun delivery => negb (attemptSucceeds env delivery)
                                 && attemptsExhausted delivery)
                (selectFailedDeliveries (now env) (webhook_deliveries d))).
Proof.
  intros Hmethod Herr Hsel Hnd.
  destruct (retryAll_spec env (selectFailedDeliveries (now env) (webhook_deliveries d))
              (mkResults 0 0 0 0) (mkWorld d []))
    as (results & Hall & _).
  exists results. rewrite (run_sweep env method d results) by assumption.
  split; [reflexivity|].
  rewrite (retryAll_abandoned env (selectFailedDeliveries (now env) (webhook_deliveries d))
             (mkResults 0 0 0 0) results (mkWorld d [])); auto.
  - now apply selection_NoDup.
  - intros delivery Hin. split.
    + now apply selection_sound in Hin as [Hin _].
    + now apply selection_failed in Hin.
Qed.

(** X14.  Whatever the request, the environment and the store, the retry
    function writes nothing to the idempotency ledger, the payments, the
    transactions or the stored events; it neither adds nor removes a
    delivery row nor changes a delivery's id; and it appends at most the one
    audit entry of a completed run. *)
Theorem X14_sweep_writes_only_deliveries_and_one_audit_entry
    (env : Env) (method : string) (d : DB) :
  let d' := (run (handler env method) d).1.2 in
  idempotency_keys d' = idempotency_keys d /\
  payments d' = payments d /\
  transactions d' = transactions d /\
  webhook_events d' = webhook_events d /\
  (run (handler env method) d).2 = [] /\
  map wd_id (webhook_deliveries d') = map wd_id (webhook_deliveries d) /\
  (audit_logs d' = audit_logs d
   \/ audit_logs d'
      = (audit_logs d ++ [mkAuditLog None "webhook_retry_run" "webhook_delivery"
                            (Some "bulk")])%list).
Proof.
  destruct (run_handler_cases env method d)
    as [[response Hrun]|(results & Hmethod & Herr & Hsel & Hall)].
  - rewrite Hrun. cbn. repeat split; auto.
  - rewrite (run_sweep env method d results) by assumption.
    destruct (retryAll_spec env (selectFailedDeliveries (now env) (webhook_deliveries d))
                (mkResults 0 0 0 0) (mkWorld d []))
      as (r & _ & _ & _ & _ & _ & _ & Hk & Hpay & Ht & Hlog & Hev & Htr & Hids & _).
    cbn in Hk, Hpay, Ht, Hlog, Hev, Htr, Hids |- *.
    repeat split; auto. right. now rewrite Hlog.
Qed.

(** X15.  With unique delivery ids, a delivery that is not due (its status
    is not [failed], or it has no [next_attempt_at], or that time is still
    ahead) is in the store after the sweep exactly as it was before. *)
Theorem X15_delivery_not_due_is_untouched
    (env : Env) (method : string) (d : DB) (row : WebhookDelivery) :
  NoDup (map wd_id (webhook_deliveries d)) ->
  row ∈ webhook_deliveries d ->
  isDue (now env) row = false ->
  row ∈ webhook_deliveries (run (handler env method) d).1.2.
Proof.
  intros Hnd Hin Hdue.
  destruct (run_handler_cases env method d)
    as [[response Hrun]|(results & Hmethod & Herr & Hsel & Hall)].
  - now rewrite Hrun.
  - rewrite (run_sweep env method d results) by assumption.
    destruct (retryAll_spec env (selectFailedDeliveries (now env) (webhook_deliveries d))
                (mkResults 0 0 0 0) (mkWorld d []))
      as (r & _ & _ & _ & _ & _ & _ & _ & _ & _ & _ & _ & _ & _ & Hkeep).
    cbn in Hkeep |- *. apply Hkeep; [exact Hin|].
    intros Hid. apply list_elem_of_fmap in Hid as (delivery & Heq & Hmem).
    apply selection_sound in Hmem as [Hmem Hdue'].
    assert (row = delivery) as -> by (now apply (unique_delivery (webhook_deliveries d))).
    congruence.
Qed.

Lemma sweep_applies (env : Env) (method : string) (d : DB) (delivery row' : WebhookDelivery) :
  method <> "OPTIONS" -> selectError env = false ->
  NoDup (map wd_id (webhook_deliveries d)) ->
  delivery ∈ selectFailedDeliveries (now env) (webhook_deliveries d) ->
  wd_id row' = wd_id delivery ->
  (forall results w, delivery ∈ webhook_deliveries (store w) ->
     row' ∈ webhook_deliveries (store (retryOne env delivery results w).2)) ->
  row' ∈ webhook_deliveries (run (handler env method) d).1.2.
Proof.
  intros Hmethod Herr Hnd Hmem Hid Hone.
  destruct (retryAll_spec env (selectFailedDeliveries (now env) (webhook_deliveries d))
              (mkResults 0 0 0 0) (mkWorld d []))
    as (results & Hall & _).
  rewrite (run_sweep env method d results); [|assumption|assumption| |assumption].
  - cbn. apply (retryAll_applies env _ _ _ delivery row'); auto.
    + now apply selection_NoDup.
    + cbn. now apply selection_sound in Hmem as [Hmem _].
  - intros Hnil. rewrite Hnil in Hmem. now apply elem_of_nil in Hmem.
Qed.

(** X16.  With unique delivery ids, a selected delivery whose request gets
    a 2xx answer ends the sweep as [delivered], stamped with the time of
    the sweep and with its error cleared; its attempt counter, schedule and
    payload are the ones it had. *)
Theorem X16_answered_delivery_ends_delivered
    (env : Env) (method : string) (d : DB) (delivery : WebhookDelivery) :
  method <> "OPTIONS" -> selectError env = false ->
  NoDup (map wd_id (webhook_deliveries d)) ->
  delivery ∈ selectFailedDeliveries (now env) (webhook_deliveries d) ->
  attemptSucceeds env delivery = true ->
  mkWebhookDelivery (wd_id delivery) (wd_event_type delivery) (wd_payload delivery)
    (wd_signature delivery) "delivered" (wd_attempts delivery) None
    (wd_next_attempt_at delivery) (Some (now env)) (wd_created_at delivery)
  ∈ webhook_deliveries (run (handler env method) d).1.2.
Proof.
  intros Hmethod Herr Hnd Hmem Hok.
  apply (sweep_applies env method d delivery); auto.
  intros results w Hin. now apply (retryOne_delivers env delivery Hok).
Qed.

(** X17.  With unique delivery ids, a selected delivery that is not
    delivered and has fewer than four attempts behind it ends the sweep
    still [failed], with its counter one higher and its next attempt set to
    the sweep's time plus the backoff delay of the new counter; this holds
    whether the request failed or no destination was configured. *)
Theorem X17_undelivered_below_limit_is_rescheduled
    (env : Env) (method : string) (d : DB) (delivery : WebhookDelivery) :
  method <> "OPTIONS" -> selectError env = false ->
  NoDup (map wd_id (webhook_deliveries d)) ->
  delivery ∈ selectFailedDeliveries (now env) (webhook_deliveries d) ->
  attemptSucceeds env delivery = false ->
  attemptsExhausted delivery = false ->
  exists row',
    row' ∈ webhook_deliveries (run (handler env method) d).1.2 /\
    wd_id row' = wd_id delivery /\
    wd_status row' = "failed" /\
    wd_attempts row' = (wd_attempts delivery + 1)%N /\
    wd_next_attempt_at row'
    = Some (now env
            + Z.of_N (Webhooks.nextAttemptDelay (wd_attempts delivery + 1)) * 1000) /\
    wd_payload row' = wd_payload delivery /\
    wd_signature row' = wd_signature delivery /\
    wd_delivered_at row' = wd_delivered_at delivery.
Proof.
  intros Hmethod Herr Hnd Hmem Hok Hmax.
  destruct (retryOne_undelivered env delivery Hok) as (base & Hbase & Hone).
  rewrite Hmax in Hone.
  pose proof (selection_failed _ _ _ Hmem) as Hstatus.
  assert (Hfields : wd_id base = wd_id delivery /\ wd_status base = "failed" /\
                    wd_payload base = wd_payload delivery /\
                    wd_signature base = wd_signature delivery /\
                    wd_delivered_at base = wd_delivered_at delivery).
  { destruct (destinationConfigured env); [destruct Hbase as [text ->]|subst base];
      cbn; auto. }
  destruct Hfields as (Hid & Hst & Hpl & Hsig & Hdel).
  eexists. split.
  - apply (sweep_applies env method d delivery); [assumption..| |exact Hone].
    exact Hid.
  - cbn. repeat split; auto.
Qed.

(** X18.  With unique delivery ids, a selected delivery that is not
    delivered and whose next attempt would be the fifth or later ends the
    sweep [abandoned] with the error "Maximum retry attempts (5) exceeded";
    its schedule is left as it was, and its counter is one higher exactly
    when a destination is configured. *)
Theorem X18_undelivered_at_limit_is_abandoned
    (env : Env) (method : string) (d : DB) (delivery : WebhookDelivery) :
  method <> "OPTIONS" -> selectError env = false ->
  NoDup (map wd_id (webhook_deliveries d)) ->
  delivery ∈ selectFailedDeliveries (now env) (webhook_deliveries d) ->
  attemptSucceeds env delivery = false ->
  attemptsExhausted delivery = true ->
  exists row',
    row' ∈ webhook_deliveries (run (handler env method) d).1.2 /\
    wd_id row' = wd_id delivery /\
    wd_status row' = "abandoned" /\
    wd_error row' = Some "Maximum retry attempts (5) exceeded" /\
    wd_attempts row'
    = (if destinationConfigured env then wd_attempts delivery + 1 else wd_attempts delivery)%N /\
    wd_next_attempt_at row' = wd_next_attempt_at delivery /\
    wd_payload row' = wd_payload delivery /\
    wd_delivered_at row' = wd_delivered_at delivery.
Proof.
  intros Hmethod Herr Hnd Hmem Hok Hmax.
  destruct (retryOne_undelivered env delivery Hok) as (base & Hbase & Hone).
  rewrite Hmax in Hone.
  assert (Hfields : wd_id base = wd_id delivery /\
                    wd_attempts base
                    = (if destinationConfigured env then wd_attempts delivery + 1
                       else wd_attempts delivery)%N /\
                    wd_next_attempt_at base = wd_next_attempt_at delivery /\
                    wd_payload base = wd_payload delivery /\
                    wd_delivered_at base = wd_delivered_at delivery).
  { destruct (destinationConfigured env); [destruct Hbase as [text ->]|subst base];
      cbn; auto. }
  destruct Hfields as (Hid & Hatt & Hnext & Hpl & Hdel).
  eexists. split.
  - apply (sweep_applies env method d delivery); [assumption..| |exact Hone].
    exact Hid.
  - cbn. repeat split; auto.
Qed.

(** X19.  A sweep that cannot read the deliveries answers 500 "Failed to
    fetch deliveries"; a sweep that finds no due delivery answers 200 "No
    deliveries to retry".  Either way the store is left as it was: no row
    is written and no audit entry is added. *)
Theorem X19_idle_sweep_writes_nothing (env : Env) (method : string) (d : DB) :
  method <> "OPTIONS" ->
  selectError env = true
  \/ (forall row, row ∈ webhook_deliveries d -> isDue (now env) row = false) ->
  run (handler env method) d
  = (if selectError env
     then jsonResponse 500 (errorJson "Failed to fetch deliveries")
     else jsonResponse 200 (messageJson "No deliveries to retry"),
     d, []).
Proof.
  intros Hmethod Hidle. apply run_idle; [exact Hmethod|].
  destruct Hidle as [Herr|Hrows]; [now left|right].
  now apply selection_idle.
Qed.

(** X20.  The time of the next attempt is always between one minute and
    one hour after the time it is computed at, and a higher attempt number
    never gives an earlier time. *)
Theorem X20_next_attempt_is_one_minute_to_one_hour_ahead (now : Z) (attempt more : N) :
  now + 60000 <= Webhooks.nextAttemptAt now attempt <= now + 3600000 /\
  Webhooks.nextAttemptAt now attempt <= Webhooks.nextAttemptAt now (attempt + more).
Proof.
  unfold Webhooks.nextAttemptAt. rewrite !WebhooksProofs.nextAttemptDelay_Z.
  assert (H1 : 1 <= 2 ^ Z.of_N attempt) by (apply (Z.pow_le_mono_r 2 0); lia).
  assert (H2 : 2 ^ Z.of_N attempt <= 2 ^ Z.of_N (attempt + more))
    by (apply Z.pow_le_mono_r; lia).
  lia.
Qed.

(** ** Instances

    Three rows at time 1000: one due with one attempt behind it, one due
    with four, one scheduled for later. *)

Lemma X12_witness :
  let payload := mkWebhookPayload "payment.succeeded"
                   (mkEventData (Some "pay_1") (Some "gw_1")) "2025-01-01T00:00:00Z" "evt_1" in
  let first := mkWebhookDelivery 1 "payment.succeeded" payload "sha256=00" "failed" 1
                 (Some "HTTP 503: busy") (Some 500) None 10 in
  let last := mkWebhookDelivery 2 "payment.succeeded" payload "sha256=00" "failed" 4
                (Some "HTTP 503: busy") (Some 600) None 20 in
  let later := mkWebhookDelivery 3 "payment.succeeded" payload "sha256=00" "failed" 1
                 (Some "HTTP 503: busy") (Some 5000) None 5 in
  let d := withDeliveries (fun _ => [first; last; later]) emptyDB in
  let env := mkEnv 1000 (Some "https://example.test")
               (fun delivery => if (wd_id delivery =? 1)%Z then Responded 200 "ok"
                                else Rejected "connection refused") false in
  exists results,
    (run (handler env "POST") d).1.1
    = jsonResponse 200 (JObj [("message", JStr "Retry process completed");
                              ("results", resultsJson results)]) /\
    processed results = length (selectFailedDeliveries (now env) (webhook_deliveries d)) /\
    (processed results <= 50)%nat /\
    succeeded results
    = length (List.filter (attemptSucceeds env)
                (selectFailedDeliveries (now env) (webhook_deliveries d))) /\
    (succeeded results + failed results = processed results)%nat /\
    (abandoned results <= failed results)%nat.
Proof.
  intros payload first last later d env.
  apply (X12_sweep_counts_each_selected_delivery_once env "POST" d).
  - discriminate.
  - reflexivity.
  - intros Hsel. vm_compute in Hsel. discriminate Hsel.
Defined.

Lemma X13_witness :
  let payload := mkWebhookPayload "payment.succeeded"
                   (mkEventData (Some "pay_1") (Some "gw_1")) "2025-01-01T00:00:00Z" "evt_1" in
  let first := mkWebhookDelivery 1 "payment.succeeded" payload "sha256=00" "failed" 1
                 (Some "HTTP 503: busy") (Some 500) None 10 in
  let last := mkWebhookDelivery 2 "payment.succeeded" payload "sha256=00" "failed" 4
                (Some "HTTP 503: busy") (Some 600) None 20 in
  let d := withDeliveries (fun _ => [first; last]) emptyDB in
  let env := mkEnv 1000 (Some "https://example.test")
               (fun _ => Rejected "connection refused") false in
  exists results,
    (run (handler env "POST") d).1.1
    = jsonResponse 200 (JObj [("message", JStr "Retry process completed");
                              ("results", resultsJson results)]) /\
    abandoned results
    = length (List.filter
                (fun delivery => negb (attemptSucceeds env delivery)
                                 && attemptsExhausted delivery)
                (selectFailedDeliveries (now env) (webhook_deliveries d))).
Proof.
  intros payload first last d env.
  apply (X13_abandoned_counts_exhausted_deliveries env "POST" d).
  - discriminate.
  - reflexivity.
  - intros Hsel. vm_compute in Hsel. discriminate Hsel.
  - apply NoDup_ListNoDup. repeat constructor; simpl; intuition discriminate.
Defined.

Lemma X15_witness :
  let payload := mkWebhookPayload "payment.succeeded"
                   (mkEventData (Some "pay_1") (Some "gw_1")) "2025-01-01T00:00:00Z" "evt_1" in
  let first := mkWebhookDelivery 1 "payment.succeeded" payload "sha256=00" "failed" 1
                 (Some "HTTP 503: busy") (Some 500) None 10 in
  let later := mkWebhookDelivery 3 "payment.succeeded" payload "sha256=00" "failed" 1
                 (Some "HTTP 503: busy") (Some 5000) None 5 in
  let d := withDeliveries (fun _ => [first; later]) emptyDB in
  let env := mkEnv 1000 (Some "https://example.test")
               (fun _ => Rejected "connection refused") false in
  later ∈ webhook_deliveries (run (handler env "POST") d).1.2.
Proof.
  intros payload first later d env.
  apply (X15_delivery_not_due_is_untouched env "POST" d later).
  - apply NoDup_ListNoDup. repeat constructor; simpl; intuition discriminate.
  - apply list_elem_of_In. simpl. auto.
  - reflexivity.
Defined.

Lemma X16_witness :
  let payload := mkWebhookPayload "payment.succeeded"
                   (mkEventData (Some "pay_1") (Some "gw_1")) "2025-01-01T00:00:00Z" "evt_1" in
  let first := mkWebhookDelivery 1 "payment.succeeded" payload "sha256=00" "failed" 1
                 (Some "HTTP 503: busy") (Some 500) None 10 in
  let last := mkWebhookDelivery 2 "payment.succeeded" payload "sha256=00" "failed" 4
                (Some "HTTP 503: busy") (Some 600) None 20 in
  let d := withDeliveries (fun _ => [first; last]) emptyDB in
  let env := mkEnv 1000 (Some "https://example.test")
               (fun delivery => if (wd_id delivery =? 1)%Z then Responded 200 "ok"
                                else Rejected "connection refused") false in
  mkWebhookDelivery 1 "payment.succeeded" payload "sha256=00" "delivered" 1 None
    (Some 500) (Some 1000) 10
  ∈ webhook_deliveries (run (handler env "POST") d).1.2.
Proof.
  intros payload first last d env.
  apply (X16_answered_delivery_ends_delivered env "POST" d first).
  - discriminate.
  - reflexivity.
  - apply NoDup_ListNoDup. repeat constructor; simpl; intuition discriminate.
  - apply list_elem_of_In. vm_compute. auto.
  - reflexivity.
Defined.

Lemma X17_witness :
  let payload := mkWebhookPayload "payment.succeeded"
                   (mkEventData (Some "pay_1") (Some "gw_1")) "2025-01-01T00:00:00Z" "evt_1" in
  let first := mkWebhookDelivery 1 "payment.succeeded" payload "sha256=00" "failed" 1
                 (Some "HTTP 503: busy") (Some 500) None 10 in
  let last := mkWebhookDelivery 2 "payment.succeeded" payload "sha256=00" "failed" 4
                (Some "HTTP 503: busy") (Some 600) None 20 in
  let d := withDeliveries (fun _ => [first; last]) emptyDB in
  let env := mkEnv 1000 None (fun _ => Rejected "connection refused") false in
  exists row',
    row' ∈ webhook_deliveries (run (handler env "POST") d).1.2 /\
    wd_id row' = 1 /\
    wd_status row' = "failed" /\
    wd_attempts row' = 2%N /\
    wd_next_attempt_at row' = Some 241000 /\
    wd_payload row' = payload /\
    wd_signature row' = "sha256=00" /\
    wd_delivered_at row' = None.
Proof.
  intros payload first last d env.
  apply (X17_undelivered_below_limit_is_rescheduled env "POST" d first).
  - discriminate.
  - reflexivity.
  - apply NoDup_ListNoDup. repeat constructor; simpl; intuition discriminate.
  - apply list_elem_of_In. vm_compute. auto.
  - reflexivity.
  - reflexivity.
Defined.

Lemma X18_witness :
  let payload := mkWebhookPayload "payment.succeeded"
                   (mkEventData (Some "pay_1") (Some "gw_1")) "2025-01-01T00:00:00Z" "evt_1" in
  let first := mkWebhookDelivery 1 "payment.succeeded" payload "sha256=00" "failed" 1
                 (Some "HTTP 503: busy") (Some 500) None 10 in
  let last := mkWebhookDelivery 2 "payment.succeeded" payload "sha256=00" "failed" 4
                (Some "HTTP 503: busy") (Some 600) None 20 in
  let d := withDeliveries (fun _ => [first; last]) emptyDB in
  let env := mkEnv 1000 (Some "https://example.test")
               (fun _ => Responded 503 "busy") false in
  exists row',
    row' ∈ webhook_deliveries (run (handler env "POST") d).1.2 /\
    wd_id row' = 2 /\
    wd_status row' = "abandoned" /\
    wd_error row' = Some "Maximum retry attempts (5) exceeded" /\
    wd_attempts row' = 5%N /\
    wd_next_attempt_at row' = Some 600 /\
    wd_payload row' = payload /\
    wd_delivered_at row' = None.
Proof.
  intros payload first last d env.
  apply (X18_undelivered_at_limit_is_abandoned env "POST" d last).
  - discriminate.
  - reflexivity.
  - apply NoDup_ListNoDup. repeat constructor; simpl; intuition discriminate.
  - apply list_elem_of_In. vm_compute. auto.
  - reflexivity.
  - reflexivity.
Defined.

Lemma X19_witness :
  let payload := mkWebhookPayload "payment.succeeded"
                   (mkEventData (Some "pay_1") (Some "gw_1")) "2025-01-01T00:00:00Z" "evt_1" in
  let later := mkWebhookDelivery 3 "payment.succeeded" payload "sha256=00" "failed" 1
                 (Some "HTTP 503: busy") (Some 5000) None 5 in
  let d := withDeliveries (fun _ => [later]) emptyDB in
  let env := mkEnv 1000 (Some "https://example.test")
               (fun _ => Responded 200 "ok") false in
  run (handler env "POST") d
  = (jsonResponse 200 (messageJson "No deliveries to retry"), d, []).
Proof.
  intros payload later d env.
  apply (X19_idle_sweep_writes_nothing env "POST" d).
  - discriminate.
  - right. intros row Hin. apply elem_of_cons in Hin as [->|Hin]; [reflexivity|].
    now apply elem_of_nil in Hin.
Defined.

End RetryMore.

(* ===================================================================== *)
(** * Further properties of the payment intake function *)
(* ===================================================================== *)

Module PaymentsMore.
Import Payments PaymentsProofs.

Lemma updateWhere_none {A : Type} (p : A -> bool) (f : A -> A) (rows : list A) :
  (forall row, row ∈ rows -> p row = false) -> updateWhere p f rows = rows.
Proof.
  intros Hnone. unfold updateWhere. induction rows as [|row rows IH]; [reflexivity|].
  cbn [map]. rewrite (Hnone row) by apply list_elem_of_here.
  f_equal. apply IH. intros other Hin. apply Hnone. now apply list_elem_of_further.
Qed.

(** What the locked section leaves alone. *)
Lemma locked_section_frame (env : Env) (key : string) (requestBody : PaymentRequest)
    (w : World) :
  let out := tryCatch (processPayment env key requestBody) (releaseWithError env key) w in
  webhook_events (store out.2) = webhook_events (store w) /\
  webhook_deliveries (store out.2) = webhook_deliveries (store w) /\
  audit_logs (store out.2) = audit_logs (store w) /\
  (paymentInsert env <> Inserted ->
     payments (store out.2) = payments (store w) /\
     transactions (store out.2) = transactions (store w)).
Proof.
  unfold processPayment, releaseWithError, release, createAuditLog. unfold_task.
  destruct (paymentInsert env) as [|message|] eqn:Hins.
  - destruct (updateError env), (txnError env), (releaseError env); cbn;
      repeat split; congruence.
  - destruct (releaseError env); cbn; repeat split; reflexivity.
  - destruct (releaseError env); cbn; repeat split; reflexivity.
Qed.

Section WithRuntime.
Context `{Runtime}.


(** X22.  Every invocation either writes nothing at all, or is a POST that
    took the lock for its own key, issued the release once and is answered
    400 with an error: the TypeError of the audit call, with exactly one
    more payment row, when the payment insert succeeded; payments and
    transactions as they were otherwise.  No invocation writes the audit
    log, the stored events or the deliveries. *)
Theorem X22_store_changes_only_under_the_lock (env : Env) (req : Request) (d : DB) :
  let out := run (handler env req) d in
  webhook_events out.1.2 = webhook_events d /\
  webhook_deliveries out.1.2 = webhook_deliveries d /\
  audit_logs out.1.2 = audit_logs d /\
  ((out.2 = [] /\ out.1.2 = d)
   \/ exists key message,
        req_method req = "POST" /\ req_idempotency_key req = Some key /\
        out.2 = [Acquire key; Release key 400] /\
        out.1.1 = jsonResponse 400 (errorJson message) /\
        ((paymentInsert env = Inserted /\
          message = "supabase.rpc(...).catch is not a function" /\
          length (payments out.1.2) = S (length (payments d)))
         \/ (paymentInsert env <> Inserted /\
             payments out.1.2 = payments d /\
             transactions out.1.2 = transactions d))).
Proof.
  cbv zeta. rewrite run_handler.
  destruct (req_method req =? "OPTIONS") eqn:Hopt; [cbn; auto 6|].
  destruct (req_method req =? "POST") eqn:Hpost; cbn [negb]; [|cbn; auto 6].
  apply String.eqb_eq in Hpost.
  destruct (handlePost_classify env req (mkWorld d []))
    as [(o & -> & _)|[(_ & ->)|(key & requestBody & Hkey & Hne & Hjson & Hamount & ->)]].
  - destruct o; cbn; auto 6.
  - cbn. auto 6.
  - set (w0 := mkWorld _ _).
    destruct (locked_section_releases env key requestBody w0)
      as (message & Hret & Htrace & _ & Hmessage).
    pose proof (locked_section_payments env key requestBody w0) as Hlen.
    destruct (locked_section_frame env key requestBody w0) as (Hev & Hdel & Hlog & Hframe).
    destruct (tryCatch (processPayment env key requestBody) (releaseWithError env key) w0)
      as [out w'] eqn:Hout.
    cbn [fst snd] in Hret, Htrace, Hlen, Hev, Hdel, Hlog, Hframe. subst out. cbn [fst snd].
    split; [exact Hev|]. split; [exact Hdel|]. split; [exact Hlog|].
    right. exists key, message. repeat split; auto.
    destruct (paymentInsert env) as [|reason|] eqn:Hins.
    + left. auto.
    + right. split; [discriminate|]. apply Hframe. discriminate.
    + right. split; [discriminate|]. apply Hframe. discriminate.
Qed.

(** X23.  While a request is in flight its key is locked: a valid request
    with the same key and the same body (or a key recorded without a
    hash) whose ledger lookup answers is refused with 409 "Request is
    being processed", and nothing is written. *)
Theorem X23_request_in_flight_is_refused (env : Env) (req : Request) (d : DB)
    (key : string) (requestBody : PaymentRequest) (row : IdempotencyKey) :
  req_method req = "POST" ->
  req_idempotency_key req = Some key -> key <> "" ->
  req_json req = JsonValue requestBody -> invalidAmount requestBody = false ->
  keySelectErr env = false ->
  idempotency_keys d !! key = Some row ->
  ik_request_hash row = "" \/
  ik_request_hash row = sha256Hex (stringifyRequest requestBody) ->
  ik_locked row = true ->
  run (handler env req) d
  = (jsonResponse 409 (errorJson "Request is being processed"), d, []).
Proof.
  intros Hmethod Hkey Hne Hjson Hamount Hsel Hrow Hhash Hlocked.
  rewrite run_handler, Hmethod. cbn [String.eqb Ascii.eqb Bool.eqb negb].
  unfold handlePost. rewrite Hkey. unfold nonEmpty at 1.
  rewrite bool_decide_eq_false_2 by assumption. cbn [negb].
  rewrite Hjson, Hamount. cbv zeta.
  unfold_task. cbn [store].
  rewrite Hsel, Hrow. unfold answerFromLedger.
  assert (Hpass : nonEmpty (ik_request_hash row)
                  && negb (ik_request_hash row =? sha256Hex (stringifyRequest requestBody))
                  = false).
  { destruct Hhash as [->| ->]; [reflexivity|].
    now rewrite String.eqb_refl, andb_false_r. }
  rewrite Hpass, Hlocked. reflexivity.
Qed.

(** X24.  The first valid request under a key, when the lock is taken and
    the store creates the payment under a fresh id, records the payment
    and is answered as failed.  One payment row is appended, [pending]
    without a gateway reference when recording the gateway's answer failed
    and with the gateway's status and reference otherwise; one transaction
    row is appended unless the store refuses it; no audit entry is
    written.  The answer is 400 with the TypeError of the audit call, never
    201.  The key carries the request hash; it is unlocked with that error
    and 400 stored when the store takes the release, and stays locked
    without a response when it refuses. *)
Theorem X24_created_payment_is_answered_400 (env : Env) (req : Request) (d : DB)
    (key : string) (requestBody : PaymentRequest) (amount : Z) :
  req_method req = "POST" ->
  req_idempotency_key req = Some key -> key <> "" ->
  req_json req = JsonValue requestBody ->
  amount_cents requestBody = Some amount -> 0 < amount ->
  idempotency_keys d !! key = None ->
  lockError env = false ->
  paymentInsert env = Inserted ->
  (forall p, p ∈ payments d -> p_id p <> new_payment_id env) ->
  let status := if gateway_succeeds env then "succeeded" else "failed" in
  let reference := "pay_" +:+ numToString (now env) +:+ "_" +:+ random_suffix env in
  let failure := errorJson "supabase.rpc(...).catch is not a function" in
  let out := run (handler env req) d in
  out.1.1 = jsonResponse 400 failure /\
  payments out.1.2
  = (payments d ++
     [mkPaymentRow (new_payment_id env) amount (default "USD" (currency requestBody))
        (customer_email requestBody) (payment_method requestBody) (user_id requestBody)
        (Some reference) key
        (if updateError env then "pending" else status)
        (if updateError env then None else Some ("gw_" +:+ numToString (now env)))
        (now env)])%list /\
  transactions out.1.2
  = (if txnError env then transactions d
     else transactions d ++
          [mkTransactionRow (new_payment_id env) ("gw_" +:+ numToString (now env)) "payment"
             amount (default "USD" (currency requestBody)) status
             (if gateway_succeeds env then Some (now env) else None)])%list /\
  audit_logs out.1.2 = audit_logs d /\
  idempotency_keys out.1.2 !! key
  = Some (mkIdempotencyKey "/payments" "POST" (sha256Hex (stringifyRequest requestBody))
            (releaseError env) (now env)
            (if releaseError env then None else Some failure)
            (if releaseError env then None else Some 400)) /\
  out.2 = [Acquire key; Release key 400].
Proof.
  intros Hmethod Hkey Hne Hjson Hsome Hpos Hnew Hlock Hins Hfresh.
  cbv zeta.
  assert (Hamount : invalidAmount requestBody = false).
  { unfold invalidAmount. rewrite Hsome.
    apply orb_false_iff. split; [apply Z.eqb_neq|apply Z.leb_gt]; lia. }
  assert (Hupd : forall f,
    updateWhere (fun p => p_id p =? new_payment_id env) f (payments d) = payments d).
  { intros f. apply updateWhere_none. intros p Hp. now apply String.eqb_neq, Hfresh. }
  destruct (run (handler env req) d) as [[response d'] trace] eqn:Hrun.
  revert Hrun.
  rewrite run_handler, Hmethod. cbn [String.eqb Ascii.eqb Bool.eqb negb].
  unfold handlePost. rewrite Hkey. unfold nonEmpty at 1.
  rewrite bool_decide_eq_false_2 by assumption. cbn [negb].
  rewrite Hjson, Hamount. cbv zeta.
  unfold_task. cbn [store].
  assert (Hans : answerFromLedger
                   (if keySelectErr env then None else idempotency_keys d !! key)
                   (sha256Hex (stringifyRequest requestBody)) = None).
  { rewrite Hnew. now destruct (keySelectErr env). }
  rewrite Hans, Hlock.
  unfold processPayment, releaseWithError, release, createAuditLog. unfold_task.
  rewrite Hins, Hsome.
  destruct (updateError env), (txnError env), (releaseError env);
    cbn -[String.append numToString updateWhere];
    intros [= <- <- <-];
    cbn -[String.append numToString updateWhere];
    rewrite ?lookup_alter_eq, ?lookup_partial_alter_eq, ?Hnew;
    (split; [reflexivity|]);
    (split; [|repeat split; reflexivity]);
    try reflexivity.
  all: unfold updateWhere; rewrite map_app;
       fold (updateWhere (fun p => p_id p =? new_payment_id env)
               (setGatewayResult (if gateway_succeeds env then "succeeded" else "failed")
                  ("gw_" +:+ numToString (now env))) (payments d));
       rewrite Hupd; cbn [map p_id]; rewrite String.eqb_refl; reflexivity.
Qed.

(** X25.  When the ledger lookup reports an error the record under the key
    is not consulted: a valid request whose lock and payment insert succeed
    takes the lock and creates one more payment row, whatever the ledger
    holds under the key, and is answered 400 with the TypeError of the
    audit call. *)
Theorem X25_failed_lookup_skips_the_ledger (env : Env) (req : Request) (d : DB)
    (key : string) (requestBody : PaymentRequest) :
  req_method req = "POST" ->
  req_idempotency_key req = Some key -> key <> "" ->
  req_json req = JsonValue requestBody -> invalidAmount requestBody = false ->
  keySelectErr env = true ->
  lockError env = false ->
  paymentInsert env = Inserted ->
  let out := run (handler env req) d in
  out.1.1 = jsonResponse 400 (errorJson "supabase.rpc(...).catch is not a function") /\
  out.2 = [Acquire key; Release key 400] /\
  length (payments out.1.2) = S (length (payments d)).
Proof.
  intros Hmethod Hkey Hne Hjson Hamount Hsel Hlock Hins. cbv zeta.
  destruct (run (handler env req) d) as [[response d'] trace] eqn:Hrun.
  revert Hrun.
  rewrite run_handler, Hmethod. cbn [String.eqb Ascii.eqb Bool.eqb negb].
  unfold handlePost. rewrite Hkey. unfold nonEmpty at 1.
  rewrite bool_decide_eq_false_2 by assumption. cbn [negb].
  rewrite Hjson, Hamount. cbv zeta.
  unfold mbind, task_bind, bind, mret, task_ret, ret, getStore, modifyStore, emit.
  cbn [store]. rewrite Hsel. cbn [answerFromLedger]. rewrite Hlock.
  cbn [store ledger_trace app].
  set (w0 := mkWorld _ _).
  destruct (locked_section_releases env key requestBody w0)
    as (message & Hret & Htrace & _ & Hmessage).
  pose proof (locked_section_payments env key requestBody w0) as Hlen.
  destruct (tryCatch (processPayment env key requestBody) (releaseWithError env key) w0)
    as [out w'] eqn:Hout.
  cbn [fst snd] in Hret, Htrace, Hlen. subst out. cbn beta iota.
  intros [= <- <- <-]. cbn [fst snd].
  rewrite Hins in Hmessage, Hlen. subst message.
  rewrite Htrace, Hlen. repeat split.
Qed.

(** X26.  An invocation writes no ledger row but the one of its own
    Idempotency-Key: every other key reads as before. *)
Theorem X26_other_keys_are_not_written (env : Env) (req : Request) (d : DB)
    (other : string) :
  req_idempotency_key req <> Some other ->
  idempotency_keys (run (handler env req) d).1.2 !! other = idempotency_keys d !! other.
Proof.
  intros Hother. rewrite run_handler.
  destruct (req_method req =? "OPTIONS"); [reflexivity|].
  destruct (negb (req_method req =? "POST")); [reflexivity|].
  destruct (handlePost_classify env req (mkWorld d []))
    as [(o & -> & _)|[(_ & ->)|(key & requestBody & Hkey & _ & _ & _ & ->)]].
  - destruct o; reflexivity.
  - reflexivity.
  - set (w0 := mkWorld _ _).
    destruct (locked_section_releases env key requestBody w0)
      as (message & Hret & _ & Hkeys & _).
    destruct (tryCatch (processPayment env key requestBody) (releaseWithError env key) w0)
      as [out w'] eqn:Hout.
    cbn [fst snd] in Hret, Hkeys. subst out. cbn [fst snd].
    rewrite Hkeys. subst w0. cbn [store withKeys idempotency_keys].
    assert (key <> other) by congruence.
    destruct (releaseError env).
    + now rewrite lookup_partial_alter_ne by assumption.
    + now rewrite lookup_alter_ne, lookup_partial_alter_ne by assumption.
Qed.

(** X27.  A request hash is always 64 lowercase hexadecimal digits. *)
Theorem X27_request_hash_is_64_hex_digits (input : string) :
  String.length (sha256Hex input) = 64%nat /\ Hex.allHex (sha256Hex input) = true.
Proof.
  unfold sha256Hex. split.
  - now rewrite HexProofs.toHex_length, sha256_length.
  - apply HexProofs.toHex_allHex.
Qed.

End WithRuntime.

(** ** Instances under the sample runtime *)


Lemma X23_witness :
  let body := mkPaymentRequest (Some 10000) (Some "USD") None None None in
  let row := mkIdempotencyKey "/payments" "POST"
               (@sha256Hex sampleRuntime (sampleStringify body)) true 5 None None in
  let d := withKeys (insert "K1" row) emptyDB in
  let req := mkRequest "POST" (Some "K1") (JsonValue body) in
  let env := mkEnv 1700000000000 "abc123xyz" true "pay-uuid-1"
               false false Inserted false false false in
  run (@handler sampleRuntime env req) d
  = (jsonResponse 409 (errorJson "Request is being processed"), d, []).
Proof.
  intros body row d req env.
  refine (@X23_request_in_flight_is_refused sampleRuntime env req d "K1" body row
            _ _ _ _ _ _ _ _ _).
  - reflexivity.
  - reflexivity.
  - discriminate.
  - reflexivity.
  - reflexivity.
  - reflexivity.
  - reflexivity.
  - right. reflexivity.
  - reflexivity.
Defined.

Lemma X24_witness :
  let body := mkPaymentRequest (Some 10000) None (Some "a@example.test") None None in
  let req := mkRequest "POST" (Some "K1") (JsonValue body) in
  let env := mkEnv 1700000000000 "abc123xyz" true "pay-uuid-1"
               false false Inserted false false false in
  (run (@handler sampleRuntime env req) emptyDB).1.1
  = jsonResponse 400 (errorJson "supabase.rpc(...).catch is not a function") /\
  payments (run (@handler sampleRuntime env req) emptyDB).1.2
  = [mkPaymentRow "pay-uuid-1" 10000 "USD" (Some "a@example.test") None None
       (Some "pay_1700000000000_abc123xyz") "K1" "succeeded" (Some "gw_1700000000000")
       1700000000000].
Proof.
  intros body req env.
  destruct (@X24_created_payment_is_answered_400 sampleRuntime env req emptyDB "K1" body 10000)
    as (Hresp & Hpay & _).
  - reflexivity.
  - reflexivity.
  - discriminate.
  - reflexivity.
  - reflexivity.
  - lia.
  - reflexivity.
  - reflexivity.
  - reflexivity.
  - intros p Hp. now apply elem_of_nil in Hp.
  - split; [exact Hresp|exact Hpay].
Defined.

Lemma X25_witness :
  let body := mkPaymentRequest (Some 10000) (Some "USD") None None None in
  let row := mkIdempotencyKey "/payments" "POST"
               (@sha256Hex sampleRuntime (sampleStringify body)) true 5 None None in
  let d := withKeys (insert "K1" row) emptyDB in
  let req := mkRequest "POST" (Some "K1") (JsonValue body) in
  let env := mkEnv 1700000000000 "abc123xyz" true "pay-uuid-1"
               true false Inserted false false false in
  (run (@handler sampleRuntime env req) d).1.1
  = jsonResponse 400 (errorJson "supabase.rpc(...).catch is not a function") /\
  (run (@handler sampleRuntime env req) d).2 = [Acquire "K1"; Release "K1" 400] /\
  length (payments (run (@handler sampleRuntime env req) d).1.2) = S (length (payments d)).
Proof.
  intros body row d req env.
  refine (@X25_failed_lookup_skips_the_ledger sampleRuntime env req d "K1" body
            _ _ _ _ _ _ _ _).
  - reflexivity.
  - reflexivity.
  - discriminate.
  - reflexivity.
  - reflexivity.
  - reflexivity.
  - reflexivity.
  - reflexivity.
Defined.

Lemma X26_witness :
  let body := mkPaymentRequest (Some 10000) (Some "USD") None None None in
  let row := mkIdempotencyKey "/payments" "POST" "00" true 5 None None in
  let d := withKeys (insert "K2" row) emptyDB in
  let req := mkRequest "POST" (Some "K1") (JsonValue body) in
  let env := mkEnv 1700000000000 "abc123xyz" true "pay-uuid-1"
               false false Inserted false false false in
  idempotency_keys (run (@handler sampleRuntime env req) d).1.2 !! "K2"
  = idempotency_keys d !! "K2".
Proof.
  intros body row d req env.
  refine (@X26_other_keys_are_not_written sampleRuntime env req d "K2" _).
  discriminate.
Defined.

End PaymentsMore.

(* ===================================================================== *)
(** * The hexadecimal rendering is faithful *)
(* ===================================================================== *)

Module HexMore.
Import Hex HexProofs.

(** The two digits of a byte give the byte back. *)
Lemma byte_digits_decode :
  exists decode : ascii -> ascii -> Byte.byte,
    forall (b : Byte.byte) (rest : string),
    exists c1 c2,
      padStart2 (toString16 b) +:+ rest = String c1 (String c2 rest) /\
      decode c1 c2 = b.
Proof.
  exists (fun c1 c2 =>
            let value c := let n := N_of_ascii c in
                           if (n <? 97)%N then (n - 48)%N else (n - 87)%N in
            default Byte.x00 (Byte.of_N (16 * value c1 + value c2))).
  intros b rest. destruct b; do 2 eexists; split; reflexivity.
Qed.

(** X28.  The hexadecimal rendering loses nothing: two byte sequences with
    the same rendering are the same sequence.  Comparing request hashes or
    signatures as text is therefore comparing the digests. *)
Theorem X28_hex_rendering_is_injective (a b : list Byte.byte) :
  toHex a = toHex b -> a = b.
Proof.
  destruct byte_digits_decode as (decode & Hdecode).
  revert b. induction a as [|x a IH]; intros [|y b] Heq.
  - reflexivity.
  - rewrite toHex_cons in Heq. destruct (Hdecode y (toHex b)) as (c1 & c2 & Hy & _).
    rewrite Hy in Heq. discriminate.
  - rewrite toHex_cons in Heq. destruct (Hdecode x (toHex a)) as (c1 & c2 & Hx & _).
    rewrite Hx in Heq. discriminate.
  - rewrite !toHex_cons in Heq.
    destruct (Hdecode x (toHex a)) as (c1 & c2 & Hx & Hdx).
    destruct (Hdecode y (toHex b)) as (c3 & c4 & Hy & Hdy).
    rewrite Hx, Hy in Heq. injection Heq as -> -> Hrest.
    f_equal; [congruence|now apply IH].
Qed.

Lemma X28_witness : [Byte.x0a; Byte.xff] = [Byte.x0a; Byte.xff].
Proof. apply X28_hex_rendering_is_injective. reflexivity. Defined.

End HexMore.
